(** * RF remote relay controller: RF-shield_4relay.ino

    A shallow embedding of the sketch that binds four learned 32-bit RF
    codes to four relay outputs and keeps both the codes and the relay
    states in an external I2C EEPROM (24LC256 at bus address 0x50).

    The sketch is a set of global variables mutated by [setup], [loop],
    [handleRFInput], [enterLearningMode] and the four EEPROM helpers.  The
    embedding threads one [State] record through the same functions.  The
    record holds the sketch's globals together with the hardware the sketch
    talks to: the millisecond clock, the output pins, the learn button, the
    EEPROM cells, the RF receiver's latch and an ordered log of every
    externally visible effect. *)

From Stdlib Require Import ZArith Lia.
From stdpp Require Import gmap list strings.
From coqutil Require Import Z.bitblast.

Local Open Scope Z_scope.

(** ** Machine integers *)

(** [unsigned long] is 32 bits wide on the AVR targets of the sketch. *)
Definition u32 (z : Z) : Z := z mod 2 ^ 32.

(** [byte] is 8 bits wide. *)
Definition u8 (z : Z) : Z := z mod 2 ^ 8.

(** ** Constants of the sketch *)

Definition EEPROM_ADDR : Z := 80.
Definition relayPins : list Z := [3; 4; 5; 6].
Definition learnButtonPin : Z := 7.
Definition debounceTime : Z := 1000.
Definition debounceDelay : Z := 50.
Definition learningModeTimeout : Z := 300000.

(** ** Observable effects *)

Inductive Event : Type :=
| DigitalWrite (pin : Z) (high : bool)
| BusWrite (bytes : list Z) (status : Z)
| BusRequest (quantity : Z) (received : list Z)
| Delay (ms : Z)
| SerialText (msg : string)
| SerialNum (n : Z)
| ResetAvailable.

(** One answer of the two-wire bus: the return code of
    [Wire.endTransmission] (0 is success) and, for a [Wire.requestFrom],
    how many of the requested bytes fail to arrive. *)
Record BusResp : Type := mkBusResp { endStatus : Z; missing : nat }.

Definition healthy : BusResp := mkBusResp 0 0.

(** ** Program and board state *)

Record State : Type := mkState {
  (* globals of the sketch *)
  relayStates : list bool;
  buttonCodes : list Z;
  learningMode : bool;
  learnStep : nat;
  lastReceivedTime : Z;
  lastReceivedCode : Z;
  lastDebounceTime : Z;
  learningModeStartTime : Z;
  (* the board *)
  clock : Z;                 (* value returned by millis() *)
  pins : gmap Z bool;        (* level last driven on each output pin *)
  buttonLow : bool;          (* digitalRead(learnButtonPin) == LOW *)
  eeprom : gmap Z Z;         (* written cells of the 24LC256 *)
  cursor : Z;                (* the EEPROM's internal address pointer *)
  bus : list BusResp;        (* answers the bus will give, oldest first *)
  rxAvailable : bool;        (* mySwitch.available() *)
  rxValue : Z;               (* mySwitch.getReceivedValue() *)
  trace : list Event         (* effects so far, oldest first *)
}.

Definition set_relayStates (v : list bool) (s : State) : State :=
  mkState v (buttonCodes s) (learningMode s) (learnStep s)
    (lastReceivedTime s) (lastReceivedCode s) (lastDebounceTime s)
    (learningModeStartTime s) (clock s) (pins s) (buttonLow s) (eeprom s)
    (cursor s) (bus s) (rxAvailable s) (rxValue s) (trace s).
Definition set_buttonCodes (v : list Z) (s : State) : State :=
  mkState (relayStates s) v (learningMode s) (learnStep s)
    (lastReceivedTime s) (lastReceivedCode s) (lastDebounceTime s)
    (learningModeStartTime s) (clock s) (pins s) (buttonLow s) (eeprom s)
    (cursor s) (bus s) (rxAvailable s) (rxValue s) (trace s).
Definition set_learningMode (v : bool) (s : State) : State :=
  mkState (relayStates s) (buttonCodes s) v (learnStep s) (lastReceivedTime s)
    (lastReceivedCode s) (lastDebounceTime s) (learningModeStartTime s)
    (clock s) (pins s) (buttonLow s) (eeprom s) (cursor s) (bus s)
    (rxAvailable s) (rxValue s) (trace s).
Definition set_learnStep (v : nat) (s : State) : State :=
  mkState (relayStates s) (buttonCodes s) (learningMode s) v
    (lastReceivedTime s) (lastReceivedCode s) (lastDebounceTime s)
    (learningModeStartTime s) (clock s) (pins s) (buttonLow s) (eeprom s)
    (cursor s) (bus s) (rxAvailable s) (rxValue s) (trace s).
Definition set_lastReceivedTime (v : Z) (s : State) : State :=
  mkState (relayStates s) (buttonCodes s) (learningMode s) (learnStep s) v
    (lastReceivedCode s) (lastDebounceTime s) (learningModeStartTime s)
    (clock s) (pins s) (buttonLow s) (eeprom s) (cursor s) (bus s)
    (rxAvailable s) (rxValue s) (trace s).
Definition set_lastReceivedCode (v : Z) (s : State) : State :=
  mkState (relayStates s) (buttonCodes s) (learningMode s) (learnStep s)
    (lastReceivedTime s) v (lastDebounceTime s) (learningModeStartTime s)
    (clock s) (pins s) (buttonLow s) (eeprom s) (cursor s) (bus s)
    (rxAvailable s) (rxValue s) (trace s).
Definition set_lastDebounceTime (v : Z) (s : State) : State :=
  mkState (relayStates s) (buttonCodes s) (learningMode s) (learnStep s)
    (lastReceivedTime s) (lastReceivedCode s) v (learningModeStartTime s)
    (clock s) (pins s) (buttonLow s) (eeprom s) (cursor s) (bus s)
    (rxAvailable s) (rxValue s) (trace s).
Definition set_learningModeStartTime (v : Z) (s : State) : State :=
  mkState (relayStates s) (buttonCodes s) (learningMode s) (learnStep s)
    (lastReceivedTime s) (lastReceivedCode s) (lastDebounceTime s) v (clock s)
    (pins s) (buttonLow s) (eeprom s) (cursor s) (bus s) (rxAvailable s)
    (rxValue s) (trace s).
Definition set_clock (v : Z) (s : State) : State :=
  mkState (relayStates s) (buttonCodes s) (learningMode s) (learnStep s)
    (lastReceivedTime s) (lastReceivedCode s) (lastDebounceTime s)
    (learningModeStartTime s) v (pins s) (buttonLow s) (eeprom s) (cursor s)
    (bus s) (rxAvailable s) (rxValue s) (trace s).
Definition set_pins (v : gmap Z bool) (s : State) : State :=
  mkState (relayStates s) (buttonCodes s) (learningMode s) (learnStep s)
    (lastReceivedTime s) (lastReceivedCode s) (lastDebounceTime s)
    (learningModeStartTime s) (clock s) v (buttonLow s) (eeprom s) (cursor s)
    (bus s) (rxAvailable s) (rxValue s) (trace s).
Definition set_buttonLow (v : bool) (s : State) : State :=
  mkState (relayStates s) (buttonCodes s) (learningMode s) (learnStep s)
    (lastReceivedTime s) (lastReceivedCode s) (lastDebounceTime s)
    (learningModeStartTime s) (clock s) (pins s) v (eeprom s) (cursor s)
    (bus s) (rxAvailable s) (rxValue s) (trace s).
Definition set_eeprom (v : gmap Z Z) (s : State) : State :=
  mkState (relayStates s) (buttonCodes s) (learningMode s) (learnStep s)
    (lastReceivedTime s) (lastReceivedCode s) (lastDebounceTime s)
    (learningModeStartTime s) (clock s) (pins s) (buttonLow s) v (cursor s)
    (bus s) (rxAvailable s) (rxValue s) (trace s).
Definition set_cursor (v : Z) (s : State) : State :=
  mkState (relayStates s) (buttonCodes s) (learningMode s) (learnStep s)
    (lastReceivedTime s) (lastReceivedCode s) (lastDebounceTime s)
    (learningModeStartTime s) (clock s) (pins s) (buttonLow s) (eeprom s) v
    (bus s) (rxAvailable s) (rxValue s) (trace s).
Definition set_bus (v : list BusResp) (s : State) : State :=
  mkState (relayStates s) (buttonCodes s) (learningMode s) (learnStep s)
    (lastReceivedTime s) (lastReceivedCode s) (lastDebounceTime s)
    (learningModeStartTime s) (clock s) (pins s) (buttonLow s) (eeprom s)
    (cursor s) v (rxAvailable s) (rxValue s) (trace s).
Definition set_rxAvailable (v : bool) (s : State) : State :=
  mkState (relayStates s) (buttonCodes s) (learningMode s) (learnStep s)
    (lastReceivedTime s) (lastReceivedCode s) (lastDebounceTime s)
    (learningModeStartTime s) (clock s) (pins s) (buttonLow s) (eeprom s)
    (cursor s) (bus s) v (rxValue s) (trace s).
Definition set_rxValue (v : Z) (s : State) : State :=
  mkState (relayStates s) (buttonCodes s) (learningMode s) (learnStep s)
    (lastReceivedTime s) (lastReceivedCode s) (lastDebounceTime s)
    (learningModeStartTime s) (clock s) (pins s) (buttonLow s) (eeprom s)
    (cursor s) (bus s) (rxAvailable s) v (trace s).
Definition set_trace (v : list Event) (s : State) : State :=
  mkState (relayStates s) (buttonCodes s) (learningMode s) (learnStep s)
    (lastReceivedTime s) (lastReceivedCode s) (lastDebounceTime s)
    (learningModeStartTime s) (clock s) (pins s) (buttonLow s) (eeprom s)
    (cursor s) (bus s) (rxAvailable s) (rxValue s) v.

(** ** Board primitives *)

Definition emit (e : Event) (s : State) : State :=
  set_trace (trace s ++ [e]) s.

Definition millis (s : State) : Z := clock s.

Definition delay (ms : Z) (s : State) : State :=
  emit (Delay ms) (set_clock (u32 (clock s + ms)) s).

Definition digitalWrite (pin : Z) (high : bool) (s : State) : State :=
  emit (DigitalWrite pin high) (set_pins (<[pin := high]> (pins s)) s).

Definition Serial_print (msg : string) (s : State) : State :=
  emit (SerialText msg) s.

Definition Serial_printNum (n : Z) (s : State) : State :=
  emit (SerialNum n) s.

Definition resetAvailable (s : State) : State :=
  emit ResetAvailable (set_rxAvailable false s).

(** The next answer of the bus; a bus with no scheduled fault is healthy. *)
Definition nextBus (s : State) : BusResp * State :=
  match bus s with
  | [] => (healthy, s)
  | r :: rs => (r, set_bus rs s)
  end.

(** *** The EEPROM as a bus device

    An unwritten cell reads 0xFF.  A write transaction carries the two
    address bytes (high first) and then the data bytes, which land in
    consecutive cells; every address the sketch uses lies in [0,20), inside
    the first 64-byte page. *)

Definition memByte (m : gmap Z Z) (a : Z) : Z := default 255 (m !! a).

Fixpoint memStore (m : gmap Z Z) (a : Z) (bs : list Z) : gmap Z Z :=
  match bs with
  | [] => m
  | b :: bs' => memStore (<[a := b]> m) (a + 1) bs'
  end.

Fixpoint memLoad (m : gmap Z Z) (a : Z) (n : nat) : list Z :=
  match n with
  | O => []
  | S n' => memByte m a :: memLoad m (a + 1) n'
  end.

Definition deviceAccept (bytes : list Z) (s : State) : State :=
  match bytes with
  | hi :: lo :: data =>
      let a := hi * 256 + lo in
      set_cursor (a + Z.of_nat (length data))
        (set_eeprom (memStore (eeprom s) a data) s)
  | _ => s
  end.

(** [Wire.beginTransmission(EEPROM_ADDR); Wire.write(b) ...;
    Wire.endTransmission()]: the queued bytes, already cut to eight bits,
    go out in one transaction and the status comes back. *)
Definition endTransmission (bytes : list Z) (s : State) : Z * State :=
  let '(r, s1) := nextBus s in
  let s2 := emit (BusWrite bytes (endStatus r)) s1 in
  if endStatus r =? 0 then (0, deviceAccept bytes s2) else (endStatus r, s2).

(** [Wire.requestFrom(EEPROM_ADDR, n)]: the receive buffer it fills. *)
Definition requestFrom (n : nat) (s : State) : list Z * State :=
  let '(r, s1) := nextBus s in
  let got :=
    if endStatus r =? 0
    then memLoad (eeprom s1) (cursor s1) (n - missing r)
    else [] in
  (got, emit (BusRequest (Z.of_nat n) got)
          (set_cursor (cursor s1 + Z.of_nat (length got)) s1)).

(** [Wire.available()] and [Wire.read()] on the receive buffer. *)
Definition wireAvailable (buf : list Z) : Z := Z.of_nat (length buf).

Definition wireRead (buf : list Z) : Z * list Z :=
  match buf with
  | [] => (-1, [])
  | b :: rest => (b, rest)
  end.

(** ** The persistent store adapter (lines 161-229)

    Every byte handed to [Wire.write] is already masked with [0xFF] or is
    0 or 1, so the cast to eight bits inside [Wire.write] changes nothing
    and is left out. *)

(** [void writeEEPROM(int address, unsigned long value)] *)
Definition writeEEPROM (address value : Z) (s : State) : State :=
  let '(status, s) :=
    endTransmission
      [Z.land (Z.shiftr address 8) 255;
       Z.land address 255;
       Z.land (Z.shiftr value 24) 255;
       Z.land (Z.shiftr value 16) 255;
       Z.land (Z.shiftr value 8) 255;
       Z.land value 255] s in
  if negb (status =? 0) then Serial_print "I2C write failed!" s
  else delay 20 s.

(** [void writeEEPROM(int address, bool value)], the overload chosen when
    the second argument is a [bool]. *)
Definition writeEEPROM_bool (address : Z) (value : bool) (s : State) : State :=
  let '(status, s) :=
    endTransmission
      [Z.land (Z.shiftr address 8) 255;
       Z.land address 255;
       if value then 1 else 0] s in
  if negb (status =? 0) then Serial_print "I2C write failed!" s
  else delay 20 s.

(** [unsigned long readEEPROM(int address)] *)
Definition readEEPROM (address : Z) (s : State) : Z * State :=
  let value := 0 in
  let '(status, s) :=
    endTransmission
      [Z.land (Z.shiftr address 8) 255; Z.land address 255] s in
  if negb (status =? 0) then (0, Serial_print "I2C read failed!" s)
  else
    let '(buf, s) := requestFrom 4 s in
    if wireAvailable buf =? 4 then
      let '(b, buf) := wireRead buf in
      let value := Z.lor value (u32 (Z.shiftl (u32 b) 24)) in
      let '(b, buf) := wireRead buf in
      let value := Z.lor value (u32 (Z.shiftl (u32 b) 16)) in
      let '(b, buf) := wireRead buf in
      let value := Z.lor value (u32 (Z.shiftl (u32 b) 8)) in
      let '(b, buf) := wireRead buf in
      let value := Z.lor value (u32 b) in
      (value, s)
    else (value, s).

(** [byte readEEPROMByte(int address)] *)
Definition readEEPROMByte (address : Z) (s : State) : Z * State :=
  let value := 0 in
  let '(status, s) :=
    endTransmission
      [Z.land (Z.shiftr address 8) 255; Z.land address 255] s in
  if negb (status =? 0) then (0, Serial_print "I2C read failed!" s)
  else
    let '(buf, s) := requestFrom 1 s in
    if wireAvailable buf =? 1 then
      let '(b, buf) := wireRead buf in
      (u8 b, s)
    else (value, s).

(** ** Array accessors

    Both arrays have four cells and every index the sketch uses is below
    four; a read outside a shorter list yields the zero initialiser. *)

Definition buttonCode (s : State) (i : nat) : Z :=
  default 0 (buttonCodes s !! i).

Definition relayState (s : State) (i : nat) : bool :=
  default false (relayStates s !! i).

Definition relayPin (i : nat) : Z := default 0 (relayPins !! i).

(** ** Start-up (lines 35-70)

    [Serial.begin], [pinMode], [Wire.begin] and [mySwitch.enableReceive]
    configure peripherals and have no effect on the modelled state. *)

Definition setupLoad (s : State) (i : nat) : State :=
  let '(code, s) := readEEPROM (Z.of_nat i * 4) s in
  let s := set_buttonCodes (<[i := code]> (buttonCodes s)) s in
  let '(b, s) := readEEPROMByte (16 + Z.of_nat i) s in
  set_relayStates (<[i := negb (b =? 0)]> (relayStates s)) s.

Definition setupReport (s : State) (i : nat) : State :=
  let s := Serial_print "Relay " s in
  let s := Serial_printNum (Z.of_nat i + 1) s in
  let s := Serial_print ": Code = " s in
  let s := Serial_printNum (buttonCode s i) s in
  let s := Serial_print ", State = " s in
  Serial_print (if relayState s i then "ON" else "OFF") s.

Definition setup (s : State) : State :=
  let s := foldl (fun s i => digitalWrite (relayPin i) false s) s (seq 0 4) in
  let s := foldl setupLoad s (seq 0 4) in
  let s :=
    foldl (fun s i => digitalWrite (relayPin i) (relayState s i) s)
      s (seq 0 4) in
  let s := Serial_print "Setup complete. Current codes and relay states:" s in
  foldl setupReport s (seq 0 4).

(** The state at power-up: the initialisers of lines 11-33 (an array
    without initialiser is zero-filled), on a board whose EEPROM holds
    [cells] and whose bus will answer with [answers]. *)
Definition boot (cells : gmap Z Z) (answers : list BusResp) : State :=
  {| relayStates := [false; false; false; false];
     buttonCodes := [0; 0; 0; 0];
     learningMode := false;
     learnStep := 0;
     lastReceivedTime := 0;
     lastReceivedCode := 0;
     lastDebounceTime := 0;
     learningModeStartTime := 0;
     clock := 0;
     pins := ∅;
     buttonLow := false;
     eeprom := cells;
     cursor := 0;
     bus := answers;
     rxAvailable := false;
     rxValue := 0;
     trace := [] |}.

(** ** Run-time dispatch (lines 86-116) *)

(** Lines 98-102: flip the relay in memory and drive its pin. *)
Definition toggleRelay (i : nat) (s : State) : State :=
  let s := set_relayStates (<[i := negb (relayState s i)]> (relayStates s)) s in
  let s := digitalWrite (relayPin i) (relayState s i) s in
  let s := Serial_print "Relay " s in
  let s := Serial_printNum (Z.of_nat i + 1) s in
  Serial_print (if relayState s i then " ON" else " OFF") s.

(** Lines 96-108: [for (int i = 0; i < 4; i++)] with its [break]; [n] is
    the number of indices still to visit. *)
Fixpoint scanCodes (n : nat) (i : nat) (value : Z) (s : State) : State :=
  match n with
  | O => s
  | S n' =>
      if value =? buttonCode s i then
        let s := toggleRelay i s in
        writeEEPROM_bool (16 + Z.of_nat i) (relayState s i) s
      else scanCodes n' (S i) value s
  end.

Definition handleRFInput (s : State) : State :=
  if rxAvailable s then
    let value := rxValue s in
    let s :=
      if value =? 0 then Serial_print "Unknown encoding" s
      else if negb (value =? lastReceivedCode s)
              || (debounceTime <? u32 (millis s - lastReceivedTime s)) then
        let s := Serial_print "Received: " s in
        let s := Serial_printNum value s in
        let s := scanCodes 4 0 value s in
        let s := set_lastReceivedCode value s in
        set_lastReceivedTime (millis s) s
      else s in
    resetAvailable s
  else s.

(** ** Learning mode (lines 119-159) *)

(** What the board sees between two polls: time passes, the receiver may
    latch a newly decoded value, the learn button has some level. *)
Record Input : Type := mkInput {
  in_tick : N;
  in_signal : option Z;
  in_button : bool
}.

Definition arrive (i : Input) (s : State) : State :=
  let s := set_clock (u32 (clock s + Z.of_N (in_tick i))) s in
  let s := set_buttonLow (in_button i) s in
  match in_signal i with
  | Some v => set_rxValue (u32 v) (set_rxAvailable true s)
  | None => s
  end.

(** Lines 126-157: one pass through the body of [while (learningMode)]. *)
Definition learnIter (s : State) : State :=
  let s :=
    if rxAvailable s then
      let value := rxValue s in
      if negb (value =? 0) && negb (value =? lastReceivedCode s) then
        let s := set_buttonCodes (<[learnStep s := value]> (buttonCodes s)) s in
        let s := writeEEPROM (Z.of_nat (learnStep s) * 4) value s in
        let s := Serial_print "Saved code for Relay " s in
        let s := Serial_printNum (Z.of_nat (learnStep s) + 1) s in
        let s := Serial_print ": " s in
        let s := Serial_printNum value s in
        let s := set_learnStep (S (learnStep s)) s in
        let s :=
          if (4 <=? learnStep s)%nat then
            Serial_print "Learning mode complete!" (set_learningMode false s)
          else
            let s := delay 2000 s in
            let s := Serial_print "Now press the button for Relay " s in
            Serial_printNum (Z.of_nat (learnStep s) + 1) s in
        let s := set_lastReceivedCode value s in
        resetAvailable s
      else s
    else s in
  if learningModeTimeout <? u32 (millis s - learningModeStartTime s) then
    Serial_print "Learning mode timeout. Exiting..." (set_learningMode false s)
  else s.

(** [while (learningMode) { ... }]: each pass sees the next input.  When
    the inputs run out the loop is still spinning and the state is the one
    it spins in, with [learningMode] still set. *)
Fixpoint learnLoop (ins : list Input) (s : State) : State * list Input :=
  if learningMode s then
    match ins with
    | [] => (s, [])
    | i :: rest => learnLoop rest (learnIter (arrive i s))
    end
  else (s, ins).

Definition enterLearningMode (ins : list Input) (s : State)
  : State * list Input :=
  let s := set_learningMode true s in
  let s := set_learnStep 0%nat s in
  let s := set_learningModeStartTime (millis s) s in
  let s :=
    Serial_print "LEARNING MODE: Press the remote button for Relay 1" s in
  learnLoop ins s.

(** ** The main loop (lines 72-83) *)

(** One call of [loop()].  A state that comes back from
    [enterLearningMode] with [learningMode] set is still inside the
    blocking loop, so nothing after the call has run yet. *)
Definition loop (ins : list Input) (s : State) : State * list Input :=
  let '(s, ins) :=
    if buttonLow s && (debounceDelay <? u32 (millis s - lastDebounceTime s))
    then
      let '(s, ins) := enterLearningMode ins s in
      if learningMode s then (s, ins)
      else (set_lastDebounceTime (millis s) s, ins)
    else (s, ins) in
  if negb (learningMode s) then (handleRFInput s, ins) else (s, ins).

(** The board running: [loop()] is called again and again, each call
    after the next input; [fuel] bounds the number of calls. *)
Fixpoint run (fuel : nat) (ins : list Input) (s : State) : State :=
  match fuel, ins with
  | S fuel', i :: rest =>
      let '(s', rest') := loop rest (arrive i s) in
      run fuel' rest' s'
  | _, _ => s
  end.

(** Run-time dispatch alone: every input is followed by one
    [handleRFInput]. *)
Definition dispatch (ins : list Input) (s : State) : State :=
  foldl (fun s i => handleRFInput (arrive i s)) s ins.

(** ** Vocabulary for the statements *)

(** The next [n] bus transactions all succeed and deliver every byte. *)
Definition answersOk (n : nat) (s : State) : Prop :=
  Forall (fun r => endStatus r = 0 /\ missing r = 0%nat) (take n (bus s)).

(** Both arrays have their four cells. *)
Definition wellFormed (s : State) : Prop :=
  length (relayStates s) = 4%nat /\ length (buttonCodes s) = 4%nat.

(** Slot [k] is the lowest-indexed slot whose stored code is [value]. *)
Definition firstMatch (s : State) (value : Z) (k : nat) : Prop :=
  (k < 4)%nat /\ buttonCode s k = value /\
  forall j, (j < k)%nat -> buttonCode s j <> value.

(** No slot stores [value]. *)
Definition noMatch (s : State) (value : Z) : Prop :=
  forall j, (j < 4)%nat -> buttonCode s j <> value.


(** The effects logged on the way from [s] to [s']. *)
Definition since (s s' : State) : list Event :=
  drop (length (trace s)) (trace s').

Definition isDigitalWrite (e : Event) : bool :=
  match e with DigitalWrite _ _ => true | _ => false end.

Definition isBusWrite (e : Event) : bool :=
  match e with BusWrite _ _ => true | _ => false end.

(** A freshly booted board whose registry holds [codes], and the same
    board after the receiver has latched [value] [tick] ms later. *)
Definition paired (codes : list Z) : State :=
  set_buttonCodes codes (boot ∅ []).

Definition presented (tick : N) (value : Z) (s : State) : State :=
  arrive (mkInput tick (Some value) false) s.

(** A paired board on which the code of slot 1 (also stored in slot 3)
    has just been received. *)
Definition demo : State := presented 10 22 (paired [11; 22; 33; 22]).

(** *** Vocabulary for learning sessions *)

(** Milliseconds on the wrapping clock since the session was entered. *)
Definition elapsed (s : State) : Z :=
  u32 (millis s - learningModeStartTime s).

(** The rule of the specification for a learning session: a presented code
    is rejected when it is 0 or equals the code accepted just before it;
    [last] is the code the comparison starts from. *)
Fixpoint acceptedCodes (last : Z) (presented : list Z) : list Z :=
  match presented with
  | [] => []
  | v :: rest =>
      if (v =? 0) || (v =? last) then acceptedCodes last rest
      else v :: acceptedCodes v rest
  end.

(** The codes a list of inputs presents, as the receiver latches them, and
    the time the inputs take. *)
Definition codesOf (ins : list Input) : list Z :=
  omap (fun i => u32 <$> in_signal i) ins.

Definition ticks (ins : list Input) : Z :=
  foldr (fun i acc => Z.of_N (in_tick i) + acc) 0 ins.

(** How a session ended. *)
Definition sessionComplete (s : State) : Prop :=
  learningMode s = false /\ learnStep s = 4%nat.

Definition sessionTimedOut (s : State) : Prop :=
  learningMode s = false /\ (learnStep s < 4)%nat.

(** The receiver holds nothing that a learning pass would capture. *)
Definition latchSpent (s : State) : Prop :=
  rxAvailable s = false \/ rxValue s = 0 \/ rxValue s = lastReceivedCode s.

(** The pauses of a session that has not filled its fourth slot: the
    20 ms of line 174 after a store write that succeeded, and the 2 s of
    line 143 after each capture; [answers] are the answers the bus gives
    to the store writes, in order. *)
Definition storePause (r : BusResp) : Z :=
  if endStatus r =? 0 then 20 else 0.

Fixpoint pauses (answers : list BusResp) (n : nat) : Z :=
  match n with
  | O => 0
  | S n' => 2000 + storePause (hd healthy answers) + pauses (tl answers) n'
  end.

(** What the timeout check of line 154 finds elapsed in the pass that
    reads the last of [ins], in a session that is open until then and has
    fewer than four codes accepted: the time of the inputs since entry plus
    the pauses of the captures, on the wrapping clock. *)
Definition checkTime (last : Z) (answers : list BusResp) (ins : list Input)
  : Z :=
  u32 (ticks ins
       + pauses answers (length (acceptedCodes last (codesOf ins)))).

(** No slot of the in-memory registry holds 0. *)
Definition registryNonzero (s : State) : Prop :=
  forall j, (j < 4)%nat -> buttonCode s j <> 0.

(** *** Vocabulary for start-up and persistence *)

(** The word [readEEPROM] puts together from four bytes, the first one
    most significant. *)
Definition wordOfBytes (b3 b2 b1 b0 : Z) : Z :=
  Z.lor
    (Z.lor
       (Z.lor (Z.lor 0 (u32 (Z.shiftl (u32 b3) 24)))
          (u32 (Z.shiftl (u32 b2) 16)))
       (u32 (Z.shiftl (u32 b1) 8)))
    (u32 b0).

(** The word and the flag the store holds at an address. *)
Definition wordAt (m : gmap Z Z) (a : Z) : Z :=
  wordOfBytes (memByte m a) (memByte m (a + 1)) (memByte m (a + 1 + 1))
    (memByte m (a + 1 + 1 + 1)).

Definition flagAt (m : gmap Z Z) (a : Z) : bool :=
  negb (u8 (memByte m a) =? 0).

(** [s'] differs from [s] at most in the bus answers still to come, the
    EEPROM's address pointer and the effect log. *)
Definition onlyBusUsed (s s' : State) : Prop :=
  relayStates s' = relayStates s /\
  buttonCodes s' = buttonCodes s /\
  learningMode s' = learningMode s /\
  learnStep s' = learnStep s /\
  lastReceivedTime s' = lastReceivedTime s /\
  lastReceivedCode s' = lastReceivedCode s /\
  lastDebounceTime s' = lastDebounceTime s /\
  learningModeStartTime s' = learningModeStartTime s /\
  clock s' = clock s /\
  pins s' = pins s /\
  buttonLow s' = buttonLow s /\
  eeprom s' = eeprom s /\
  rxAvailable s' = rxAvailable s /\
  rxValue s' = rxValue s.

(** The next [n] bus transactions are all there and all fail. *)
Definition answersFail (n : nat) (s : State) : Prop :=
  (n <= length (bus s))%nat /\
  Forall (fun r => endStatus r <> 0) (take n (bus s)).

(** * Properties *)

(** ** Integer and memory lemmas *)

Lemma u32_small z : 0 <= z < 2 ^ 32 -> u32 z = z.
Proof. intros H. unfold u32. apply Z.mod_small. exact H. Qed.

Lemma u32_range z : 0 <= u32 z < 2 ^ 32.
Proof. unfold u32. apply Z.mod_pos_bound. lia. Qed.

(** Time elapsed on the wrapping clock is the true elapsed time as long as
    that is below 2^32 ms. *)
Lemma u32_elapsed c d : 0 <= d < 2 ^ 32 -> u32 (u32 (c + d) - c) = d.
Proof.
  intros Hd. unfold u32.
  rewrite Zminus_mod_idemp_l.
  replace (c + d - c) with d by lia.
  apply Z.mod_small. exact Hd.
Qed.

Lemma u32_add_add c d e : u32 (u32 (c + d) + e) = u32 (c + (d + e)).
Proof.
  unfold u32. rewrite Zplus_mod_idemp_l. f_equal. lia.
Qed.

(** The two address bytes of a transaction name the address again. *)
Lemma address_bytes a :
  0 <= a < 2 ^ 16 ->
  Z.land (Z.shiftr a 8) 255 * 256 + Z.land a 255 = a.
Proof.
  intros Ha.
  change 255 with (Z.ones 8).
  rewrite !Z.land_ones by lia.
  rewrite Z.shiftr_div_pow2 by lia.
  change (2 ^ 8) with 256.
  assert (0 <= a / 256 < 256) as Hq.
  { split; [apply Z.div_pos; lia | apply Z.div_lt_upper_bound; lia]. }
  rewrite (Z.mod_small (a / 256)) by exact Hq.
  pose proof (Z.div_mod a 256). lia.
Qed.

(** Four bytes, most significant first, put together as [readEEPROM] does
    give back the word that [writeEEPROM] took apart. *)
Lemma word_of_bytes v :
  0 <= v < 2 ^ 32 ->
  Z.lor
    (Z.lor
       (Z.lor
          (Z.lor 0 (u32 (Z.shiftl (u32 (Z.land (Z.shiftr v 24) 255)) 24)))
          (u32 (Z.shiftl (u32 (Z.land (Z.shiftr v 16) 255)) 16)))
       (u32 (Z.shiftl (u32 (Z.land (Z.shiftr v 8) 255)) 8)))
    (u32 (Z.land v 255)) = v.
Proof.
  intros Hv. unfold u32.
  rewrite <- (Z.mod_small v (2 ^ 32)) at 5 by lia.
  change 255 with (Z.ones 8).
  rewrite <- !Z.land_ones by lia.
  Z.bitblast.
Qed.

Lemma memStore_below (bs : list Z) : forall (m : gmap Z Z) a a',
  a' < a -> memStore m a bs !! a' = m !! a'.
Proof.
  induction bs as [|b bs IH]; intros m a a' Hlt; simpl.
  - reflexivity.
  - rewrite IH by lia. apply lookup_insert_ne. lia.
Qed.

Lemma memStore_above (bs : list Z) : forall (m : gmap Z Z) a a',
  a + Z.of_nat (length bs) <= a' -> memStore m a bs !! a' = m !! a'.
Proof.
  induction bs as [|b bs IH]; intros m a a' Hge; simpl in *.
  - reflexivity.
  - rewrite IH by lia. apply lookup_insert_ne. lia.
Qed.

Lemma memLoad_memStore (bs : list Z) : forall (m : gmap Z Z) a,
  memLoad (memStore m a bs) a (length bs) = bs.
Proof.
  induction bs as [|b bs IH]; intros m a; simpl.
  - reflexivity.
  - f_equal.
    + unfold memByte. rewrite memStore_below by lia.
      rewrite lookup_insert_eq. reflexivity.
    + apply IH.
Qed.

(** ** The bus *)

Lemma nextBus_ok n s :
  answersOk (S n) s ->
  endStatus (nextBus s).1 = 0 /\ missing (nextBus s).1 = 0%nat /\
  answersOk n (nextBus s).2.
Proof.
  unfold answersOk, nextBus. destruct (bus s) as [|r rs] eqn:Hb; simpl.
  - intros _. rewrite Hb. repeat split; try reflexivity.
    rewrite take_nil. constructor.
  - intros H. inversion H as [|? ? [H1 H2] H3]; subst. auto.
Qed.

Lemma endTransmission_ok bytes n s :
  answersOk (S n) s ->
  endTransmission bytes s =
    (0, deviceAccept bytes (emit (BusWrite bytes 0) (nextBus s).2)) /\
  answersOk n (endTransmission bytes s).2.
Proof.
  intros H. destruct (nextBus_ok n s H) as (H1 & H2 & H3).
  unfold endTransmission. destruct (nextBus s) as [r s1]; simpl in *.
  rewrite H1. simpl. split; [reflexivity|].
  unfold answersOk, deviceAccept in *.
  destruct bytes as [|hi [|lo data]]; exact H3.
Qed.

Lemma endTransmission_fail bytes s r rest :
  bus s = r :: rest -> endStatus r <> 0 ->
  endTransmission bytes s =
    (endStatus r, emit (BusWrite bytes (endStatus r)) (set_bus rest s)).
Proof.
  intros Hb Hr. unfold endTransmission, nextBus. rewrite Hb.
  destruct (Z.eqb_spec (endStatus r) 0) as [E|E]; [contradiction|reflexivity].
Qed.

Lemma requestFrom_ok n s :
  answersOk 1 s ->
  (requestFrom n s).1 = memLoad (eeprom s) (cursor s) n.
Proof.
  intros H. destruct (nextBus_ok 0 s H) as (H1 & H2 & _).
  unfold requestFrom. unfold nextBus in *.
  destruct (bus s) as [|r rs]; simpl in *.
  - rewrite Nat.sub_0_r. reflexivity.
  - rewrite H1, H2, Nat.sub_0_r. reflexivity.
Qed.

(** A request answered with a fault or with bytes missing leaves fewer
    bytes in the buffer than were asked for. *)
Lemma requestFrom_short n s r rest :
  bus s = r :: rest -> (0 < n)%nat ->
  endStatus r <> 0 \/ missing r <> 0%nat ->
  (length (requestFrom n s).1 < n)%nat.
Proof.
  intros Hb Hn Hr. unfold requestFrom, nextBus. rewrite Hb. simpl.
  assert (forall m a k, length (memLoad m a k) = k) as Hlen.
  { intros m a k. revert a. induction k; intros a; simpl; auto. }
  destruct (Z.eqb_spec (endStatus r) 0) as [E|E]; simpl.
  - rewrite Hlen. destruct Hr as [Hr|Hr]; [contradiction|lia].
  - lia.
Qed.

(** ** C6: round trip through the store *)

(** What [writeEEPROM] leaves in the store when its transaction succeeds. *)
Lemma writeEEPROM_ok address value n s :
  0 <= address < 2 ^ 16 ->
  answersOk (S n) s ->
  let s' := writeEEPROM address value s in
  eeprom s' =
    memStore (eeprom s) address
      [Z.land (Z.shiftr value 24) 255; Z.land (Z.shiftr value 16) 255;
       Z.land (Z.shiftr value 8) 255; Z.land value 255] /\
  answersOk n s'.
Proof.
  intros Ha Hok. unfold writeEEPROM.
  destruct (endTransmission_ok
    [Z.land (Z.shiftr address 8) 255; Z.land address 255;
     Z.land (Z.shiftr value 24) 255; Z.land (Z.shiftr value 16) 255;
     Z.land (Z.shiftr value 8) 255; Z.land value 255] n s Hok) as [E Hn].
  rewrite E in *. simpl in *.
  rewrite address_bytes by exact Ha.
  split; [|exact Hn].
  unfold nextBus. destruct (bus s); reflexivity.
Qed.

(** What [readEEPROM] returns when both of its transactions succeed. *)
Lemma readEEPROM_ok address s :
  0 <= address < 2 ^ 16 ->
  answersOk 2 s ->
  exists b3 b2 b1 b0,
    memLoad (eeprom s) address 4 = [b3; b2; b1; b0] /\
    (readEEPROM address s).1 =
      Z.lor
        (Z.lor
           (Z.lor (Z.lor 0 (u32 (Z.shiftl (u32 b3) 24)))
              (u32 (Z.shiftl (u32 b2) 16)))
           (u32 (Z.shiftl (u32 b1) 8)))
        (u32 b0).
Proof.
  intros Ha Hok. unfold readEEPROM.
  destruct (endTransmission_ok
    [Z.land (Z.shiftr address 8) 255; Z.land address 255] 1 s Hok) as [E H1].
  remember (deviceAccept [Z.land (Z.shiftr address 8) 255; Z.land address 255]
              (emit (BusWrite [Z.land (Z.shiftr address 8) 255;
                               Z.land address 255] 0) (nextBus s).2))
    as s1 eqn:Hs1.
  rewrite E in *. simpl in H1. simpl negb. cbv iota.
  pose proof (requestFrom_ok 4 s1 H1) as Hreq.
  destruct (requestFrom 4 s1) as [buf s2]. simpl in Hreq. subst buf.
  assert (eeprom s1 = eeprom s /\ cursor s1 = address) as [Em Ec].
  { subst s1. unfold nextBus. simpl. rewrite address_bytes by exact Ha.
    destruct (bus s); simpl; split; try reflexivity; lia. }
  rewrite Em, Ec. simpl.
  do 4 eexists. split; reflexivity.
Qed.

(** C6. For every slot in [0,4) and every 32-bit code, writing the code at
    the slot's word offset (slot*4, most significant byte first) and then
    reading that offset back returns the same code, provided the write
    transaction and the two transactions of the read succeed and the read
    delivers all four bytes. *)
Theorem store_round_trip (s : State) (slot : nat) (code : Z) :
  (slot < 4)%nat ->
  0 <= code < 2 ^ 32 ->
  answersOk 3 s ->
  (readEEPROM (Z.of_nat slot * 4) (writeEEPROM (Z.of_nat slot * 4) code s)).1
  = code.
Proof.
  intros Hslot Hcode Hok.
  assert (0 <= Z.of_nat slot * 4 < 2 ^ 16) as Ha by lia.
  destruct (writeEEPROM_ok _ code 2 s Ha Hok) as [Em Hok2].
  destruct (readEEPROM_ok _ _ Ha Hok2) as (b3 & b2 & b1 & b0 & Hl & Hr).
  rewrite Hr. rewrite Em in Hl.
  change 4%nat with
    (length [Z.land (Z.shiftr code 24) 255; Z.land (Z.shiftr code 16) 255;
             Z.land (Z.shiftr code 8) 255; Z.land code 255]) in Hl.
  rewrite memLoad_memStore in Hl.
  injection Hl as <- <- <- <-.
  apply word_of_bytes. exact Hcode.
Qed.

Lemma store_round_trip_witness :
  (readEEPROM (Z.of_nat 2 * 4)
     (writeEEPROM (Z.of_nat 2 * 4) 5592405 (boot ∅ []))).1 = 5592405.
Proof.
  apply (store_round_trip (boot ∅ []) 2 5592405).
  - lia.
  - lia.
  - unfold answersOk. simpl. constructor.
Defined.

(** ** C7: degradation on store failure *)

Lemma endTransmission_head bytes s r rest :
  bus s = r :: rest -> endStatus r = 0 ->
  exists s1, endTransmission bytes s = (0, s1) /\ bus s1 = rest.
Proof.
  intros Hb Hr. unfold endTransmission, nextBus. rewrite Hb, Hr. simpl.
  eexists. split; [reflexivity|].
  destruct bytes as [|hi [|lo data]]; reflexivity.
Qed.

(** C7. A read whose transaction fails, or whose response delivers fewer
    bytes than requested, returns 0 (and reports a failed transaction on
    diagnostics); a write whose transaction fails performs no settle delay,
    changes neither the sketch's variables nor the store, reports the
    failure on diagnostics and issues no second transaction. *)
Theorem store_failure_degradation
    (s : State) (address value : Z) (flag : bool)
    (r : BusResp) (rest : list BusResp) :
  bus s = r :: rest ->
  (endStatus r <> 0 ->
     readEEPROM address s =
       (0, set_trace
             (trace s ++
                [BusWrite [Z.land (Z.shiftr address 8) 255;
                           Z.land address 255] (endStatus r);
                 SerialText "I2C read failed!"])
             (set_bus rest s)) /\
     readEEPROMByte address s =
       (0, set_trace
             (trace s ++
                [BusWrite [Z.land (Z.shiftr address 8) 255;
                           Z.land address 255] (endStatus r);
                 SerialText "I2C read failed!"])
             (set_bus rest s)) /\
     writeEEPROM address value s =
       set_trace
         (trace s ++
            [BusWrite [Z.land (Z.shiftr address 8) 255; Z.land address 255;
                       Z.land (Z.shiftr value 24) 255;
                       Z.land (Z.shiftr value 16) 255;
                       Z.land (Z.shiftr value 8) 255;
                       Z.land value 255] (endStatus r);
             SerialText "I2C write failed!"])
         (set_bus rest s) /\
     writeEEPROM_bool address flag s =
       set_trace
         (trace s ++
            [BusWrite [Z.land (Z.shiftr address 8) 255; Z.land address 255;
                       if flag then 1 else 0] (endStatus r);
             SerialText "I2C write failed!"])
         (set_bus rest s)) /\
  (endStatus r = 0 ->
   forall r' rest',
     rest = r' :: rest' ->
     endStatus r' <> 0 \/ missing r' <> 0%nat ->
     (readEEPROM address s).1 = 0 /\ (readEEPROMByte address s).1 = 0).
Proof.
  intros Hb. split.
  - intros Hr.
    unfold readEEPROM, readEEPROMByte, writeEEPROM, writeEEPROM_bool.
    rewrite !(endTransmission_fail _ s r rest Hb Hr).
    destruct (Z.eqb_spec (endStatus r) 0) as [E|_]; [contradiction|].
    simpl. unfold Serial_print, emit. simpl.
    rewrite <- !app_assoc. simpl. auto.
  - intros Hr r' rest' Hrest Hshort.
    unfold readEEPROM, readEEPROMByte.
    split.
    + destruct (endTransmission_head
                  [Z.land (Z.shiftr address 8) 255; Z.land address 255]
                  s r rest Hb Hr) as (s1 & E & Hb1).
      rewrite E. simpl negb. cbv iota.
      rewrite Hrest in Hb1.
      assert (0 < 4)%nat as H4 by lia.
      pose proof (requestFrom_short 4 s1 r' rest' Hb1 H4 Hshort) as Hlen.
      destruct (requestFrom 4 s1) as [buf s2]. simpl in Hlen.
      unfold wireAvailable.
      destruct (Z.eqb_spec (Z.of_nat (length buf)) 4) as [E4|_]; [lia|].
      reflexivity.
    + destruct (endTransmission_head
                  [Z.land (Z.shiftr address 8) 255; Z.land address 255]
                  s r rest Hb Hr) as (s1 & E & Hb1).
      rewrite E. simpl negb. cbv iota.
      rewrite Hrest in Hb1.
      assert (0 < 1)%nat as H1 by lia.
      pose proof (requestFrom_short 1 s1 r' rest' Hb1 H1 Hshort) as Hlen.
      destruct (requestFrom 1 s1) as [buf s2]. simpl in Hlen.
      unfold wireAvailable.
      destruct (Z.eqb_spec (Z.of_nat (length buf)) 1) as [E1|_]; [lia|].
      reflexivity.
Qed.

Lemma store_failure_degradation_witness :
  (readEEPROM 4 (boot ∅ [mkBusResp 2 0])).1 = 0 /\
  (readEEPROM 4 (boot ∅ [healthy; mkBusResp 0 1])).1 = 0.
Proof.
  split.
  - pose proof (store_failure_degradation
                  (boot ∅ [mkBusResp 2 0]) 4 7 true (mkBusResp 2 0) []
                  eq_refl) as [Hfail _].
    assert (endStatus (mkBusResp 2 0) <> 0) as Hne by (simpl; lia).
    destruct (Hfail Hne) as [Hread _].
    rewrite Hread. reflexivity.
  - pose proof (store_failure_degradation
                  (boot ∅ [healthy; mkBusResp 0 1]) 4 7 true healthy
                  [mkBusResp 0 1] eq_refl) as [_ Hshort].
    assert (endStatus (mkBusResp 0 1) <> 0 \/ missing (mkBusResp 0 1) <> 0%nat)
      as Hm by (right; simpl; lia).
    exact (proj1 (Hshort eq_refl (mkBusResp 0 1) [] eq_refl Hm)).
Defined.

(** ** Run-time dispatch *)

Ltac unfold_board :=
  unfold writeEEPROM, writeEEPROM_bool, endTransmission, nextBus,
    deviceAccept, delay, millis, digitalWrite, Serial_print, Serial_printNum,
    resetAvailable, emit in *.

(** Lines 98-102 as one state update. *)
Lemma toggleRelay_eq k s :
  (k < length (relayStates s))%nat ->
  let new := negb (relayState s k) in
  toggleRelay k s =
    set_trace
      (trace s ++
         [DigitalWrite (relayPin k) new; SerialText "Relay ";
          SerialNum (Z.of_nat k + 1);
          SerialText (if new then " ON" else " OFF")])
      (set_pins (<[relayPin k := new]> (pins s))
         (set_relayStates (<[k := new]> (relayStates s)) s)).
Proof.
  intros Hk new.
  unfold toggleRelay, digitalWrite, Serial_print, Serial_printNum, emit.
  subst new. unfold relayState.
  cbn [relayStates set_trace set_pins set_relayStates trace pins].
  rewrite list_lookup_insert_eq by exact Hk. simpl.
  rewrite <- !app_assoc. reflexivity.
Qed.

(** The bool overload of [writeEEPROM] as one state update. *)
Lemma writeEEPROM_bool_eq (address : Z) (flag : bool) (s : State) :
  0 <= address < 2 ^ 16 ->
  let status := endStatus (nextBus s).1 in
  let bytes := [Z.land (Z.shiftr address 8) 255; Z.land address 255;
                if flag then 1 else 0] in
  writeEEPROM_bool address flag s =
    if status =? 0 then
      set_trace (trace s ++ [BusWrite bytes 0; Delay 20])
        (set_clock (u32 (clock s + 20))
           (set_cursor (address + 1)
              (set_eeprom (<[address := if flag then 1 else 0]> (eeprom s))
                 (nextBus s).2)))
    else
      set_trace
        (trace s ++ [BusWrite bytes status; SerialText "I2C write failed!"])
        (nextBus s).2.
Proof.
  intros Ha status bytes. subst status bytes.
  pose proof (address_bytes address Ha) as Hab.
  unfold_board.
  destruct (bus s) as [|r rs]; simpl.
  - rewrite Hab, <- app_assoc. reflexivity.
  - destruct (endStatus r =? 0) eqn:E; simpl.
    + apply Z.eqb_eq in E. rewrite E, Hab, <- app_assoc. reflexivity.
    + rewrite E. simpl. rewrite <- app_assoc. reflexivity.
Qed.

(** The scan stops at the lowest matching index and runs the toggle there. *)
Lemma scanCodes_hit (n : nat) : forall (i k : nat) (value : Z) (s : State),
  (i <= k < i + n)%nat ->
  buttonCode s k = value ->
  (forall j, (i <= j < k)%nat -> buttonCode s j <> value) ->
  scanCodes n i value s =
    writeEEPROM_bool (16 + Z.of_nat k) (relayState (toggleRelay k s) k)
      (toggleRelay k s).
Proof.
  induction n as [|n IH]; intros i k value s Hk Hcode Hbefore.
  - lia.
  - simpl. destruct (Z.eqb_spec value (buttonCode s i)) as [E|E].
    + destruct (decide (i = k)) as [->|Hne]; [reflexivity|].
      exfalso. apply (Hbefore i); [lia|]. symmetry. exact E.
    + destruct (decide (i = k)) as [->|Hne]; [congruence|].
      apply IH; [lia|exact Hcode|].
      intros j Hj. apply Hbefore. lia.
Qed.

Lemma scanCodes_miss (n : nat) : forall (i : nat) (value : Z) (s : State),
  (forall j, (i <= j < i + n)%nat -> buttonCode s j <> value) ->
  scanCodes n i value s = s.
Proof.
  induction n as [|n IH]; intros i value s Hnone; simpl.
  - reflexivity.
  - destruct (Z.eqb_spec value (buttonCode s i)) as [E|E].
    + exfalso. apply (Hnone i); [lia|]. symmetry. exact E.
    + apply IH. intros j Hj. apply Hnone. lia.
Qed.

(** Every part of the state after one toggle and its store update. *)
Lemma toggle_and_persist (k : nat) (s : State) :
  (k < 4)%nat ->
  length (relayStates s) = 4%nat ->
  let new := negb (relayState s k) in
  let s' := writeEEPROM_bool (16 + Z.of_nat k)
              (relayState (toggleRelay k s) k) (toggleRelay k s) in
  let status := endStatus (nextBus s).1 in
  relayStates s' = <[k := new]> (relayStates s) /\
  buttonCodes s' = buttonCodes s /\
  lastReceivedCode s' = lastReceivedCode s /\
  lastReceivedTime s' = lastReceivedTime s /\
  learningMode s' = learningMode s /\
  learnStep s' = learnStep s /\
  pins s' = <[relayPin k := new]> (pins s) /\
  eeprom s' =
    (if status =? 0
     then <[16 + Z.of_nat k := if new then 1 else 0]> (eeprom s)
     else eeprom s) /\
  clock s' = (if status =? 0 then u32 (clock s + 20) else clock s) /\
  trace s' =
    trace s ++
      [DigitalWrite (relayPin k) new;
       SerialText "Relay "; SerialNum (Z.of_nat k + 1);
       SerialText (if new then " ON" else " OFF");
       BusWrite [Z.land (Z.shiftr (16 + Z.of_nat k) 8) 255;
                 Z.land (16 + Z.of_nat k) 255;
                 if new then 1 else 0] status] ++
      (if status =? 0 then [Delay 20]
       else [SerialText "I2C write failed!"]).
Proof.
  intros Hk Hlen new s' status. subst s' status.
  assert (k < length (relayStates s))%nat as Hk' by lia.
  rewrite (toggleRelay_eq k s Hk'). fold new.
  assert (relayState
            (set_trace
               (trace s ++
                  [DigitalWrite (relayPin k) new; SerialText "Relay ";
                   SerialNum (Z.of_nat k + 1);
                   SerialText (if new then " ON" else " OFF")])
               (set_pins (<[relayPin k := new]> (pins s))
                  (set_relayStates (<[k := new]> (relayStates s)) s))) k
          = new) as ->.
  { unfold relayState at 1. cbn [relayStates set_trace set_pins set_relayStates].
    rewrite list_lookup_insert_eq by exact Hk'. reflexivity. }
  rewrite writeEEPROM_bool_eq by lia.
  unfold nextBus. cbn [bus set_trace set_pins set_relayStates].
  destruct (bus s) as [|r rs]; simpl.
  - rewrite <- !app_assoc. simpl. repeat split; reflexivity.
  - destruct (endStatus r =? 0) eqn:E; simpl;
      rewrite <- !app_assoc; simpl; repeat split; try reflexivity.
    apply Z.eqb_eq in E. rewrite E. reflexivity.
Qed.

(** The four ways through [handleRFInput]. *)
Lemma handleRFInput_idle s :
  rxAvailable s = false -> handleRFInput s = s.
Proof. intros H. unfold handleRFInput. rewrite H. reflexivity. Qed.

Lemma handleRFInput_zero s :
  rxAvailable s = true -> rxValue s = 0 ->
  handleRFInput s = resetAvailable (Serial_print "Unknown encoding" s).
Proof. intros Ha Hv. unfold handleRFInput. rewrite Ha, Hv. reflexivity. Qed.

Lemma handleRFInput_reject s :
  rxAvailable s = true -> rxValue s <> 0 ->
  rxValue s = lastReceivedCode s ->
  u32 (clock s - lastReceivedTime s) <= debounceTime ->
  handleRFInput s = resetAvailable s.
Proof.
  intros Ha Hv Hsame Hquiet. unfold handleRFInput, millis. rewrite Ha.
  destruct (Z.eqb_spec (rxValue s) 0) as [E|_]; [contradiction|].
  destruct (Z.eqb_spec (rxValue s) (lastReceivedCode s)) as [_|E];
    [|contradiction].
  destruct (Z.ltb_spec debounceTime (u32 (clock s - lastReceivedTime s)));
    [lia|reflexivity].
Qed.

Lemma handleRFInput_accept s :
  rxAvailable s = true -> rxValue s <> 0 ->
  rxValue s <> lastReceivedCode s \/
  debounceTime < u32 (clock s - lastReceivedTime s) ->
  handleRFInput s =
    let w := scanCodes 4 0 (rxValue s)
               (Serial_printNum (rxValue s) (Serial_print "Received: " s)) in
    resetAvailable
      (set_lastReceivedTime (clock w) (set_lastReceivedCode (rxValue s) w)).
Proof.
  intros Ha Hv Hacc. unfold handleRFInput, millis. rewrite Ha.
  destruct (Z.eqb_spec (rxValue s) 0) as [E|_]; [contradiction|].
  destruct (Z.eqb_spec (rxValue s) (lastReceivedCode s)) as [E|_];
    [|reflexivity].
  destruct (Z.ltb_spec debounceTime (u32 (clock s - lastReceivedTime s)));
    [reflexivity|].
  destruct Hacc; [contradiction|lia].
Qed.

(** An accepted code that matches: the scan toggles its lowest slot. *)
Lemma handleRFInput_hit s k :
  rxAvailable s = true -> rxValue s <> 0 ->
  rxValue s <> lastReceivedCode s \/
  debounceTime < u32 (clock s - lastReceivedTime s) ->
  firstMatch s (rxValue s) k ->
  handleRFInput s =
    let p := Serial_printNum (rxValue s) (Serial_print "Received: " s) in
    let w := writeEEPROM_bool (16 + Z.of_nat k)
               (relayState (toggleRelay k p) k) (toggleRelay k p) in
    resetAvailable
      (set_lastReceivedTime (clock w) (set_lastReceivedCode (rxValue s) w)).
Proof.
  intros Ha Hv Hacc (Hk & Hcode & Hbefore).
  rewrite handleRFInput_accept by assumption. cbv zeta.
  rewrite (scanCodes_hit 4 0 k); try reflexivity.
  - lia.
  - exact Hcode.
  - intros j Hj. apply Hbefore. lia.
Qed.

(** An accepted code that matches no slot. *)
Lemma handleRFInput_miss s :
  rxAvailable s = true -> rxValue s <> 0 ->
  rxValue s <> lastReceivedCode s \/
  debounceTime < u32 (clock s - lastReceivedTime s) ->
  noMatch s (rxValue s) ->
  handleRFInput s =
    resetAvailable
      (set_lastReceivedTime (clock s)
         (set_lastReceivedCode (rxValue s)
            (Serial_printNum (rxValue s) (Serial_print "Received: " s)))).
Proof.
  intros Ha Hv Hacc Hnone.
  rewrite handleRFInput_accept by assumption. cbv zeta.
  rewrite scanCodes_miss; [reflexivity|].
  intros j Hj. apply Hnone. lia.
Qed.

Lemma nextBus_answer s s' : bus s' = bus s -> (nextBus s').1 = (nextBus s).1.
Proof.
  intros H. unfold nextBus. rewrite H. destruct (bus s); reflexivity.
Qed.

(** The whole state after an accepted, matching code. *)
Lemma handleRFInput_hit_state s k :
  length (relayStates s) = 4%nat ->
  rxAvailable s = true -> rxValue s <> 0 ->
  rxValue s <> lastReceivedCode s \/
  debounceTime < u32 (clock s - lastReceivedTime s) ->
  firstMatch s (rxValue s) k ->
  let new := negb (relayState s k) in
  let status := endStatus (nextBus s).1 in
  let s' := handleRFInput s in
  relayStates s' = <[k := new]> (relayStates s) /\
  buttonCodes s' = buttonCodes s /\
  lastReceivedCode s' = rxValue s /\
  lastReceivedTime s' = clock s' /\
  clock s' = (if status =? 0 then u32 (clock s + 20) else clock s) /\
  pins s' = <[relayPin k := new]> (pins s) /\
  eeprom s' =
    (if status =? 0
     then <[16 + Z.of_nat k := if new then 1 else 0]> (eeprom s)
     else eeprom s) /\
  rxAvailable s' = false /\
  trace s' =
    trace s ++
      [SerialText "Received: "; SerialNum (rxValue s);
       DigitalWrite (relayPin k) new;
       SerialText "Relay "; SerialNum (Z.of_nat k + 1);
       SerialText (if new then " ON" else " OFF");
       BusWrite [Z.land (Z.shiftr (16 + Z.of_nat k) 8) 255;
                 Z.land (16 + Z.of_nat k) 255;
                 if new then 1 else 0] status] ++
      (if status =? 0 then [Delay 20]
       else [SerialText "I2C write failed!"]) ++
      [ResetAvailable].
Proof.
  intros Hlen Ha Hv Hacc Hfirst new status s'. subst s'.
  rewrite (handleRFInput_hit s k) by assumption. cbv zeta.
  destruct Hfirst as (Hk & _ & _).
  pose proof (toggle_and_persist k
                (Serial_printNum (rxValue s) (Serial_print "Received: " s))
                Hk Hlen) as H.
  cbv zeta in H.
  assert ((nextBus
             (Serial_printNum (rxValue s) (Serial_print "Received: " s))).1
          = (nextBus s).1) as Hbus by (apply nextBus_answer; reflexivity).
  rewrite Hbus in H. subst status new.
  remember (writeEEPROM_bool (16 + Z.of_nat k)
              (relayState
                 (toggleRelay k
                    (Serial_printNum (rxValue s)
                       (Serial_print "Received: " s))) k)
              (toggleRelay k
                 (Serial_printNum (rxValue s) (Serial_print "Received: " s))))
    as w eqn:Hw.
  clear Hw Hbus.
  destruct H as (H1 & H2 & H3 & H4 & H5 & H6 & H7 & H8 & H9 & H10).
  unfold resetAvailable, emit.
  cbn [relayStates buttonCodes lastReceivedCode lastReceivedTime clock pins
       eeprom rxAvailable trace set_trace set_rxAvailable
       set_lastReceivedTime set_lastReceivedCode].
  rewrite H1, H2, H7, H8, H9, H10.
  repeat split; try reflexivity.
  unfold Serial_printNum, Serial_print, emit. simpl.
  rewrite <- !app_assoc. reflexivity.
Qed.

(** ** C5: first match wins *)

(** C5. The registry is scanned in slot order and the first match wins:
    when an accepted code equals the stored code of at least one slot, the
    relay of the lowest-indexed such slot is flipped and driven, and every
    other relay, whether or not its slot stores the same code, keeps its
    state; the only pin written is that of the first match. *)
Theorem lookup_first_match_wins (s : State) (k : nat) :
  wellFormed s ->
  rxAvailable s = true ->
  rxValue s <> 0 ->
  rxValue s <> lastReceivedCode s \/
  debounceTime < u32 (clock s - lastReceivedTime s) ->
  firstMatch s (rxValue s) k ->
  let s' := handleRFInput s in
  relayState s' k = negb (relayState s k) /\
  (forall j, j <> k -> relayState s' j = relayState s j) /\
  pins s' = <[relayPin k := negb (relayState s k)]> (pins s) /\
  List.filter isDigitalWrite (since s s')
  = [DigitalWrite (relayPin k) (negb (relayState s k))].
Proof.
  intros [Hlen _] Ha Hv Hacc Hfirst s'. subst s'.
  destruct (handleRFInput_hit_state s k Hlen Ha Hv Hacc Hfirst)
    as (H1 & _ & _ & _ & _ & H6 & _ & _ & H9).
  destruct Hfirst as (Hk & _ & _).
  remember (handleRFInput s) as s' eqn:Hs'. clear Hs'.
  unfold relayState. rewrite H1. repeat split.
  - rewrite list_lookup_insert_eq by lia. reflexivity.
  - intros j Hj. rewrite list_lookup_insert_ne by congruence. reflexivity.
  - exact H6.
  - unfold since. rewrite H9. rewrite drop_app_length.
    destruct (endStatus (nextBus s).1 =? 0); reflexivity.
Qed.

Lemma lookup_first_match_wins_witness :
  relayState (handleRFInput (presented 10 22 (paired [11; 22; 33; 22]))) 1
  = negb (relayState (presented 10 22 (paired [11; 22; 33; 22])) 1).
Proof.
  refine (proj1 (lookup_first_match_wins
                   (presented 10 22 (paired [11; 22; 33; 22])) 1 _ _ _ _ _)).
  - split; reflexivity.
  - reflexivity.
  - vm_compute. discriminate.
  - left. vm_compute. discriminate.
  - split; [lia|]. split; [reflexivity|].
    intros j Hj. destruct j as [|j]; [vm_compute; discriminate | lia].
Defined.

(** ** C9: the output is driven before the store is updated *)

(** C9. In a run-time toggle the relay is flipped in memory and its pin is
    driven first; in the state reached at that point the store is still
    untouched and no bus transaction has been logged.  The byte at
    16+slot is written only after that, by the one bus transaction that
    follows the pin write in the log. *)
Theorem toggle_output_before_store (s : State) (k : nat) :
  wellFormed s ->
  rxAvailable s = true ->
  rxValue s <> 0 ->
  rxValue s <> lastReceivedCode s \/
  debounceTime < u32 (clock s - lastReceivedTime s) ->
  firstMatch s (rxValue s) k ->
  let new := negb (relayState s k) in
  let status := endStatus (nextBus s).1 in
  let mid :=
    toggleRelay k (Serial_printNum (rxValue s) (Serial_print "Received: " s)) in
  let s' := handleRFInput s in
  (* between the two effects *)
  relayState mid k = new /\
  pins mid !! relayPin k = Some new /\
  eeprom mid = eeprom s /\
  since s mid =
    [SerialText "Received: "; SerialNum (rxValue s);
     DigitalWrite (relayPin k) new; SerialText "Relay ";
     SerialNum (Z.of_nat k + 1); SerialText (if new then " ON" else " OFF")] /\
  (* the store update comes next *)
  s' = resetAvailable
         (set_lastReceivedTime
            (clock (writeEEPROM_bool (16 + Z.of_nat k) new mid))
            (set_lastReceivedCode (rxValue s)
               (writeEEPROM_bool (16 + Z.of_nat k) new mid))) /\
  since mid s' =
    BusWrite [Z.land (Z.shiftr (16 + Z.of_nat k) 8) 255;
              Z.land (16 + Z.of_nat k) 255;
              if new then 1 else 0] status
    :: (if status =? 0 then [Delay 20] else [SerialText "I2C write failed!"])
    ++ [ResetAvailable] /\
  eeprom s' =
    (if status =? 0
     then <[16 + Z.of_nat k := if new then 1 else 0]> (eeprom s)
     else eeprom s).
Proof.
  intros [Hlen _] Ha Hv Hacc Hfirst new status mid s'.
  pose proof (handleRFInput_hit_state s k Hlen Ha Hv Hacc Hfirst) as Hst.
  cbv zeta in Hst.
  destruct Hst as (_ & _ & _ & _ & _ & _ & H7 & _ & H9).
  pose proof (handleRFInput_hit s k Ha Hv Hacc Hfirst) as Heq.
  cbv zeta in Heq.
  assert (k < length (relayStates s))%nat as Hk
    by (destruct Hfirst as (Hk & _); lia).
  assert (mid =
    set_trace
      (trace s ++
         [SerialText "Received: "; SerialNum (rxValue s);
          DigitalWrite (relayPin k) new; SerialText "Relay ";
          SerialNum (Z.of_nat k + 1);
          SerialText (if new then " ON" else " OFF")])
      (set_pins (<[relayPin k := new]> (pins s))
         (set_relayStates (<[k := new]> (relayStates s)) s))) as Hmid.
  { subst mid. rewrite toggleRelay_eq by exact Hk.
    unfold Serial_printNum, Serial_print, emit. simpl.
    rewrite <- !app_assoc. reflexivity. }
  assert (relayState mid k = new) as Hnew.
  { rewrite Hmid. unfold relayState.
    cbn [relayStates set_trace set_pins set_relayStates].
    rewrite list_lookup_insert_eq by exact Hk. reflexivity. }
  fold mid in Heq. rewrite Hnew in Heq.
  assert (trace mid =
    trace s ++
      [SerialText "Received: "; SerialNum (rxValue s);
       DigitalWrite (relayPin k) new; SerialText "Relay ";
       SerialNum (Z.of_nat k + 1);
       SerialText (if new then " ON" else " OFF")]) as Htr
    by (rewrite Hmid; reflexivity).
  split; [exact Hnew|].
  split; [rewrite Hmid; cbn [pins set_trace set_pins]; apply lookup_insert_eq|].
  split; [rewrite Hmid; reflexivity|].
  split; [unfold since; rewrite Htr; apply drop_app_length|].
  split; [exact Heq|].
  split; [|exact H7].
  unfold since. fold s' in H9. rewrite H9, Htr.
  fold new status.
  rewrite (app_assoc (trace s)).
  change (?l ++ [?a; ?b; ?c; ?d; ?e; ?f; ?g])
    with (l ++ [a; b; c; d; e; f] ++ [g]).
  rewrite (app_assoc (trace s)).
  rewrite <- (app_assoc (trace s ++ _)).
  rewrite drop_app_length. reflexivity.
Qed.

Lemma toggle_output_before_store_witness :
  pins (toggleRelay 1
          (Serial_printNum 22
             (Serial_print "Received: "
                (presented 10 22 (paired [11; 22; 33; 22])))))
    !! relayPin 1 = Some true.
Proof.
  refine (proj1 (proj2 (toggle_output_before_store
                   (presented 10 22 (paired [11; 22; 33; 22])) 1 _ _ _ _ _))).
  - split; reflexivity.
  - reflexivity.
  - vm_compute. discriminate.
  - left. vm_compute. discriminate.
  - split; [lia|]. split; [reflexivity|].
    intros j Hj. destruct j as [|j]; [vm_compute; discriminate | lia].
Defined.

(** ** C10: what run-time dispatch leaves alone in the store *)

Lemma writeEEPROM_bool_frame (address : Z) (flag : bool) (s : State) :
  0 <= address < 2 ^ 16 ->
  let s' := writeEEPROM_bool address flag s in
  buttonCodes s' = buttonCodes s /\
  forall a, a <> address -> eeprom s' !! a = eeprom s !! a.
Proof.
  intros Ha s'. subst s'. rewrite writeEEPROM_bool_eq by exact Ha.
  unfold nextBus.
  destruct (bus s) as [|r rs]; simpl.
  - split; [reflexivity|]. intros a Hne. apply lookup_insert_ne. congruence.
  - destruct (endStatus r =? 0); simpl; split; try reflexivity.
    intros a Hne. apply lookup_insert_ne. congruence.
Qed.

Lemma scanCodes_frame (n : nat) : forall (i : nat) (value : Z) (s : State),
  (i + n <= 4)%nat ->
  buttonCodes (scanCodes n i value s) = buttonCodes s /\
  forall a, ~ 16 <= a < 20 ->
    eeprom (scanCodes n i value s) !! a = eeprom s !! a.
Proof.
  induction n as [|n IH]; intros i value s Hi; simpl.
  - split; reflexivity.
  - destruct (value =? buttonCode s i).
    + assert (0 <= 16 + Z.of_nat i < 2 ^ 16) as Ha by lia.
      pose proof (writeEEPROM_bool_frame (16 + Z.of_nat i)
                    (relayState (toggleRelay i s) i) (toggleRelay i s) Ha)
        as [Hc He].
      split; [rewrite Hc; reflexivity|].
      intros a Hout. rewrite He by lia. reflexivity.
    + apply IH. lia.
Qed.

Lemma handleRFInput_frame (s : State) :
  buttonCodes (handleRFInput s) = buttonCodes s /\
  forall a, ~ 16 <= a < 20 -> eeprom (handleRFInput s) !! a = eeprom s !! a.
Proof.
  unfold handleRFInput.
  destruct (rxAvailable s); [|split; reflexivity].
  destruct (rxValue s =? 0); [split; reflexivity|].
  destruct (negb (rxValue s =? lastReceivedCode s)
            || (debounceTime <? u32 (millis s - lastReceivedTime s)));
    [|split; reflexivity].
  pose proof (scanCodes_frame 4 0 (rxValue s)
                (Serial_printNum (rxValue s) (Serial_print "Received: " s)))
    as [Hc He]; [lia|].
  remember (scanCodes 4 0 (rxValue s)
              (Serial_printNum (rxValue s) (Serial_print "Received: " s)))
    as w eqn:Hw.
  clear Hw. split; [exact Hc|exact He].
Qed.

Lemma dispatch_frame (ins : list Input) : forall s : State,
  buttonCodes (dispatch ins s) = buttonCodes s /\
  forall a, ~ 16 <= a < 20 -> eeprom (dispatch ins s) !! a = eeprom s !! a.
Proof.
  unfold dispatch.
  induction ins as [|i ins IH]; intros s; simpl.
  - split; reflexivity.
  - destruct (IH (handleRFInput (arrive i s))) as [Hc He].
    destruct (handleRFInput_frame (arrive i s)) as [Hc1 He1].
    assert (buttonCodes (arrive i s) = buttonCodes s /\
            eeprom (arrive i s) = eeprom s) as [Hc2 He2].
    { unfold arrive. destruct (in_signal i); split; reflexivity. }
    split.
    + rewrite Hc, Hc1, Hc2. reflexivity.
    + intros a Hout. rewrite He, He1, He2 by exact Hout. reflexivity.
Qed.

Lemma relay_address_bytes (k : nat) :
  (k < 4)%nat ->
  Z.land (Z.shiftr (16 + Z.of_nat k) 8) 255 = 0 /\
  Z.land (16 + Z.of_nat k) 255 = 16 + Z.of_nat k.
Proof.
  intros Hk.
  destruct k as [|[|[|[|k]]]]; [split; reflexivity .. | lia].
Qed.

(** C10. A run-time toggle of slot [k] issues exactly one store
    transaction, carrying one data byte for address 16+k, and leaves every
    other cell of the store as it was; whatever inputs run-time dispatch
    sees, and however many, the cells outside [16,20) (among them the
    registry region [0,16)) and the in-memory registry stay unchanged. *)
Theorem dispatch_store_frame (s : State) (k : nat) (ins : list Input) :
  (wellFormed s ->
   rxAvailable s = true ->
   rxValue s <> 0 ->
   rxValue s <> lastReceivedCode s \/
   debounceTime < u32 (clock s - lastReceivedTime s) ->
   firstMatch s (rxValue s) k ->
   let s' := handleRFInput s in
   let new := negb (relayState s k) in
   List.filter isBusWrite (since s s') =
     [BusWrite [0; 16 + Z.of_nat k; if new then 1 else 0]
        (endStatus (nextBus s).1)] /\
   (forall a, a <> 16 + Z.of_nat k -> eeprom s' !! a = eeprom s !! a) /\
   (endStatus (nextBus s).1 = 0 ->
    eeprom s' !! (16 + Z.of_nat k) = Some (if new then 1 else 0))) /\
  (forall a, ~ 16 <= a < 20 -> eeprom (dispatch ins s) !! a = eeprom s !! a) /\
  buttonCodes (dispatch ins s) = buttonCodes s.
Proof.
  split.
  - intros [Hlen _] Ha Hv Hacc Hfirst s' new.
    destruct (handleRFInput_hit_state s k Hlen Ha Hv Hacc Hfirst)
      as (_ & _ & _ & _ & _ & _ & H7 & _ & H9).
    destruct Hfirst as (Hk & _ & _).
    destruct (relay_address_bytes k Hk) as [Hhi Hlo].
    fold s' new in H7, H9. rewrite Hhi, Hlo in H9.
    clearbody s'.
    split; [|split].
    + unfold since. rewrite H9, drop_app_length.
      destruct (endStatus (nextBus s).1 =? 0); reflexivity.
    + intros a Hne. rewrite H7.
      destruct (endStatus (nextBus s).1 =? 0); [|reflexivity].
      apply lookup_insert_ne. congruence.
    + intros Hok. rewrite H7, Hok. simpl. apply lookup_insert_eq.
  - destruct (dispatch_frame ins s) as [Hc He]. split; assumption.
Qed.

Lemma dispatch_store_frame_witness :
  List.filter isBusWrite
    (since (presented 10 22 (paired [11; 22; 33; 22]))
       (handleRFInput (presented 10 22 (paired [11; 22; 33; 22]))))
  = [BusWrite [0; 17; 1] 0].
Proof.
  refine (proj1 (proj1 (dispatch_store_frame
            (presented 10 22 (paired [11; 22; 33; 22])) 1 []) _ _ _ _ _)).
  - split; reflexivity.
  - reflexivity.
  - vm_compute. discriminate.
  - left. vm_compute. discriminate.
  - split; [lia|]. split; [reflexivity|].
    intros j Hj. destruct j as [|j]; [vm_compute; discriminate | lia].
Defined.

(** ** C3: run-time dedup with cooldown *)

Lemma toggleRelay_trace (k : nat) (s : State) :
  exists l, trace (toggleRelay k s) = trace s ++ l.
Proof.
  unfold toggleRelay, digitalWrite, Serial_print, Serial_printNum, emit.
  cbn [trace set_trace]. rewrite <- !app_assoc. eexists. reflexivity.
Qed.

Lemma writeEEPROM_bool_trace (address : Z) (flag : bool) (s : State) :
  exists l, trace (writeEEPROM_bool address flag s) = trace s ++ l.
Proof.
  unfold_board.
  destruct (bus s) as [|r rs]; simpl.
  - rewrite <- !app_assoc. eexists. reflexivity.
  - destruct (endStatus r =? 0) eqn:E; simpl; rewrite ?E; simpl;
      rewrite <- !app_assoc; eexists; reflexivity.
Qed.

Lemma scanCodes_trace (n : nat) : forall (i : nat) (value : Z) (s : State),
  exists l, trace (scanCodes n i value s) = trace s ++ l.
Proof.
  induction n as [|n IH]; intros i value s; simpl.
  - exists []. rewrite app_nil_r. reflexivity.
  - destruct (value =? buttonCode s i); [|apply IH].
    destruct (writeEEPROM_bool_trace (16 + Z.of_nat i)
                (relayState (toggleRelay i s) i) (toggleRelay i s)) as [l2 H2].
    destruct (toggleRelay_trace i s) as [l1 H1].
    rewrite H2, H1, <- app_assoc. eexists. reflexivity.
Qed.

(** The state [presented] leaves: the clock has advanced and the receiver
    holds the value. *)
Lemma presented_eq (t : N) (v : Z) (s : State) :
  presented t v s =
    set_rxValue (u32 v)
      (set_rxAvailable true
         (set_buttonLow false (set_clock (u32 (clock s + Z.of_N t)) s))).
Proof. reflexivity. Qed.

(** C3. In run-time dispatch a non-zero received code is accepted (the
    lookup is run, announced by "Received: " on diagnostics) exactly when
    it differs from the last accepted code or more than [debounceTime]
    (1000 ms) has passed on the clock since the last recorded acceptance;
    every acceptance records the code and the time, match or no match,
    and a rejection changes nothing but the receiver's flag.  Hence a
    stored code presented again within the quiet interval does not toggle
    a second time, and presented once more after the interval it toggles
    again. *)
Theorem runtime_dedup_cooldown (s : State) (k : nat) (t2 t3 : N) :
  rxAvailable s = true ->
  rxValue s <> 0 ->
  let accept :=
    rxValue s <> lastReceivedCode s \/
    debounceTime < u32 (clock s - lastReceivedTime s) in
  let s1 := handleRFInput s in
  (accept <-> hd_error (since s s1) = Some (SerialText "Received: ")) /\
  (accept -> lastReceivedCode s1 = rxValue s /\ lastReceivedTime s1 = clock s1) /\
  (~ accept -> s1 = resetAvailable s) /\
  (accept ->
   wellFormed s ->
   0 <= rxValue s < 2 ^ 32 ->
   firstMatch s (rxValue s) k ->
   (Z.of_N t2 <= debounceTime)%Z ->
   debounceTime < Z.of_N t2 + Z.of_N t3 < 2 ^ 32 ->
   let s2 := handleRFInput (presented t2 (rxValue s) s1) in
   let s3 := handleRFInput (presented t3 (rxValue s) s2) in
   relayStates s1 = <[k := negb (relayState s k)]> (relayStates s) /\
   s2 = resetAvailable (presented t2 (rxValue s) s1) /\
   relayStates s2 = relayStates s1 /\
   relayStates s3 = <[k := negb (relayState s1 k)]> (relayStates s1)).
Proof.
  intros Ha Hv accept s1.
  assert (accept -> exists l,
            trace s1 = trace s ++ SerialText "Received: " :: l) as Htrace.
  { intros Hacc. subst s1. rewrite handleRFInput_accept by assumption.
    cbv zeta.
    destruct (scanCodes_trace 4 0 (rxValue s)
                (Serial_printNum (rxValue s) (Serial_print "Received: " s)))
      as [l Hl].
    remember (scanCodes 4 0 (rxValue s)
                (Serial_printNum (rxValue s) (Serial_print "Received: " s)))
      as w eqn:Hw. clear Hw.
    unfold resetAvailable, emit. cbn [trace set_trace set_rxAvailable
      set_lastReceivedTime set_lastReceivedCode].
    rewrite Hl. unfold Serial_printNum, Serial_print, emit. simpl.
    rewrite <- !app_assoc. simpl. eexists. reflexivity. }
  assert (~ accept -> s1 = resetAvailable s) as Hrej.
  { intros Hn. subst s1 accept. apply handleRFInput_reject; try assumption.
    - destruct (Z.eq_dec (rxValue s) (lastReceivedCode s)); [assumption|].
      exfalso. apply Hn. left. assumption.
    - destruct (Z_le_gt_dec (u32 (clock s - lastReceivedTime s)) debounceTime);
        [assumption|]. exfalso. apply Hn. right. lia. }
  assert (accept \/ ~ accept) as Hdec.
  { subst accept.
    destruct (Z.eq_dec (rxValue s) (lastReceivedCode s)) as [E|E];
      [|left; left; exact E].
    destruct (Z_le_gt_dec (u32 (clock s - lastReceivedTime s)) debounceTime);
      [right; intros [?|?]; [contradiction|lia] | left; right; lia]. }
  split; [|split; [|split; [exact Hrej|]]].
  - split.
    + intros Hacc. destruct (Htrace Hacc) as [l Hl].
      unfold since. rewrite Hl, drop_app_length. reflexivity.
    + intros Hhd. destruct Hdec as [Hacc|Hn]; [exact Hacc|].
      exfalso. rewrite (Hrej Hn) in Hhd. unfold since in Hhd.
      unfold resetAvailable, emit in Hhd. simpl in Hhd.
      rewrite drop_app_length in Hhd. discriminate.
  - intros Hacc. subst s1. rewrite handleRFInput_accept by assumption.
    cbv zeta.
    remember (scanCodes 4 0 (rxValue s)
                (Serial_printNum (rxValue s) (Serial_print "Received: " s)))
      as w eqn:Hw. clear Hw.
    split; reflexivity.
  - intros Hacc [Hlen Hlenc] Hrange Hfirst Ht2 Ht3 s2 s3.
    destruct (handleRFInput_hit_state s k Hlen Ha Hv Hacc Hfirst)
      as (H1 & H2 & H3 & H4 & _ & _ & _ & _ & _).
    fold s1 in H1, H2, H3, H4.
    assert (length (relayStates s1) = 4%nat) as Hlen1
      by (rewrite H1, length_insert; exact Hlen).
    assert (firstMatch s1 (rxValue s) k) as Hfirst1.
    { destruct Hfirst as (Hk & Hc & Hb). unfold firstMatch, buttonCode in *.
      rewrite H2. auto. }
    clearbody s1.
    (* second presentation, inside the quiet interval *)
    assert (s2 = resetAvailable (presented t2 (rxValue s) s1)) as Hs2.
    { subst s2. apply handleRFInput_reject.
      - reflexivity.
      - rewrite presented_eq. cbn [rxValue set_rxValue].
        rewrite u32_small by exact Hrange. exact Hv.
      - rewrite presented_eq.
        cbn [rxValue set_rxValue lastReceivedCode set_rxAvailable
             set_buttonLow set_clock].
        rewrite u32_small by exact Hrange. symmetry. exact H3.
      - rewrite presented_eq.
        cbn [clock lastReceivedTime set_rxValue set_rxAvailable
             set_buttonLow set_clock].
        rewrite H4, u32_elapsed by lia. exact Ht2. }
    split; [exact H1|]. split; [exact Hs2|].
    split; [rewrite Hs2; reflexivity|].
    (* third presentation, after the quiet interval *)
    assert (rxValue (presented t3 (rxValue s) s2) = rxValue s) as Hv3.
    { rewrite presented_eq. cbn [rxValue set_rxValue].
      apply u32_small. exact Hrange. }
    assert (relayStates (presented t3 (rxValue s) s2) = relayStates s1
            /\ buttonCodes (presented t3 (rxValue s) s2) = buttonCodes s1
            /\ lastReceivedTime (presented t3 (rxValue s) s2) = clock s1
            /\ clock (presented t3 (rxValue s) s2)
               = u32 (clock s1 + (Z.of_N t2 + Z.of_N t3)))
      as (Hr3 & Hc3 & Hl3 & Hk3).
    { rewrite Hs2. rewrite !presented_eq. unfold resetAvailable, emit.
      cbn [relayStates buttonCodes lastReceivedTime clock set_rxValue
           set_rxAvailable set_buttonLow set_clock set_trace].
      rewrite u32_add_add, H4. auto. }
    subst s3.
    remember (presented t3 (rxValue s) s2) as p3 eqn:Hp3.
    assert (rxAvailable p3 = true) as Ha3 by (rewrite Hp3; reflexivity).
    clear Hp3.
    assert (length (relayStates p3) = 4%nat) as Hlen3
      by (rewrite Hr3; exact Hlen1).
    assert (rxValue p3 <> 0) as Hv3' by (rewrite Hv3; exact Hv).
    assert (rxValue p3 <> lastReceivedCode p3 \/
            debounceTime < u32 (clock p3 - lastReceivedTime p3)) as Hacc3.
    { right. rewrite Hk3, Hl3, u32_elapsed by lia. lia. }
    assert (firstMatch p3 (rxValue p3) k) as Hfirst3.
    { rewrite Hv3. destruct Hfirst1 as (Hk & Hc & Hb).
      unfold firstMatch, buttonCode in *. rewrite Hc3. auto. }
    destruct (handleRFInput_hit_state p3 k Hlen3 Ha3 Hv3' Hacc3 Hfirst3)
      as (G1 & _).
    rewrite G1. unfold relayState. rewrite Hr3. reflexivity.
Qed.

Lemma runtime_dedup_cooldown_witness :
  let s1 := handleRFInput demo in
  let s2 := handleRFInput (presented 500 (rxValue demo) s1) in
  let s3 := handleRFInput (presented 600 (rxValue demo) s2) in
  relayStates s1 = <[1%nat := negb (relayState demo 1)]> (relayStates demo) /\
  s2 = resetAvailable (presented 500 (rxValue demo) s1) /\
  relayStates s2 = relayStates s1 /\
  relayStates s3 = <[1%nat := negb (relayState s1 1)]> (relayStates s1).
Proof.
  assert (rxValue demo <> 0) as Hv by (vm_compute; discriminate).
  assert (rxValue demo <> lastReceivedCode demo \/
          debounceTime < u32 (clock demo - lastReceivedTime demo)) as Hacc
    by (left; vm_compute; discriminate).
  refine (proj2 (proj2 (proj2
            (runtime_dedup_cooldown demo 1 500 600 eq_refl Hv)))
            Hacc _ _ _ _ _).
  - split; reflexivity.
  - change (rxValue demo) with 22. lia.
  - split; [lia|]. split; [reflexivity|].
    intros j Hj. destruct j as [|j]; [vm_compute; discriminate | lia].
  - unfold debounceTime. lia.
  - unfold debounceTime. lia.
Defined.

(** ** C4: a received 0 is ignored *)

(** C4. A received code of 0 runs no lookup, toggles no relay, writes no
    registry slot and writes nothing to the store.  In run-time dispatch
    the only effects are the "Unknown encoding" diagnostic and the clearing
    of the receiver's flag; in learning mode the pass does exactly what a
    pass does on that state when its capture branch is skipped: only
    the session's timeout check runs. *)
Theorem zero_code_ignored (s : State) :
  rxAvailable s = true ->
  rxValue s = 0 ->
  handleRFInput s =
    set_trace (trace s ++ [SerialText "Unknown encoding"; ResetAvailable])
      (set_rxAvailable false s) /\
  learnIter s =
    (if learningModeTimeout <? u32 (clock s - learningModeStartTime s)
     then set_trace (trace s ++ [SerialText "Learning mode timeout. Exiting..."])
            (set_learningMode false s)
     else s) /\
  (forall f, f = handleRFInput \/ f = learnIter ->
     relayStates (f s) = relayStates s /\
     buttonCodes (f s) = buttonCodes s /\
     learnStep (f s) = learnStep s /\
     lastReceivedCode (f s) = lastReceivedCode s /\
     lastReceivedTime (f s) = lastReceivedTime s /\
     pins (f s) = pins s /\
     eeprom (f s) = eeprom s /\
     bus (f s) = bus s /\
     List.filter isBusWrite (since s (f s)) = [] /\
     List.filter isDigitalWrite (since s (f s)) = []).
Proof.
  intros Ha Hv.
  assert (handleRFInput s =
    set_trace (trace s ++ [SerialText "Unknown encoding"; ResetAvailable])
      (set_rxAvailable false s)) as H1.
  { rewrite handleRFInput_zero by assumption.
    unfold resetAvailable, Serial_print, emit. simpl.
    rewrite <- app_assoc. reflexivity. }
  assert (learnIter s =
    (if learningModeTimeout <? u32 (clock s - learningModeStartTime s)
     then set_trace (trace s ++ [SerialText "Learning mode timeout. Exiting..."])
            (set_learningMode false s)
     else s)) as H2.
  { unfold learnIter. rewrite Ha, Hv. reflexivity. }
  split; [exact H1|]. split; [exact H2|].
  intros f [->| ->].
  - rewrite H1. unfold since. cbn [trace set_trace].
    rewrite drop_app_length. repeat split; reflexivity.
  - rewrite H2. unfold since.
    destruct (learningModeTimeout <? u32 (clock s - learningModeStartTime s)).
    + cbn [trace set_trace]. rewrite drop_app_length.
      repeat split; reflexivity.
    + rewrite drop_all. repeat split; reflexivity.
Qed.

Lemma zero_code_ignored_witness :
  handleRFInput (presented 10 0 (paired [11; 22; 33; 22])) =
    set_trace
      (trace (presented 10 0 (paired [11; 22; 33; 22])) ++
         [SerialText "Unknown encoding"; ResetAvailable])
      (set_rxAvailable false (presented 10 0 (paired [11; 22; 33; 22]))).
Proof.
  refine (proj1 (zero_code_ignored
                   (presented 10 0 (paired [11; 22; 33; 22])) _ _)).
  - reflexivity.
  - reflexivity.
Defined.

(** ** Learning mode *)

Lemma elapsed_advance (s s' : State) (d : Z) :
  learningModeStartTime s' = learningModeStartTime s ->
  clock s' = u32 (clock s + d) ->
  elapsed s' = u32 (elapsed s + d).
Proof.
  intros Hst Hck. unfold elapsed, millis, u32. rewrite Hst, Hck. unfold u32.
  rewrite Zminus_mod_idemp_l, Zplus_mod_idemp_l. f_equal. lia.
Qed.

Lemma elapsed_same (s s' : State) :
  learningModeStartTime s' = learningModeStartTime s ->
  clock s' = clock s ->
  elapsed s' = u32 (elapsed s + 0).
Proof.
  intros Hst Hck. unfold elapsed, millis. rewrite Hst, Hck, Z.add_0_r.
  unfold u32. rewrite Z.mod_mod by lia. reflexivity.
Qed.

(** What the word overload of [writeEEPROM] leaves alone. *)
Lemma writeEEPROM_frame (address value : Z) (s : State) :
  let s' := writeEEPROM address value s in
  relayStates s' = relayStates s /\
  buttonCodes s' = buttonCodes s /\
  learningMode s' = learningMode s /\
  learnStep s' = learnStep s /\
  lastReceivedCode s' = lastReceivedCode s /\
  lastReceivedTime s' = lastReceivedTime s /\
  learningModeStartTime s' = learningModeStartTime s /\
  rxAvailable s' = rxAvailable s /\
  rxValue s' = rxValue s /\
  pins s' = pins s /\
  (clock s' = clock s \/ clock s' = u32 (clock s + 20)).
Proof.
  unfold_board.
  destruct (bus s) as [|r rs]; simpl.
  - repeat split; try reflexivity. right. reflexivity.
  - destruct (endStatus r =? 0) eqn:E; simpl; rewrite ?E; simpl;
      repeat split; try reflexivity; auto.
Qed.

(** A pass that captures nothing only runs the timeout check. *)
Lemma learnIter_skip (s : State) :
  latchSpent s ->
  learnIter s =
    if learningModeTimeout <? elapsed s
    then Serial_print "Learning mode timeout. Exiting..."
           (set_learningMode false s)
    else s.
Proof.
  intros Hspent. unfold learnIter, elapsed.
  destruct (rxAvailable s) eqn:Ea; [|reflexivity].
  destruct Hspent as [H|[H|H]]; [congruence| |].
  - rewrite H. reflexivity.
  - rewrite <- H, Z.eqb_refl, andb_false_r. reflexivity.
Qed.

(** A pass that captures: every part of the state the session depends
    on. *)
Lemma learnIter_capture (s : State) :
  rxAvailable s = true ->
  rxValue s <> 0 ->
  rxValue s <> lastReceivedCode s ->
  let s' := learnIter s in
  buttonCodes s' = <[learnStep s := rxValue s]> (buttonCodes s) /\
  relayStates s' = relayStates s /\
  learnStep s' = S (learnStep s) /\
  lastReceivedCode s' = rxValue s /\
  rxAvailable s' = false /\
  learningModeStartTime s' = learningModeStartTime s /\
  (exists d, 0 <= d <= 2020 /\ elapsed s' = u32 (elapsed s + d)) /\
  learningMode s' =
    (if learningModeTimeout <? elapsed s' then false
     else if (4 <=? S (learnStep s))%nat then false
     else learningMode s).
Proof.
  intros Ha Hv Hne s'. subst s'. unfold learnIter. rewrite Ha.
  destruct (Z.eqb_spec (rxValue s) 0) as [E|_]; [contradiction|].
  destruct (Z.eqb_spec (rxValue s) (lastReceivedCode s)) as [E|_];
    [contradiction|].
  cbn [negb andb].
  pose proof (writeEEPROM_frame
    (Z.of_nat (learnStep
       (set_buttonCodes (<[learnStep s := rxValue s]> (buttonCodes s)) s)) * 4)
    (rxValue s)
    (set_buttonCodes (<[learnStep s := rxValue s]> (buttonCodes s)) s)) as Hw.
  cbv zeta in Hw.
  remember (writeEEPROM
    (Z.of_nat (learnStep
       (set_buttonCodes (<[learnStep s := rxValue s]> (buttonCodes s)) s)) * 4)
    (rxValue s)
    (set_buttonCodes (<[learnStep s := rxValue s]> (buttonCodes s)) s))
    as w eqn:Ew. clear Ew.
  destruct Hw as (W1 & W2 & W3 & W4 & W5 & W6 & W7 & W8 & W9 & W10 & W11).
  cbn [relayStates buttonCodes learningMode learnStep lastReceivedCode
       learningModeStartTime rxAvailable rxValue clock set_buttonCodes] in *.
  unfold elapsed, millis.
  unfold resetAvailable, delay, Serial_print, Serial_printNum, emit.
  cbn [relayStates buttonCodes learningMode learnStep lastReceivedCode
       learningModeStartTime rxAvailable rxValue clock trace
       set_trace set_rxAvailable set_lastReceivedCode set_learnStep
       set_learningMode set_clock].
  rewrite W4, ?W7.
  destruct (4 <=? S (learnStep s))%nat eqn:E4;
  cbn [relayStates buttonCodes learningMode learnStep lastReceivedCode
       learningModeStartTime rxAvailable rxValue clock trace
       set_trace set_rxAvailable set_lastReceivedCode set_learnStep
       set_learningMode set_clock];
  rewrite ?W7.
  - assert (exists d, 0 <= d <= 2020 /\
              u32 (clock w - learningModeStartTime s)
              = u32 (u32 (clock s - learningModeStartTime s) + d)) as Hd.
    { destruct W11 as [Hc|Hc].
      - exists 0. split; [lia|].
        rewrite Hc, Z.add_0_r. unfold u32. rewrite Z.mod_mod by lia.
        reflexivity.
      - exists 20. split; [lia|]. rewrite Hc. unfold u32.
        rewrite Zminus_mod_idemp_l, Zplus_mod_idemp_l. f_equal. lia. }
    destruct (learningModeTimeout <? u32 (clock w - learningModeStartTime s))
      eqn:Et;
    cbn [relayStates buttonCodes learningMode learnStep lastReceivedCode
         learningModeStartTime rxAvailable rxValue clock trace
         set_trace set_rxAvailable set_lastReceivedCode set_learnStep
         set_learningMode set_clock];
    rewrite ?W1, ?W2, ?W4, ?W7, ?Et; repeat split; try reflexivity;
      try exact Hd.
  - assert (exists d, 0 <= d <= 2020 /\
              u32 (u32 (clock w + 2000) - learningModeStartTime s)
              = u32 (u32 (clock s - learningModeStartTime s) + d)) as Hd.
    { destruct W11 as [Hc|Hc].
      - exists 2000. split; [lia|]. rewrite Hc. unfold u32.
        rewrite Zminus_mod_idemp_l, Zplus_mod_idemp_l. f_equal. lia.
      - exists 2020. split; [lia|]. rewrite Hc. unfold u32.
        rewrite Zplus_mod_idemp_l, Zminus_mod_idemp_l, Zplus_mod_idemp_l.
        f_equal. lia. }
    destruct (learningModeTimeout
              <? u32 (u32 (clock w + 2000) - learningModeStartTime s)) eqn:Et;
    cbn [relayStates buttonCodes learningMode learnStep lastReceivedCode
         learningModeStartTime rxAvailable rxValue clock trace
         set_trace set_rxAvailable set_lastReceivedCode set_learnStep
         set_learningMode set_clock];
    rewrite ?W1, ?W2, ?W3, ?W4, ?W7, ?Et; repeat split; try reflexivity;
      try exact Hd.
Qed.

(** What the arrival of an input changes: the clock, the button level and
    the receiver's latch. *)
Lemma arrive_frame (i : Input) (s : State) :
  let s' := arrive i s in
  relayStates s' = relayStates s /\
  buttonCodes s' = buttonCodes s /\
  learningMode s' = learningMode s /\
  learnStep s' = learnStep s /\
  lastReceivedCode s' = lastReceivedCode s /\
  learningModeStartTime s' = learningModeStartTime s /\
  elapsed s' = u32 (elapsed s + Z.of_N (in_tick i)) /\
  match in_signal i with
  | Some v => rxAvailable s' = true /\ rxValue s' = u32 v
  | None => rxAvailable s' = rxAvailable s /\ rxValue s' = rxValue s
  end.
Proof.
  assert (elapsed (arrive i s) = u32 (elapsed s + Z.of_N (in_tick i))) as He.
  { apply elapsed_advance; unfold arrive; destruct (in_signal i); reflexivity. }
  unfold arrive in *.
  destruct (in_signal i); repeat split; try reflexivity; exact He.
Qed.

Lemma elapsed_range (s : State) : 0 <= elapsed s < 2 ^ 32.
Proof. apply u32_range. Qed.

(** A pass inside the window that captures nothing leaves the state as the
    input's arrival left it. *)
Lemma pass_skip (i : Input) (s : State) :
  latchSpent (arrive i s) ->
  elapsed s + Z.of_N (in_tick i) <= learningModeTimeout ->
  learnIter (arrive i s) = arrive i s /\
  elapsed (arrive i s) = elapsed s + Z.of_N (in_tick i).
Proof.
  intros Hsp Ht.
  destruct (arrive_frame i s) as (_ & _ & _ & _ & _ & _ & He & _).
  pose proof (elapsed_range s) as Hr.
  rewrite u32_small in He by (unfold learningModeTimeout in Ht; lia).
  split; [|exact He].
  rewrite learnIter_skip by exact Hsp.
  destruct (Z.ltb_spec learningModeTimeout (elapsed (arrive i s)));
    [lia|reflexivity].
Qed.

Lemma codesOf_cons (i : Input) (rest : list Input) :
  codesOf (i :: rest) =
    match in_signal i with
    | Some v => u32 v :: codesOf rest
    | None => codesOf rest
    end.
Proof. unfold codesOf. simpl. destruct (in_signal i); reflexivity. Qed.

Lemma registry_after_capture (l cs : list Z) (k : nat) (c : Z) :
  (k < length l)%nat ->
  take (S k) (<[k := c]> l) ++ cs ++ drop (S k + length cs) (<[k := c]> l)
  = take k l ++ (c :: cs) ++ drop (k + length (c :: cs)) l.
Proof.
  intros Hk.
  rewrite insert_take_drop by exact Hk.
  rewrite (cons_middle c (take k l) (drop (S k) l)).
  rewrite !(app_assoc (take k l) [c] (drop (S k) l)).
  assert (S k = length (take k l ++ [c])) as Hlen
    by (rewrite length_app, length_take; simpl; lia).
  rewrite (take_app_length' _ _ _ Hlen).
  rewrite (drop_app_add' _ _ _ _ Hlen).
  rewrite drop_drop, <- !app_assoc. simpl.
  repeat f_equal. lia.
Qed.

(** The loop refines the rule: inside the window, the registry is filled,
    from the current slot on, with the codes [acceptedCodes] selects from
    the inputs, the comparison starting from [lastReceivedCode] as the
    loop finds it. *)
Lemma learnLoop_refines (ins : list Input) : forall s : State,
  learningMode s = true ->
  latchSpent s ->
  (learnStep s < 4)%nat ->
  let cs := acceptedCodes (lastReceivedCode s) (codesOf ins) in
  (learnStep s + length cs <= 4)%nat ->
  (learnStep s + length cs <= length (buttonCodes s))%nat ->
  elapsed s + ticks ins + 2020 * Z.of_nat (length cs) <= learningModeTimeout ->
  let s' := (learnLoop ins s).1 in
  buttonCodes s' =
    take (learnStep s) (buttonCodes s) ++ cs ++
    drop (learnStep s + length cs) (buttonCodes s) /\
  relayStates s' = relayStates s /\
  learnStep s' = (learnStep s + length cs)%nat /\
  learningMode s' = (learnStep s' <? 4)%nat /\
  learningModeStartTime s' = learningModeStartTime s /\
  latchSpent s' /\
  elapsed s' <= elapsed s + ticks ins + 2020 * Z.of_nat (length cs) /\
  (learningMode s' = true ->
   elapsed s + ticks ins <= elapsed s' /\
   forall more, learnLoop (ins ++ more) s = learnLoop more s').
Proof.
  induction ins as [|i rest IH]; intros s Hlm Hsp Hk cs Hstep Hlen Htime s'.
  - subst s' cs. simpl in *. rewrite Hlm. simpl.
    rewrite Nat.add_0_r, take_drop.
    pose proof (elapsed_range s).
    repeat split; try reflexivity; try assumption; try lia.
    rewrite Hlm. symmetry. apply Nat.ltb_lt. exact Hk.
  - pose proof (elapsed_range s) as Hrange.
    assert (0 <= ticks rest) as Hticks.
    { clear. induction rest as [|j r IHr]; simpl; lia. }
    assert (0 <= Z.of_N (in_tick i)) as Htick by lia.
    change (ticks (i :: rest)) with (Z.of_N (in_tick i) + ticks rest) in *.
    destruct (arrive_frame i s)
      as (A1 & A2 & A3 & A4 & A5 & A6 & A7 & A8).
    assert (forall more,
              learnLoop ((i :: rest) ++ more) s
              = learnLoop (rest ++ more) (learnIter (arrive i s))) as Hunf
      by (intros more; simpl; rewrite Hlm; reflexivity).
    assert ((learnLoop (i :: rest) s).1
            = (learnLoop rest (learnIter (arrive i s))).1) as Hunf1
      by (simpl; rewrite Hlm; reflexivity).
    subst s'. rewrite Hunf1. clear Hunf1.
    assert (latchSpent (arrive i s) ->
            cs = acceptedCodes (lastReceivedCode s) (codesOf rest) ->
            let s' := (learnLoop rest (learnIter (arrive i s))).1 in
            buttonCodes s' =
              take (learnStep s) (buttonCodes s) ++ cs ++
              drop (learnStep s + length cs) (buttonCodes s) /\
            relayStates s' = relayStates s /\
            learnStep s' = (learnStep s + length cs)%nat /\
            learningMode s' = (learnStep s' <? 4)%nat /\
            learningModeStartTime s' = learningModeStartTime s /\
            latchSpent s' /\
            elapsed s' <= elapsed s + (Z.of_N (in_tick i) + ticks rest)
                          + 2020 * Z.of_nat (length cs) /\
            (learningMode s' = true ->
             elapsed s + (Z.of_N (in_tick i) + ticks rest) <= elapsed s' /\
             forall more,
               learnLoop ((i :: rest) ++ more) s = learnLoop more s'))
      as Hskip.
    { intros Hsp' Hcs.
      destruct (pass_skip i s Hsp') as [Heq He]; [lia|].
      rewrite Heq.
      specialize (IH (arrive i s)).
      rewrite A2, A3, A4, A5, A6, He in IH. rewrite <- Hcs in IH.
      destruct IH as (I1 & I2 & I3 & I4 & I5 & I6 & I7 & I8);
        try assumption; try lia.
      cbv zeta. rewrite I1, I2, I3, I5.
      repeat split; try assumption; try reflexivity; try lia.
      - rewrite <- I3. exact I4.
      - destruct (I8 H) as [I9 _]. lia.
      - intros more. rewrite Hunf, Heq. apply (proj2 (I8 H)). }
    subst cs. rewrite codesOf_cons in *.
    destruct (in_signal i) as [v|] eqn:Hsig.
    + destruct A8 as [A8 A9].
      simpl acceptedCodes in *.
      destruct ((u32 v =? 0) || (u32 v =? lastReceivedCode s)) eqn:Hrej.
      * apply Hskip; [|reflexivity].
        unfold latchSpent. rewrite A9, A5.
        apply orb_true_iff in Hrej. right.
        destruct Hrej as [H|H]; apply Z.eqb_eq in H; auto.
      * clear Hskip. apply orb_false_iff in Hrej.
        destruct Hrej as [Hz Hl].
        apply Z.eqb_neq in Hz. apply Z.eqb_neq in Hl.
        simpl length in *.
        assert (rxValue (arrive i s) <> 0) as Hv by (rewrite A9; exact Hz).
        assert (rxValue (arrive i s) <> lastReceivedCode (arrive i s)) as Hn
          by (rewrite A9, A5; exact Hl).
        destruct (learnIter_capture (arrive i s) A8 Hv Hn)
          as (C1 & C2 & C3 & C4 & C5 & C6 & (d & Hd & C7) & C8).
        rewrite A2, A4, A9 in C1. rewrite A1 in C2. rewrite A4 in C3.
        rewrite A9 in C4. rewrite A6 in C6. rewrite A3, A4 in C8.
        rewrite A7 in C7.
        rewrite (u32_small (elapsed s + Z.of_N (in_tick i))) in C7
          by (unfold learningModeTimeout in Htime; lia).
        rewrite u32_small in C7
          by (unfold learningModeTimeout in Htime; lia).
        remember (learnIter (arrive i s)) as sb eqn:Hsb.
        assert (learningMode sb = (S (learnStep s) <? 4)%nat) as C9.
        { rewrite C8.
          destruct (Z.ltb_spec learningModeTimeout (elapsed sb)); [lia|].
          rewrite Hlm.
          destruct (Nat.leb_spec 4 (S (learnStep s)));
            symmetry; [apply Nat.ltb_ge|apply Nat.ltb_lt]; lia. }
        assert (latchSpent sb) as Hspb by (left; exact C5).
        assert (length (buttonCodes sb) = length (buttonCodes s)) as Hlb
          by (rewrite C1, length_insert; reflexivity).
        destruct (Nat.ltb_spec (S (learnStep s)) 4) as [Hlt|Hge].
        -- specialize (IH sb C9 Hspb).
           rewrite C3, C4, C6, Hlb in IH.
           destruct IH as (I1 & I2 & I3 & I4 & I5 & I6 & I7 & I8);
             try assumption; try lia.
           cbv zeta. rewrite I1, I2, I3, C2, C1.
           rewrite registry_after_capture by lia.
           simpl length.
           repeat split; try assumption; try reflexivity; try lia;
             try (rewrite I4, I3; reflexivity).
           ++ destruct (I8 H) as [I9 _]. lia.
           ++ intros more. rewrite Hunf. apply (proj2 (I8 H)).
        -- assert (acceptedCodes (u32 v) (codesOf rest) = []) as Hnil.
           { destruct (acceptedCodes (u32 v) (codesOf rest)); [reflexivity|].
             simpl in Hstep. lia. }
           rewrite Hnil in *. simpl length in *.
           assert (learnLoop rest sb = (sb, rest)) as Hstop
             by (destruct rest; simpl; rewrite C9; reflexivity).
           rewrite Hstop. cbv zeta. simpl fst.
           rewrite C1, C2, C3, C6, C9.
           assert (learnStep s = 3%nat) as H3 by lia.
           repeat split; try assumption; try reflexivity; try lia.
           all: try discriminate.
           rewrite insert_take_drop by lia. simpl.
           repeat f_equal. lia.
           rewrite H3. reflexivity.
    + apply Hskip; [|reflexivity].
      destruct A8 as [A8 A9].
      unfold latchSpent in *. rewrite A8, A9, A5. exact Hsp.
Qed.

(** Entering learning mode resets the slot index and the session clock and
    nothing else; the last accepted code stays what it was. *)
Lemma enterLearningMode_eq (ins : list Input) (s : State) :
  enterLearningMode ins s =
    learnLoop ins
      (set_trace
         (trace s ++
            [SerialText "LEARNING MODE: Press the remote button for Relay 1"])
         (set_learningModeStartTime (clock s)
            (set_learnStep 0%nat (set_learningMode true s)))).
Proof. reflexivity. Qed.

(** A session as a whole: the registry is filled from slot 0 with the
    codes the rule selects, the comparison starting from the code
    [lastReceivedCode] held when the session was entered. *)
Lemma session_refines (ins : list Input) (s0 : State) :
  latchSpent s0 ->
  let cs := acceptedCodes (lastReceivedCode s0) (codesOf ins) in
  (length cs <= 4)%nat ->
  (length cs <= length (buttonCodes s0))%nat ->
  ticks ins + 2020 * Z.of_nat (length cs) <= learningModeTimeout ->
  let s1 := (enterLearningMode ins s0).1 in
  buttonCodes s1 = cs ++ drop (length cs) (buttonCodes s0) /\
  relayStates s1 = relayStates s0 /\
  learnStep s1 = length cs /\
  learningMode s1 = (length cs <? 4)%nat /\
  (learningMode s1 = true ->
   latchSpent s1 /\
   ticks ins <= elapsed s1 <= ticks ins + 2020 * Z.of_nat (length cs) /\
   forall more,
     enterLearningMode (ins ++ more) s0 = learnLoop more s1).
Proof.
  intros Hsp cs Hn Hlen Htime s1. subst s1.
  rewrite enterLearningMode_eq.
  remember (set_trace
              (trace s0 ++
                 [SerialText
                    "LEARNING MODE: Press the remote button for Relay 1"])
              (set_learningModeStartTime (clock s0)
                 (set_learnStep 0%nat (set_learningMode true s0))))
    as e eqn:He.
  assert (learningMode e = true /\ learnStep e = 0%nat /\
          buttonCodes e = buttonCodes s0 /\ relayStates e = relayStates s0 /\
          lastReceivedCode e = lastReceivedCode s0 /\
          rxAvailable e = rxAvailable s0 /\ rxValue e = rxValue s0 /\
          elapsed e = 0) as (E1 & E2 & E3 & E4 & E5 & E6 & E7 & E8).
  { rewrite He. repeat split; try reflexivity.
    unfold elapsed, millis. simpl. rewrite Z.sub_diag. reflexivity. }
  assert (forall more,
            enterLearningMode (ins ++ more) s0 = learnLoop (ins ++ more) e)
    as Hent by (intros more; rewrite enterLearningMode_eq, He; reflexivity).
  clear He.
  assert (latchSpent e) as Hspe
    by (unfold latchSpent in *; rewrite E5, E6, E7; exact Hsp).
  pose proof (learnLoop_refines ins e E1 Hspe) as H.
  rewrite E2, E3, E4, E5, E8 in H. fold cs in H. cbv zeta in H.
  destruct H as (H1 & H2 & H3 & H4 & _ & H6 & H7 & H8); try lia.
  simpl in H1, H3.
  split; [exact H1|]. split; [exact H2|]. split; [exact H3|].
  split; [rewrite H4, H3; reflexivity|].
  intros HL. destruct (H8 HL) as [H9 H10].
  split; [exact H6|]. split; [lia|].
  intros more. rewrite Hent. apply H10.
Qed.

(** ** C1: capture dedup *)

(** C1, as the code has it.  In a learning pass a latched non-zero code is
    captured (written to the current slot, the slot index advanced, the
    code remembered) exactly when it differs from [lastReceivedCode];
    otherwise the pass discards it and leaves registry, slot index and
    remembered code alone.  So the same code latched again right after its
    capture is discarded and the slot index stays where the capture put
    it.  [lastReceivedCode] is the variable run-time dispatch uses too and
    is not reset on entry: over a whole session the registry receives the
    codes that [acceptedCodes] selects when the comparison starts from the
    code last accepted before the session. *)
Theorem capture_dedup (s s0 : State) (t : N) (ins : list Input) :
  (rxAvailable s = true ->
   rxValue s <> 0 ->
   (rxValue s <> lastReceivedCode s ->
    buttonCodes (learnIter s) = <[learnStep s := rxValue s]> (buttonCodes s) /\
    learnStep (learnIter s) = S (learnStep s) /\
    lastReceivedCode (learnIter s) = rxValue s /\
    let again := learnIter (presented t (rxValue s) (learnIter s)) in
    (0 <= rxValue s < 2 ^ 32 ->
     buttonCodes again = buttonCodes (learnIter s) /\
     learnStep again = learnStep (learnIter s) /\
     lastReceivedCode again = rxValue s)) /\
   (rxValue s = lastReceivedCode s ->
    buttonCodes (learnIter s) = buttonCodes s /\
    learnStep (learnIter s) = learnStep s /\
    lastReceivedCode (learnIter s) = lastReceivedCode s)) /\
  (latchSpent s0 ->
   wellFormed s0 ->
   let cs := acceptedCodes (lastReceivedCode s0) (codesOf ins) in
   (length cs <= 4)%nat ->
   ticks ins + 2020 * Z.of_nat (length cs) <= learningModeTimeout ->
   let s1 := (enterLearningMode ins s0).1 in
   buttonCodes s1 = cs ++ drop (length cs) (buttonCodes s0) /\
   learnStep s1 = length cs).
Proof.
  assert (forall x : State, latchSpent x ->
            buttonCodes (learnIter x) = buttonCodes x /\
            learnStep (learnIter x) = learnStep x /\
            lastReceivedCode (learnIter x) = lastReceivedCode x) as Hskip.
  { intros x Hx. rewrite learnIter_skip by exact Hx.
    destruct (learningModeTimeout <? elapsed x); repeat split; reflexivity. }
  split; [intros Ha Hv; split|].
  - intros Hne.
    destruct (learnIter_capture s Ha Hv Hne)
      as (C1 & _ & C3 & C4 & C5 & _).
    split; [exact C1|]. split; [exact C3|]. split; [exact C4|].
    intros again Hrange. subst again.
    remember (learnIter s) as s1 eqn:Hs1. clear Hs1.
    assert (latchSpent (presented t (rxValue s) s1)) as Hsp.
    { right. right. rewrite presented_eq.
      cbn [rxValue lastReceivedCode set_rxValue set_rxAvailable
           set_buttonLow set_clock].
      rewrite C4. apply u32_small. exact Hrange. }
    destruct (Hskip _ Hsp) as (K1 & K2 & K3).
    rewrite K1, K2, K3. rewrite presented_eq.
    cbn [buttonCodes learnStep lastReceivedCode set_rxValue set_rxAvailable
         set_buttonLow set_clock].
    repeat split; try reflexivity. exact C4.
  - intros Heq. apply Hskip. right. right. exact Heq.
  - intros Hsp [_ Hlen] cs Hn Htime s1.
    pose proof (session_refines ins s0 Hsp) as H.
    cbv zeta in H. fold cs in H.
    destruct H as (H1 & _ & H3 & _); try assumption; try lia.
    split; [exact H1|exact H3].
Qed.

Lemma capture_dedup_witness :
  learnStep (learnIter demo) = S (learnStep demo).
Proof.
  assert (rxValue demo <> 0) as Hv by (vm_compute; discriminate).
  assert (rxValue demo <> lastReceivedCode demo) as Hne
    by (vm_compute; discriminate).
  exact (proj1 (proj2 (proj1 (proj1 (capture_dedup demo demo 0 [])
                                eq_refl Hv) Hne))).
Defined.

(** The claim as worded would have the first code of a session accepted
    whatever was received before.  Here code 5 is accepted by run-time
    dispatch, the learn button is pressed, and 5 is the first code the
    new session sees: the rule started afresh selects it, yet the session
    leaves slot 0 and the slot index untouched. *)
Lemma capture_dedup_counterexample :
  let before :=
    run 2 [mkInput 100 (Some 5) false; mkInput 100 None true]
      (setup (boot ∅ [])) in
  let after :=
    run 3 [mkInput 100 (Some 5) false; mkInput 100 None true;
           mkInput 10 (Some 5) false]
      (setup (boot ∅ [])) in
  learningMode before = true /\
  learnStep before = 0%nat /\
  acceptedCodes 0 (codesOf [mkInput 10 (Some 5) false]) = [5] /\
  learningMode after = true /\
  rxAvailable after = true /\
  rxValue after = 5 /\
  learnStep after = 0%nat /\
  buttonCodes after = buttonCodes before /\
  buttonCode after 0 <> 5.
Proof.
  vm_compute. repeat split; discriminate.
Qed.

(** ** C2: session determinism *)

Lemma learnLoop_exit (ins : list Input) (s : State) :
  learningMode s = false -> learnLoop ins s = (s, ins).
Proof. intros H. destruct ins; simpl; rewrite H; reflexivity. Qed.

Lemma acceptedCodes_four (last c1 c2 c3 c4 : Z) :
  c1 <> 0 -> c2 <> 0 -> c3 <> 0 -> c4 <> 0 ->
  c1 <> last -> c2 <> c1 -> c3 <> c2 -> c4 <> c3 ->
  acceptedCodes last [c1; c2; c3; c4] = [c1; c2; c3; c4].
Proof.
  intros Z1 Z2 Z3 Z4 N1 N2 N3 N4. simpl.
  repeat match goal with
         | H : ?a <> ?b |- context [?a =? ?b] =>
             rewrite (proj2 (Z.eqb_neq a b) H)
         end.
  reflexivity.
Qed.

Lemma learnLoop_app (a b : list Input) : forall s : State,
  learningMode (learnLoop a s).1 = true ->
  learnLoop (a ++ b) s = learnLoop b (learnLoop a s).1.
Proof.
  induction a as [|i a IH]; intros s H.
  - simpl in *. destruct (learningMode s); reflexivity.
  - simpl in *. destruct (learningMode s) eqn:E.
    + apply IH. exact H.
    + simpl in H. congruence.
Qed.

Lemma arrive_bus (i : Input) (s : State) : bus (arrive i s) = bus s.
Proof. unfold arrive. destruct (in_signal i); reflexivity. Qed.

(** The word write consumes one answer of the bus and, when it succeeds,
    waits 20 ms. *)
Lemma writeEEPROM_time (address value : Z) (s : State) :
  let s' := writeEEPROM address value s in
  bus s' = tl (bus s) /\
  clock s' =
    (if endStatus (hd healthy (bus s)) =? 0 then u32 (clock s + 20)
     else clock s).
Proof.
  unfold_board.
  destruct (bus s) as [|r rs] eqn:Eb; simpl; rewrite ?Eb.
  - split; reflexivity.
  - destruct (endStatus r =? 0) eqn:E; simpl; rewrite ?E, ?Eb; simpl;
      split; reflexivity.
Qed.

(** The time a capture before the fourth takes. *)
Lemma learnIter_capture_time (s : State) :
  rxAvailable s = true ->
  rxValue s <> 0 ->
  rxValue s <> lastReceivedCode s ->
  (S (learnStep s) < 4)%nat ->
  bus (learnIter s) = tl (bus s) /\
  elapsed (learnIter s) =
    u32 (elapsed s + (2000 + storePause (hd healthy (bus s)))).
Proof.
  intros Ha Hv Hne Hk. unfold learnIter. rewrite Ha.
  destruct (Z.eqb_spec (rxValue s) 0) as [E|_]; [contradiction|].
  destruct (Z.eqb_spec (rxValue s) (lastReceivedCode s)) as [E|_];
    [contradiction|].
  cbn [negb andb].
  pose proof (writeEEPROM_frame
    (Z.of_nat (learnStep
       (set_buttonCodes (<[learnStep s := rxValue s]> (buttonCodes s)) s)) * 4)
    (rxValue s)
    (set_buttonCodes (<[learnStep s := rxValue s]> (buttonCodes s)) s)) as Hw.
  pose proof (writeEEPROM_time
    (Z.of_nat (learnStep
       (set_buttonCodes (<[learnStep s := rxValue s]> (buttonCodes s)) s)) * 4)
    (rxValue s)
    (set_buttonCodes (<[learnStep s := rxValue s]> (buttonCodes s)) s)) as Ht.
  cbv zeta in Hw, Ht.
  remember (writeEEPROM
    (Z.of_nat (learnStep
       (set_buttonCodes (<[learnStep s := rxValue s]> (buttonCodes s)) s)) * 4)
    (rxValue s)
    (set_buttonCodes (<[learnStep s := rxValue s]> (buttonCodes s)) s))
    as w eqn:Ew. clear Ew.
  destruct Hw as (_ & _ & _ & W4 & _ & _ & W7 & _).
  destruct Ht as (T1 & T2).
  cbn [learnStep learningModeStartTime clock bus set_buttonCodes] in *.
  unfold elapsed, millis, storePause.
  unfold resetAvailable, delay, Serial_print, Serial_printNum, emit.
  cbn [relayStates buttonCodes learningMode learnStep lastReceivedCode
       learningModeStartTime rxAvailable rxValue clock trace bus
       set_trace set_rxAvailable set_lastReceivedCode set_learnStep
       set_learningMode set_clock].
  rewrite W4.
  destruct (Nat.leb_spec 4 (S (learnStep s))) as [Hge|_]; [lia|].
  cbn [relayStates buttonCodes learningMode learnStep lastReceivedCode
       learningModeStartTime rxAvailable rxValue clock trace bus
       set_trace set_rxAvailable set_lastReceivedCode set_learnStep
       set_learningMode set_clock].
  rewrite ?W7.
  assert (u32 (u32 (clock w + 2000) - learningModeStartTime s)
          = u32 (u32 (clock s - learningModeStartTime s)
                 + (2000 + (if endStatus (hd healthy (bus s)) =? 0
                            then 20 else 0)))) as Hd.
  { rewrite T2. destruct (endStatus (hd healthy (bus s)) =? 0); unfold u32.
    - rewrite Zplus_mod_idemp_l, Zminus_mod_idemp_l, Zplus_mod_idemp_l.
      f_equal. lia.
    - rewrite Zminus_mod_idemp_l, Zplus_mod_idemp_l. f_equal. lia. }
  destruct (learningModeTimeout
            <? u32 (u32 (clock w + 2000) - learningModeStartTime s)) eqn:Et;
  cbn [relayStates buttonCodes learningMode learnStep lastReceivedCode
       learningModeStartTime rxAvailable rxValue clock trace bus
       set_trace set_rxAvailable set_lastReceivedCode set_learnStep
       set_learningMode set_clock];
  rewrite ?W7; (split; [exact T1|exact Hd]).
Qed.

Lemma learnIter_timeout (s : State) :
  learningModeTimeout < elapsed (learnIter s) ->
  learningMode (learnIter s) = false.
Proof.
  unfold learnIter.
  match goal with
  | |- context [if learningModeTimeout <? u32 (millis ?x - learningModeStartTime ?x)
                then _ else _] => remember x as w eqn:Ew; clear Ew
  end.
  destruct (Z.ltb_spec learningModeTimeout
              (u32 (millis w - learningModeStartTime w))) as [H|H].
  - intros _. reflexivity.
  - unfold elapsed. lia.
Qed.

Ltac u32_sum :=
  unfold u32;
  repeat (rewrite Zplus_mod_idemp_l || rewrite <- Z.add_assoc);
  f_equal; lia.

(** Any learning session, whatever the inputs and their timing.  The loop
    reads a prefix [used] of the inputs; the registry receives, from the
    current slot on, the codes [acceptedCodes] selects from that prefix;
    the loop is left only with the fourth slot filled or with a check that
    found the window elapsed; and as long as fewer than four codes are
    accepted the time a check finds is the time of the inputs plus the
    pauses of the captures. *)
Lemma learnLoop_session (ins : list Input) : forall s : State,
  learningMode s = true ->
  latchSpent s ->
  (learnStep s < 4)%nat ->
  length (buttonCodes s) = 4%nat ->
  elapsed s <= learningModeTimeout ->
  exists used,
    ins = used ++ (learnLoop ins s).2 /\
    let cs := acceptedCodes (lastReceivedCode s) (codesOf used) in
    let s' := (learnLoop ins s).1 in
    buttonCodes s' =
      take (learnStep s) (buttonCodes s) ++ cs ++
      drop (learnStep s + length cs) (buttonCodes s) /\
    relayStates s' = relayStates s /\
    learnStep s' = (learnStep s + length cs)%nat /\
    (learnStep s' <= 4)%nat /\
    (learningMode s' = true ->
     (learnLoop ins s).2 = [] /\ (learnStep s' < 4)%nat /\
     elapsed s' <= learningModeTimeout) /\
    (learningMode s' = false ->
     learnStep s' = 4%nat \/ learningModeTimeout < elapsed s') /\
    ((learnStep s' < 4)%nat ->
     elapsed s' = u32 (elapsed s + ticks used + pauses (bus s) (length cs))).
Proof.
  induction ins as [|i rest IH]; intros s Hlm Hsp Hk Hlen He.
  - exists []. simpl. rewrite Hlm. simpl.
    rewrite Nat.add_0_r, take_drop, !Z.add_0_r.
    pose proof (elapsed_range s).
    rewrite u32_small by assumption.
    split; [reflexivity|].
    split; [reflexivity|]. split; [reflexivity|]. split; [reflexivity|].
    split; [lia|].
    split; [intros _; split; [reflexivity|split; [exact Hk|exact He]]|].
    split; [intros H'; congruence|]. intros _. reflexivity.
  - destruct (arrive_frame i s) as (A1 & A2 & A3 & A4 & A5 & A6 & A7 & A8).
    pose proof (arrive_bus i s) as A9.
    assert (learnLoop (i :: rest) s = learnLoop rest (learnIter (arrive i s)))
      as Hunf by (simpl; rewrite Hlm; reflexivity).
    rewrite Hunf. clear Hunf.
    assert (latchSpent (arrive i s) ->
            (forall more, acceptedCodes (lastReceivedCode s)
                            (codesOf (i :: more))
                          = acceptedCodes (lastReceivedCode s) (codesOf more)) ->
            exists used,
              i :: rest = used ++ (learnLoop rest (learnIter (arrive i s))).2 /\
              let cs := acceptedCodes (lastReceivedCode s) (codesOf used) in
              let s' := (learnLoop rest (learnIter (arrive i s))).1 in
              buttonCodes s' =
                take (learnStep s) (buttonCodes s) ++ cs ++
                drop (learnStep s + length cs) (buttonCodes s) /\
              relayStates s' = relayStates s /\
              learnStep s' = (learnStep s + length cs)%nat /\
              (learnStep s' <= 4)%nat /\
              (learningMode s' = true ->
               (learnLoop rest (learnIter (arrive i s))).2 = [] /\
               (learnStep s' < 4)%nat /\
               elapsed s' <= learningModeTimeout) /\
              (learningMode s' = false ->
               learnStep s' = 4%nat \/ learningModeTimeout < elapsed s') /\
              ((learnStep s' < 4)%nat ->
               elapsed s' =
                 u32 (elapsed s + ticks used
                      + pauses (bus s) (length cs)))) as Hskip.
    { intros Hsp' Hacc.
      rewrite learnIter_skip by exact Hsp'.
      destruct (Z.ltb_spec learningModeTimeout (elapsed (arrive i s)))
        as [Hto|Hin].
      - exists [i]. rewrite learnLoop_exit by reflexivity.
        rewrite (Hacc []).
        change (acceptedCodes (lastReceivedCode s) (codesOf [])) with (@nil Z).
        cbn [fst snd length app].
        assert (elapsed (Serial_print "Learning mode timeout. Exiting..."
                           (set_learningMode false (arrive i s)))
                = elapsed (arrive i s)) as Hel by reflexivity.
        rewrite Hel.
        unfold Serial_print, emit.
        cbn [buttonCodes relayStates learnStep learningMode set_trace
             set_learningMode].
        rewrite A1, A2, A4, Nat.add_0_r, take_drop.
        split; [reflexivity|].
        split; [reflexivity|]. split; [reflexivity|]. split; [reflexivity|].
        split; [lia|].
        split; [intros H'; discriminate|].
        split; [intros _; right; exact Hto|].
        intros _. rewrite A7. simpl. f_equal. lia.
      - destruct (IH (arrive i s)) as (used & U0 & U);
          [rewrite A3; exact Hlm|exact Hsp'|rewrite A4; exact Hk
          |rewrite A2; exact Hlen|exact Hin|].
        exists (i :: used).
        split; [simpl; f_equal; exact U0|].
        rewrite Hacc. cbv zeta in U |- *.
        rewrite A1, A2, A4, A5, A7, A9 in U.
        destruct U as (U1 & U2 & U3 & U4 & U5 & U6 & U7).
        split; [exact U1|]. split; [exact U2|]. split; [exact U3|].
        split; [exact U4|]. split; [exact U5|]. split; [exact U6|].
        intros Hlt. rewrite (U7 Hlt).
        change (ticks (i :: used)) with (Z.of_N (in_tick i) + ticks used).
        u32_sum. }
    destruct (in_signal i) as [v|] eqn:Hsig.
    2: { apply Hskip.
         - destruct A8 as [A8 A10]. unfold latchSpent in *.
           rewrite A8, A10, A5. exact Hsp.
         - intros more. rewrite codesOf_cons, Hsig. reflexivity. }
    destruct A8 as [A8 A10].
    destruct ((u32 v =? 0) || (u32 v =? lastReceivedCode s)) eqn:Hrej.
    { apply Hskip.
      - unfold latchSpent. rewrite A10, A5.
        apply orb_true_iff in Hrej. right.
        destruct Hrej as [H|H]; apply Z.eqb_eq in H; auto.
      - intros more. rewrite codesOf_cons, Hsig. simpl. rewrite Hrej.
        reflexivity. }
    clear Hskip.
    assert (forall more, acceptedCodes (lastReceivedCode s)
                           (codesOf (i :: more))
                         = u32 v :: acceptedCodes (u32 v) (codesOf more))
      as Hacc.
    { intros more. rewrite codesOf_cons, Hsig. simpl. rewrite Hrej.
      reflexivity. }
    apply orb_false_iff in Hrej. destruct Hrej as [Hz Hl].
    apply Z.eqb_neq in Hz. apply Z.eqb_neq in Hl.
    assert (rxValue (arrive i s) <> 0) as Hv by (rewrite A10; exact Hz).
    assert (rxValue (arrive i s) <> lastReceivedCode (arrive i s)) as Hn
      by (rewrite A10, A5; exact Hl).
    destruct (learnIter_capture (arrive i s) A8 Hv Hn)
      as (C1 & C2 & C3 & C4 & C5 & C6 & _ & C8).
    pose proof (learnIter_capture_time (arrive i s) A8 Hv Hn) as Ct.
    rewrite A2, A4, A10 in C1. rewrite A1 in C2. rewrite A4 in C3.
    rewrite A10 in C4. rewrite A3, A4, Hlm in C8.
    rewrite A4, A7, A9 in Ct.
    remember (learnIter (arrive i s)) as sb eqn:Hsb. clear Hsb.
    assert (length (buttonCodes sb) = 4%nat) as Hlb
      by (rewrite C1, length_insert; exact Hlen).
    destruct (learningMode sb) eqn:Hlb'.
    + (* the session goes on *)
      destruct (Z.ltb_spec learningModeTimeout (elapsed sb)) as [|Hin];
        [discriminate|].
      destruct (Nat.leb_spec 4 (S (learnStep s))) as [|Hlt]; [discriminate|].
      destruct (Ct Hlt) as [Cb Ce].
      destruct (IH sb) as (used & U0 & U);
        [exact Hlb'|left; exact C5|rewrite C3; exact Hlt|exact Hlb
        |exact Hin|].
      exists (i :: used).
      split; [simpl; f_equal; exact U0|].
      rewrite Hacc. cbv zeta in U |- *.
      rewrite C3, C4, Cb, Ce in U.
      destruct U as (U1 & U2 & U3 & U4 & U5 & U6 & U7).
      cbn [length].
      split.
      { rewrite U1, C1. apply registry_after_capture. lia. }
      split; [rewrite U2; exact C2|].
      split; [rewrite U3; lia|].
      split; [exact U4|]. split; [exact U5|]. split; [exact U6|].
      intros Hlt'. rewrite (U7 Hlt').
      change (ticks (i :: used)) with (Z.of_N (in_tick i) + ticks used).
      cbn [pauses]. u32_sum.
    + (* the capture ends the session *)
      exists [i]. rewrite learnLoop_exit by exact Hlb'.
      rewrite (Hacc []).
      change (acceptedCodes (u32 v) (codesOf [])) with (@nil Z).
      cbn [fst snd length app].
      split; [reflexivity|].
      split.
      { rewrite C1, insert_take_drop by lia. simpl.
        repeat f_equal. lia. }
      split; [exact C2|]. split; [rewrite C3; lia|].
      split; [rewrite C3; lia|].
      split; [intros H'; congruence|].
      split.
      { intros _.
        destruct (Z.ltb_spec learningModeTimeout (elapsed sb)) as [Hto|_];
          [right; exact Hto|].
        destruct (Nat.leb_spec 4 (S (learnStep s))) as [Hge|];
          [|discriminate].
        left. rewrite C3. lia. }
      intros Hlt. rewrite C3 in Hlt.
      destruct (Ct Hlt) as [_ Ce]. rewrite Ce.
      cbn [pauses ticks foldr]. u32_sum.
Qed.

Lemma session_app (a b : list Input) (s0 : State) :
  learningMode (enterLearningMode a s0).1 = true ->
  enterLearningMode (a ++ b) s0 = learnLoop b (enterLearningMode a s0).1.
Proof. intros H. unfold enterLearningMode in *. apply learnLoop_app, H. Qed.

Lemma acceptedCodes_app_length (a b : list Z) : forall last : Z,
  (length (acceptedCodes last a) <= length (acceptedCodes last (a ++ b)))%nat.
Proof.
  induction a as [|v a IH]; intros last; simpl; [lia|].
  destruct ((v =? 0) || (v =? last)); simpl; [apply IH|].
  specialize (IH v). lia.
Qed.

Lemma codesOf_app (a b : list Input) :
  codesOf (a ++ b) = codesOf a ++ codesOf b.
Proof. unfold codesOf. apply omap_app. Qed.

(** [learnLoop_session] for a session from its entry. *)
Lemma session_any (ins : list Input) (s0 : State) :
  latchSpent s0 ->
  length (buttonCodes s0) = 4%nat ->
  let r := enterLearningMode ins s0 in
  exists used,
    ins = used ++ r.2 /\
    let cs := acceptedCodes (lastReceivedCode s0) (codesOf used) in
    buttonCodes r.1 = cs ++ drop (length cs) (buttonCodes s0) /\
    relayStates r.1 = relayStates s0 /\
    learnStep r.1 = length cs /\
    (length cs <= 4)%nat /\
    (learningMode r.1 = true ->
     r.2 = [] /\ (length cs < 4)%nat /\ elapsed r.1 <= learningModeTimeout) /\
    (learningMode r.1 = false ->
     length cs = 4%nat \/ learningModeTimeout < elapsed r.1) /\
    ((length cs < 4)%nat ->
     elapsed r.1 = u32 (ticks used + pauses (bus s0) (length cs))).
Proof.
  intros Hsp Hlen r. subst r.
  rewrite enterLearningMode_eq.
  remember (set_trace
              (trace s0 ++
                 [SerialText
                    "LEARNING MODE: Press the remote button for Relay 1"])
              (set_learningModeStartTime (clock s0)
                 (set_learnStep 0%nat (set_learningMode true s0))))
    as e eqn:He.
  assert (learningMode e = true /\ learnStep e = 0%nat /\
          buttonCodes e = buttonCodes s0 /\ relayStates e = relayStates s0 /\
          lastReceivedCode e = lastReceivedCode s0 /\
          rxAvailable e = rxAvailable s0 /\ rxValue e = rxValue s0 /\
          elapsed e = 0 /\ bus e = bus s0)
    as (E1 & E2 & E3 & E4 & E5 & E6 & E7 & E8 & E9).
  { rewrite He. repeat split; try reflexivity.
    unfold elapsed, millis. simpl. rewrite Z.sub_diag. reflexivity. }
  clear He.
  assert (latchSpent e) as Hspe
    by (unfold latchSpent in *; rewrite E5, E6, E7; exact Hsp).
  destruct (learnLoop_session ins e E1 Hspe) as (used & U0 & U);
    [rewrite E2; lia|rewrite E3; exact Hlen
    |rewrite E8; unfold learningModeTimeout; lia|].
  exists used. split; [exact U0|].
  cbv zeta in U |- *.
  rewrite E2, E3, E4, E5, E8, E9 in U.
  destruct U as (U1 & U2 & U3 & U4 & U5 & U6 & U7).
  cbn [take app Nat.add] in U1, U3.
  split; [exact U1|]. split; [exact U2|]. split; [exact U3|].
  split; [rewrite <- U3; exact U4|]. split; [rewrite <- U3; exact U5|].
  split; [rewrite <- U3; exact U6|].
  intros Hlt. rewrite <- U3 in Hlt. rewrite (U7 Hlt). reflexivity.
Qed.

Lemma learnLoop_cons (i : Input) (rest : list Input) (s : State) :
  learningMode s = true ->
  learnLoop (i :: rest) s = learnLoop rest (learnIter (arrive i s)).
Proof. intros H. simpl. rewrite H. reflexivity. Qed.

Lemma learnLoop_nil (s : State) : learnLoop [] s = (s, []).
Proof. simpl. destruct (learningMode s); reflexivity. Qed.

(** One more poll of a session that is still open. *)
Lemma session_poll (s0 : State) (pre post : list Input) (poll : Input) :
  latchSpent s0 ->
  length (buttonCodes s0) = 4%nat ->
  learningMode (enterLearningMode pre s0).1 = true ->
  let s2 := learnIter (arrive poll (enterLearningMode pre s0).1) in
  let cs := acceptedCodes (lastReceivedCode s0) (codesOf (pre ++ [poll])) in
  enterLearningMode (pre ++ poll :: post) s0 = learnLoop post s2 /\
  buttonCodes s2 = cs ++ drop (length cs) (buttonCodes s0) /\
  relayStates s2 = relayStates s0 /\
  learnStep s2 = length cs /\
  (length cs <= 4)%nat /\
  (learningMode s2 = true ->
   (length cs < 4)%nat /\ elapsed s2 <= learningModeTimeout) /\
  (learningMode s2 = false ->
   length cs = 4%nat \/ learningModeTimeout < elapsed s2) /\
  ((length cs < 4)%nat ->
   elapsed s2 = u32 (ticks (pre ++ [poll]) + pauses (bus s0) (length cs))).
Proof.
  intros Hsp Hlen HL s2 cs.
  assert (enterLearningMode (pre ++ poll :: post) s0 = learnLoop post s2)
    as H1.
  { rewrite session_app by exact HL.
    rewrite learnLoop_cons by exact HL. reflexivity. }
  assert (enterLearningMode (pre ++ [poll]) s0 = (s2, [])) as H2.
  { rewrite session_app by exact HL.
    rewrite learnLoop_cons by exact HL. apply learnLoop_nil. }
  split; [exact H1|].
  destruct (session_any (pre ++ [poll]) s0 Hsp Hlen) as (used & U0 & U).
  rewrite H2 in U0, U. cbn [fst snd] in U0, U.
  rewrite app_nil_r in U0. subst used. fold cs in U.
  clearbody s2 cs.
  destruct U as (U1 & U2 & U3 & U4 & U5 & U6 & U7).
  split; [exact U1|]. split; [exact U2|]. split; [exact U3|].
  split; [exact U4|].
  split; [intros H; destruct (U5 H) as (_ & Ha & Hb); split; assumption|].
  split; [exact U6|exact U7].
Qed.

Lemma learnLoop_app_stop (a b : list Input) : forall s : State,
  learningMode (learnLoop a s).1 = false ->
  (learnLoop (a ++ b) s).1 = (learnLoop a s).1.
Proof.
  induction a as [|i a IH]; intros s H.
  - rewrite learnLoop_nil in *. simpl in H. simpl app.
    rewrite learnLoop_exit by exact H. reflexivity.
  - simpl in *. destruct (learningMode s) eqn:E.
    + apply IH. exact H.
    + reflexivity.
Qed.

(** A session is open after its inputs exactly when fewer than four codes
    are accepted and no check so far has found the window elapsed. *)
Lemma session_open_iff (s0 : State) :
  latchSpent s0 ->
  length (buttonCodes s0) = 4%nat ->
  forall pre : list Input,
  learningMode (enterLearningMode pre s0).1 = true <->
  (length (acceptedCodes (lastReceivedCode s0) (codesOf pre)) < 4)%nat /\
  forall n, (0 < n <= length pre)%nat ->
    checkTime (lastReceivedCode s0) (bus s0) (take n pre)
    <= learningModeTimeout.
Proof.
  intros Hsp Hlen pre.
  induction pre as [|i q IH] using rev_ind.
  - split.
    + intros _. split; [simpl; lia|]. intros n Hn. simpl in Hn. lia.
    + intros _. rewrite enterLearningMode_eq, learnLoop_nil. reflexivity.
  - assert (forall n, (n <= length q)%nat -> take n (q ++ [i]) = take n q)
      as Htk by (intros n Hn; apply take_app_le; exact Hn).
    assert (take (length (q ++ [i])) (q ++ [i]) = q ++ [i]) as Hall
      by (apply take_ge; lia).
    assert (length (q ++ [i]) = S (length q)) as Hl
      by (rewrite length_app; simpl; lia).
    split.
    + intros HL.
      assert (learningMode (enterLearningMode q s0).1 = true) as HLq.
      { destruct (learningMode (enterLearningMode q s0).1) eqn:E;
          [reflexivity|].
        unfold enterLearningMode in HL, E.
        rewrite (learnLoop_app_stop q [i] _ E) in HL. congruence. }
      destruct (proj1 IH HLq) as [Hq Hpre].
      destruct (session_poll s0 q [] i Hsp Hlen HLq)
        as (P1 & _ & _ & _ & _ & P6 & _ & P8).
      rewrite learnLoop_nil in P1. rewrite P1 in HL. cbn [fst] in HL.
      destruct (P6 HL) as [Hcs Hin].
      split; [exact Hcs|].
      intros n Hn. rewrite Hl in Hn.
      destruct (Nat.eq_dec n (S (length q))) as [->|Hne].
      * rewrite <- Hl, Hall. unfold checkTime. rewrite <- (P8 Hcs). exact Hin.
      * rewrite Htk by lia. apply Hpre. lia.
    + intros [Hcs Hpre].
      assert (learningMode (enterLearningMode q s0).1 = true) as HLq.
      { apply IH. split.
        - pose proof (acceptedCodes_app_length (codesOf q) (codesOf [i])
                        (lastReceivedCode s0)) as Hle.
          rewrite <- codesOf_app in Hle. lia.
        - intros n Hn. rewrite <- Htk by lia. apply Hpre. lia. }
      destruct (session_poll s0 q [] i Hsp Hlen HLq)
        as (P1 & _ & _ & _ & _ & _ & P7 & P8).
      rewrite learnLoop_nil in P1. rewrite P1. cbn [fst].
      destruct (learningMode (learnIter (arrive i (enterLearningMode q s0).1)))
        eqn:E; [reflexivity|].
      destruct (P7 eq_refl) as [H4|Hto]; [lia|].
      rewrite (P8 Hcs) in Hto.
      specialize (Hpre (length (q ++ [i]))).
      rewrite Hall in Hpre. unfold checkTime in Hpre. lia.
Qed.

(** C2, as the code has it.  A session is entered with no capturable
    signal latched; [pre] are the inputs it has read so far and [poll] is
    the next one.

    Complete.  If the session is still open when [poll] comes, and the
    inputs up to and including [poll] present four non-zero codes, each
    different from the one before it and the first different from the code
    last accepted before the session, then slots 0 to 3 hold the four
    codes in that order and the session ends Complete, whatever the time
    of [poll]: the capture comes before the timeout check.

    TimedOut.  If the session is still open when [poll] comes and fewer
    than four codes are accepted up to and including [poll], the check of
    line 154 in that pass finds [found] ms elapsed: the time of the inputs
    since entry plus 2000 ms for every capture and 20 ms for every store
    write that succeeded, on the wrapping 32-bit clock, never reset by a
    capture.  The pass ends the session exactly when [found] exceeds
    [learningModeTimeout], and then the session is TimedOut: the accepted
    codes, a code captured in this very pass included, are in the slots
    from 0 on and the other slots hold their previous codes.

    Open.  The session is open after [pre] exactly when fewer than four
    codes are accepted in [pre] and no check so far has found more than
    [learningModeTimeout] elapsed; the time its last check found is again
    the time of the inputs plus the pauses; and it is open in particular
    when the inputs' time plus 2020 ms per capture fits in the window. *)
Theorem session_determinism
    (s0 : State) (pre post : list Input) (poll : Input) (c1 c2 c3 c4 : Z) :
  latchSpent s0 ->
  wellFormed s0 ->
  let s1 := (enterLearningMode pre s0).1 in
  let r := enterLearningMode (pre ++ poll :: post) s0 in
  let cp := acceptedCodes (lastReceivedCode s0) (codesOf pre) in
  let cs := acceptedCodes (lastReceivedCode s0) (codesOf (pre ++ [poll])) in
  let found := checkTime (lastReceivedCode s0) (bus s0) (pre ++ [poll]) in
  (learningMode s1 = true ->
   codesOf (pre ++ [poll]) = [c1; c2; c3; c4] ->
   c1 <> 0 -> c2 <> 0 -> c3 <> 0 -> c4 <> 0 ->
   c1 <> lastReceivedCode s0 -> c2 <> c1 -> c3 <> c2 -> c4 <> c3 ->
   buttonCodes r.1 = [c1; c2; c3; c4] /\
   sessionComplete r.1 /\
   r.2 = post /\
   relayStates r.1 = relayStates s0) /\
  (learningMode s1 = true ->
   (length cs < 4)%nat ->
   elapsed (learnIter (arrive poll s1)) = found /\
   (learningMode (learnIter (arrive poll s1)) = false <->
    learningModeTimeout < found) /\
   (learningModeTimeout < found ->
    sessionTimedOut r.1 /\
    r.2 = post /\
    buttonCodes r.1 = cs ++ drop (length cs) (buttonCodes s0) /\
    learnStep r.1 = length cs /\
    relayStates r.1 = relayStates s0)) /\
  ((learningMode s1 = true <->
    (length cp < 4)%nat /\
    forall n, (0 < n <= length pre)%nat ->
      checkTime (lastReceivedCode s0) (bus s0) (take n pre)
      <= learningModeTimeout) /\
   (learningMode s1 = true ->
    elapsed s1 = checkTime (lastReceivedCode s0) (bus s0) pre) /\
   ((length cp < 4)%nat ->
    ticks pre + 2020 * Z.of_nat (length cp) <= learningModeTimeout ->
    learningMode s1 = true)).
Proof.
  intros Hsp [Hlr Hlc] s1 r cp cs found.
  split; [|split].
  - (* Complete *)
    intros HL Hcodes Z1 Z2 Z3 Z4 N1 N2 N3 N4.
    destruct (session_poll s0 pre post poll Hsp Hlc HL)
      as (P1 & P2 & P3 & P4 & _ & P6 & _).
    fold s1 r in P1. fold s1 cs in P2, P3, P4, P6.
    assert (cs = [c1; c2; c3; c4]) as Hcs
      by (subst cs; rewrite Hcodes; apply acceptedCodes_four; assumption).
    clearbody cs. subst cs. clear found cp.
    remember (learnIter (arrive poll s1)) as s2 eqn:E2. clear E2.
    cbn [length] in P2, P4, P6.
    assert (learningMode s2 = false) as HF.
    { destruct (learningMode s2); [|reflexivity].
      destruct (P6 eq_refl) as [Hbad _]. lia. }
    rewrite learnLoop_exit in P1 by exact HF.
    rewrite P1. cbn [fst snd].
    rewrite drop_ge in P2 by lia.
    split; [exact P2|]. split; [split; [exact HF|exact P4]|].
    split; [reflexivity|exact P3].
  - (* TimedOut *)
    intros HL Hn.
    destruct (session_poll s0 pre post poll Hsp Hlc HL)
      as (P1 & P2 & P3 & P4 & _ & P6 & P7 & P8).
    fold s1 r in P1. fold s1 cs in P2, P3, P4, P6, P7, P8.
    assert (found
            = u32 (ticks (pre ++ [poll]) + pauses (bus s0) (length cs)))
      as Hf by reflexivity.
    rewrite <- Hf in P8. clear Hf. clearbody cs found. clear cp.
    remember (learnIter (arrive poll s1)) as s2 eqn:E2. clear E2.
    specialize (P8 Hn).
    split; [exact P8|].
    assert (learningMode s2 = false <-> learningModeTimeout < found) as Hiff.
    { split.
      - intros HF. destruct (P7 HF) as [H4|H4]; [lia|].
        rewrite <- P8. exact H4.
      - intros Hto. destruct (learningMode s2); [|reflexivity].
        destruct (P6 eq_refl) as [_ Hin]. lia. }
    split; [exact Hiff|].
    intros Hto. apply Hiff in Hto.
    rewrite learnLoop_exit in P1 by exact Hto.
    rewrite P1. cbn [fst snd].
    split; [split; [exact Hto|rewrite P4; exact Hn]|].
    split; [reflexivity|]. split; [exact P2|]. split; [exact P4|exact P3].
  - (* Open *)
    clear r cs found.
    split; [exact (session_open_iff s0 Hsp Hlc pre)|]. split.
    + intros HL.
      destruct (session_any pre s0 Hsp Hlc) as (used & U0 & U).
      fold s1 in U. cbv zeta in U.
      destruct U as (_ & _ & _ & _ & U5 & _ & U7).
      destruct (U5 HL) as (Hnil & Hlt & _).
      rewrite Hnil, app_nil_r in U0. subst used.
      exact (U7 Hlt).
    + intros Hn Htime.
      pose proof (session_refines pre s0 Hsp) as H. cbv zeta in H.
      fold cp s1 in H.
      destruct H as (_ & _ & _ & H4 & _); [lia|lia|exact Htime|].
      rewrite H4. apply Nat.ltb_lt. exact Hn.
Qed.

Lemma session_determinism_witness :
  buttonCodes
    (enterLearningMode
       ([mkInput 10 (Some 5) false; mkInput 10 (Some 6) false;
         mkInput 10 (Some 7) false] ++ mkInput 293000 (Some 8) false :: [])
       (paired [11; 22; 33; 22])).1
  = [5; 6; 7; 8] /\
  buttonCodes
    (enterLearningMode
       ([mkInput 10 (Some 5) false; mkInput 10 (Some 6) false]
        ++ mkInput 299000 (Some 9) false :: [mkInput 10 (Some 7) false])
       (paired [11; 22; 33; 22])).1
  = [5; 6; 9; 22] /\
  learningMode
    (enterLearningMode
       [mkInput 10 (Some 5) false; mkInput 10 (Some 6) false;
        mkInput 10 (Some 7) false]
       (paired [11; 22; 33; 22])).1
  = true.
Proof.
  assert (latchSpent (paired [11; 22; 33; 22])) as Hsp
    by (left; reflexivity).
  assert (wellFormed (paired [11; 22; 33; 22])) as Hwf
    by (split; reflexivity).
  split; [|split].
  - refine (proj1 (proj1 (session_determinism (paired [11; 22; 33; 22])
              [mkInput 10 (Some 5) false; mkInput 10 (Some 6) false;
               mkInput 10 (Some 7) false]
              [] (mkInput 293000 (Some 8) false) 5 6 7 8 Hsp Hwf)
              _ _ _ _ _ _ _ _ _ _)).
    + vm_compute. reflexivity.
    + reflexivity.
    + lia.
    + lia.
    + lia.
    + lia.
    + vm_compute. discriminate.
    + lia.
    + lia.
    + lia.
  - refine (proj1 (proj2 (proj2 (proj2 (proj2
              (proj1 (proj2 (session_determinism (paired [11; 22; 33; 22])
                 [mkInput 10 (Some 5) false; mkInput 10 (Some 6) false]
                 [mkInput 10 (Some 7) false]
                 (mkInput 299000 (Some 9) false) 0 0 0 0 Hsp Hwf))
                 _ _)) _)))).
    + vm_compute. reflexivity.
    + vm_compute. lia.
    + vm_compute. reflexivity.
  - refine (proj2 (proj2 (proj2 (proj2
              (session_determinism (paired [11; 22; 33; 22])
                 [mkInput 10 (Some 5) false; mkInput 10 (Some 6) false;
                  mkInput 10 (Some 7) false]
                 [] (mkInput 0 None false) 0 0 0 0 Hsp Hwf)))) _ _).
    + vm_compute. lia.
    + vm_compute. discriminate.
Defined.

(** The claim as worded would have any four distinct non-zero codes fill
    the four slots.  Here 5 is accepted by run-time dispatch, the learn
    button is pressed, and the session is presented 5, 6, 7, 8 well inside
    the window: 5 is discarded, slots 0 to 2 receive 6, 7, 8, slot 3 keeps
    its old code and the session is still waiting for a fourth code. *)
Lemma session_determinism_counterexample :
  let s :=
    run 6 [mkInput 100 (Some 5) false; mkInput 100 None true;
           mkInput 10 (Some 5) false; mkInput 10 (Some 6) false;
           mkInput 10 (Some 7) false; mkInput 10 (Some 8) false]
      (setup (boot ∅ [])) in
  NoDup [5; 6; 7; 8] /\
  buttonCodes s = [6; 7; 8; 4294967295] /\
  buttonCodes s <> [5; 6; 7; 8] /\
  learnStep s = 3%nat /\
  learningMode s = true /\
  elapsed s <= 8080.
Proof.
  split.
  - apply (bool_decide_unpack _). vm_compute. exact I.
  - vm_compute. repeat split; discriminate.
Qed.

(** ** C8: 0 in the registry *)

Lemma registryNonzero_same (s s' : State) :
  buttonCodes s' = buttonCodes s -> registryNonzero s -> registryNonzero s'.
Proof.
  intros Heq H j Hj. unfold buttonCode. rewrite Heq. apply (H j Hj).
Qed.

Lemma learnIter_nonzero (s : State) :
  registryNonzero s -> registryNonzero (learnIter s).
Proof.
  intros H.
  destruct (rxAvailable s) eqn:Ha;
    [|apply (registryNonzero_same s); [|exact H];
      rewrite learnIter_skip by (left; exact Ha);
      destruct (learningModeTimeout <? elapsed s); reflexivity].
  destruct (Z.eq_dec (rxValue s) 0) as [Hz|Hz];
    [apply (registryNonzero_same s); [|exact H];
     rewrite learnIter_skip by (right; left; exact Hz);
     destruct (learningModeTimeout <? elapsed s); reflexivity|].
  destruct (Z.eq_dec (rxValue s) (lastReceivedCode s)) as [Hl|Hl];
    [apply (registryNonzero_same s); [|exact H];
     rewrite learnIter_skip by (right; right; exact Hl);
     destruct (learningModeTimeout <? elapsed s); reflexivity|].
  destruct (learnIter_capture s Ha Hz Hl) as (C1 & _).
  intros j Hj. unfold buttonCode. rewrite C1.
  specialize (H j Hj). unfold buttonCode in H.
  destruct (decide (j = learnStep s)) as [->|Hne].
  - destruct (buttonCodes s !! learnStep s) as [x|] eqn:Hx;
      [|simpl in H; congruence].
    apply lookup_lt_Some in Hx.
    rewrite list_lookup_insert_eq by exact Hx. exact Hz.
  - rewrite list_lookup_insert_ne by congruence. exact H.
Qed.

Lemma learnLoop_nonzero (ins : list Input) : forall s : State,
  registryNonzero s -> registryNonzero (learnLoop ins s).1.
Proof.
  induction ins as [|i rest IH]; intros s H; simpl.
  - destruct (learningMode s); exact H.
  - destruct (learningMode s); [|exact H].
    apply IH, learnIter_nonzero.
    apply (registryNonzero_same s); [|exact H].
    apply (arrive_frame i s).
Qed.

Lemma loop_nonzero (ins : list Input) (s : State) :
  registryNonzero s -> registryNonzero (loop ins s).1.
Proof.
  intros H. unfold loop.
  destruct (buttonLow s && (debounceDelay <? u32 (millis s - lastDebounceTime s))).
  - rewrite enterLearningMode_eq.
    pose proof (learnLoop_nonzero ins
      (set_trace
         (trace s ++
            [SerialText "LEARNING MODE: Press the remote button for Relay 1"])
         (set_learningModeStartTime (clock s)
            (set_learnStep 0%nat (set_learningMode true s))))
      (registryNonzero_same s _ eq_refl H)) as HL.
    destruct (learnLoop ins _) as [s1 rest]. simpl in HL.
    destruct (learningMode s1) eqn:E1; simpl.
    + rewrite E1. exact HL.
    + rewrite E1. simpl.
      apply (registryNonzero_same s1); [|exact HL].
      apply (proj1 (handleRFInput_frame (set_lastDebounceTime (millis s1) s1))).
  - destruct (learningMode s); simpl; [exact H|].
    apply (registryNonzero_same s); [|exact H].
    apply (proj1 (handleRFInput_frame s)).
Qed.

(** C8, as the code has it.  Nothing the running loop does puts a 0 into
    the registry: learning rejects a 0 before it writes a slot and
    run-time dispatch never writes the registry, so from a state in which
    no slot holds 0 every later state has no slot holding 0. *)
Theorem zero_never_learned (fuel : nat) : forall (ins : list Input) (s : State),
  registryNonzero s -> registryNonzero (run fuel ins s).
Proof.
  induction fuel as [|fuel IH]; intros ins s H; simpl.
  - exact H.
  - destruct ins as [|i rest]; [exact H|].
    pose proof (loop_nonzero rest (arrive i s)
                  (registryNonzero_same s _ (proj1 (proj2 (arrive_frame i s))) H))
      as HL.
    destruct (loop rest (arrive i s)) as [s' rest']. simpl in HL.
    apply IH. exact HL.
Qed.

Lemma zero_never_learned_witness :
  registryNonzero
    (run 3 [mkInput 100 None true; mkInput 10 (Some 0) false;
            mkInput 10 (Some 9) false]
       (paired [11; 22; 33; 22])).
Proof.
  apply (zero_never_learned 3).
  intros j Hj.
  destruct j as [|[|[|[|j]]]]; [vm_compute; discriminate .. | lia].
Defined.

(** The claim as worded has no slot holding 0 at any time.  The array is
    zero before the start-up load, and the load stores what [readEEPROM]
    returns: slot 0 holds 0 after a start-up whose first read transaction
    fails, and after one that reads a stored word of 0, and it still does
    once the loop runs. *)
Lemma zero_never_learned_counterexample :
  buttonCode (boot ∅ []) 0 = 0 /\
  buttonCode (setup (boot ∅ [mkBusResp 2 0])) 0 = 0 /\
  buttonCode
    (setup (boot (<[0 := 0]> (<[1 := 0]> (<[2 := 0]> (<[3 := 0]> ∅)))) [])) 0
  = 0 /\
  ~ registryNonzero
      (run 1 [mkInput 100 (Some 5) false] (setup (boot ∅ [mkBusResp 2 0]))).
Proof.
  split; [reflexivity|]. split; [vm_compute; reflexivity|].
  split; [vm_compute; reflexivity|].
  intros H. apply (H 0%nat); [lia|]. vm_compute. reflexivity.
Qed.

(** * Further properties *)

(** ** Reading the store *)

Lemma onlyBusUsed_refl (s : State) : onlyBusUsed s s.
Proof. unfold onlyBusUsed. repeat split; reflexivity. Qed.

Lemma onlyBusUsed_trans (s1 s2 s3 : State) :
  onlyBusUsed s1 s2 -> onlyBusUsed s2 s3 -> onlyBusUsed s1 s3.
Proof.
  unfold onlyBusUsed. intros H12 H23.
  destruct H12 as (A1 & A2 & A3 & A4 & A5 & A6 & A7 & A8 & A9 & A10 & A11
                   & A12 & A13 & A14).
  destruct H23 as (B1 & B2 & B3 & B4 & B5 & B6 & B7 & B8 & B9 & B10 & B11
                   & B12 & B13 & B14).
  repeat split; congruence.
Qed.

(** The address phase of a read: the store is untouched and the pointer is
    set. *)
Lemma address_phase (address : Z) (n : nat) (s : State) :
  0 <= address < 2 ^ 16 ->
  answersOk (S n) s ->
  exists s1,
    endTransmission
      [Z.land (Z.shiftr address 8) 255; Z.land address 255] s = (0, s1) /\
    onlyBusUsed s s1 /\ cursor s1 = address /\ answersOk n s1.
Proof.
  intros Ha Hok.
  destruct (endTransmission_ok
    [Z.land (Z.shiftr address 8) 255; Z.land address 255] n s Hok) as [E Hn].
  rewrite E in Hn. simpl snd in Hn.
  eexists. split; [exact E|]. split; [|split; [|exact Hn]].
  - unfold nextBus, onlyBusUsed.
    destruct (bus s); simpl; repeat split; reflexivity.
  - unfold nextBus. destruct (bus s); simpl;
      rewrite address_bytes by exact Ha; lia.
Qed.

Lemma requestFrom_state (k n : nat) (s : State) :
  answersOk (S n) s ->
  (requestFrom k s).1 = memLoad (eeprom s) (cursor s) k /\
  onlyBusUsed s (requestFrom k s).2 /\
  answersOk n (requestFrom k s).2.
Proof.
  intros Hok. destruct (nextBus_ok n s Hok) as (H1 & H2 & H3).
  unfold requestFrom, onlyBusUsed, answersOk, nextBus in *.
  destruct (bus s) as [|r rs] eqn:Hb; simpl in *.
  - rewrite Hb in H3. rewrite Nat.sub_0_r.
    repeat split; try reflexivity. rewrite Hb. exact H3.
  - rewrite H1, H2, Nat.sub_0_r. simpl.
    repeat split; try reflexivity. exact H3.
Qed.

(** With both transactions answered, [readEEPROM] returns the word the
    store holds and uses nothing but the bus. *)
Lemma readEEPROM_spec (address : Z) (n : nat) (s : State) :
  0 <= address < 2 ^ 16 ->
  answersOk (S (S n)) s ->
  (readEEPROM address s).1 = wordAt (eeprom s) address /\
  onlyBusUsed s (readEEPROM address s).2 /\
  answersOk n (readEEPROM address s).2.
Proof.
  intros Ha Hok.
  destruct (address_phase address (S n) s Ha Hok) as (s1 & E & F1 & C1 & Hok1).
  destruct (requestFrom_state 4 n s1 Hok1) as (R1 & R2 & R3).
  unfold readEEPROM. rewrite E. simpl negb. cbv iota.
  destruct (requestFrom 4 s1) as [buf s2]. simpl in R1, R2, R3.
  assert (eeprom s1 = eeprom s) as Em by apply F1.
  rewrite C1, Em in R1. subst buf. simpl.
  split; [reflexivity|]. split; [|exact R3].
  apply (onlyBusUsed_trans s s1 s2); assumption.
Qed.

Lemma readEEPROMByte_spec (address : Z) (n : nat) (s : State) :
  0 <= address < 2 ^ 16 ->
  answersOk (S (S n)) s ->
  (readEEPROMByte address s).1 = u8 (memByte (eeprom s) address) /\
  onlyBusUsed s (readEEPROMByte address s).2 /\
  answersOk n (readEEPROMByte address s).2.
Proof.
  intros Ha Hok.
  destruct (address_phase address (S n) s Ha Hok) as (s1 & E & F1 & C1 & Hok1).
  destruct (requestFrom_state 1 n s1 Hok1) as (R1 & R2 & R3).
  unfold readEEPROMByte. rewrite E. simpl negb. cbv iota.
  destruct (requestFrom 1 s1) as [buf s2]. simpl in R1, R2, R3.
  assert (eeprom s1 = eeprom s) as Em by apply F1.
  rewrite C1, Em in R1. subst buf. simpl.
  split; [reflexivity|]. split; [|exact R3].
  apply (onlyBusUsed_trans s s1 s2); assumption.
Qed.

(** What the bool overload leaves in the store when its transaction
    succeeds. *)
Lemma writeEEPROM_bool_ok (address : Z) (flag : bool) (n : nat) (s : State) :
  0 <= address < 2 ^ 16 ->
  answersOk (S n) s ->
  eeprom (writeEEPROM_bool address flag s)
  = <[address := if flag then 1 else 0]> (eeprom s) /\
  answersOk n (writeEEPROM_bool address flag s).
Proof.
  intros Ha Hok. destruct (nextBus_ok n s Hok) as (H1 & _ & H3).
  rewrite writeEEPROM_bool_eq by exact Ha. rewrite H1. simpl.
  unfold answersOk in *. simpl. split; [|exact H3].
  unfold nextBus. destruct (bus s); reflexivity.
Qed.

(** X1. A relay flag written at an address of the store is read back as
    1 for on and 0 for off, provided the write transaction and the two
    transactions of the read succeed and the byte is delivered. *)
Theorem flag_round_trip (s : State) (address : Z) (flag : bool) :
  0 <= address < 2 ^ 16 ->
  answersOk 3 s ->
  (readEEPROMByte address (writeEEPROM_bool address flag s)).1
  = (if flag then 1 else 0).
Proof.
  intros Ha Hok.
  destruct (writeEEPROM_bool_ok address flag 2 s Ha Hok) as [Em Hok2].
  destruct (readEEPROMByte_spec address 0 _ Ha Hok2) as (Hr & _).
  rewrite Hr, Em. unfold memByte. rewrite lookup_insert_eq.
  destruct flag; reflexivity.
Qed.

Lemma flag_round_trip_witness :
  (readEEPROMByte 17 (writeEEPROM_bool 17 true (boot ∅ []))).1 = 1.
Proof.
  apply (flag_round_trip (boot ∅ []) 17 true).
  - lia.
  - unfold answersOk. simpl. constructor.
Defined.

(** ** Start-up *)

(** One pass of the loading loop of [setup] (lines 49-52). *)
Lemma setupLoad_spec (i n : nat) (s : State) :
  (i < 4)%nat ->
  answersOk (4 + n) s ->
  let s' := setupLoad s i in
  onlyBusUsed
    (set_relayStates
       (<[i := flagAt (eeprom s) (16 + Z.of_nat i)]> (relayStates s))
       (set_buttonCodes
          (<[i := wordAt (eeprom s) (Z.of_nat i * 4)]> (buttonCodes s)) s))
    s' /\
  answersOk n s'.
Proof.
  intros Hi Hok s'. subst s'. unfold setupLoad.
  assert (0 <= Z.of_nat i * 4 < 2 ^ 16) as Ha1 by lia.
  assert (0 <= 16 + Z.of_nat i < 2 ^ 16) as Ha2 by lia.
  destruct (readEEPROM_spec (Z.of_nat i * 4) (2 + n) s Ha1 Hok)
    as (R1 & R2 & R3).
  destruct (readEEPROM (Z.of_nat i * 4) s) as [code s1].
  simpl in R1, R2, R3. subst code.
  assert (answersOk (S (S n))
            (set_buttonCodes
               (<[i := wordAt (eeprom s) (Z.of_nat i * 4)]> (buttonCodes s1))
               s1)) as Hok1 by exact R3.
  destruct (readEEPROMByte_spec (16 + Z.of_nat i) n _ Ha2 Hok1)
    as (B1 & B2 & B3).
  destruct (readEEPROMByte (16 + Z.of_nat i) _) as [b s2].
  simpl in B1, B2, B3. subst b.
  split; [|exact B3].
  unfold onlyBusUsed in *. simpl in *.
  destruct R2 as (A1 & A2 & A3 & A4 & A5 & A6 & A7 & A8 & A9 & A10 & A11
                  & A12 & A13 & A14).
  destruct B2 as (C1 & C2 & C3 & C4 & C5 & C6 & C7 & C8 & C9 & C10 & C11
                  & C12 & C13 & C14).
  unfold flagAt.
  repeat split; try congruence.
Qed.

(** The parts of the state start-up reads or the later loop depends on. *)
Lemma digitalWrite_frame (pin : Z) (high : bool) (s : State) :
  let s' := digitalWrite pin high s in
  buttonCodes s' = buttonCodes s /\ relayStates s' = relayStates s /\
  eeprom s' = eeprom s /\ lastReceivedCode s' = lastReceivedCode s /\
  learningMode s' = learningMode s /\ bus s' = bus s /\
  pins s' = <[pin := high]> (pins s).
Proof. repeat split; reflexivity. Qed.

Lemma setupReport_frame (s : State) (i : nat) :
  let s' := setupReport s i in
  buttonCodes s' = buttonCodes s /\ relayStates s' = relayStates s /\
  eeprom s' = eeprom s /\ lastReceivedCode s' = lastReceivedCode s /\
  learningMode s' = learningMode s /\ pins s' = pins s.
Proof. repeat split; reflexivity. Qed.

(** The state a start-up with a healthy bus leaves: registry, relay bank,
    store, and the pins as the four restoring writes left them. *)
Lemma setup_loads (s : State) :
  wellFormed s ->
  answersOk 16 s ->
  buttonCodes (setup s) =
    [wordAt (eeprom s) 0; wordAt (eeprom s) 4;
     wordAt (eeprom s) 8; wordAt (eeprom s) 12] /\
  relayStates (setup s) =
    [flagAt (eeprom s) 16; flagAt (eeprom s) 17;
     flagAt (eeprom s) 18; flagAt (eeprom s) 19] /\
  (exists base : gmap Z bool,
     pins (setup s) =
       <[relayPin 3 := flagAt (eeprom s) 19]>
         (<[relayPin 2 := flagAt (eeprom s) 18]>
            (<[relayPin 1 := flagAt (eeprom s) 17]>
               (<[relayPin 0 := flagAt (eeprom s) 16]> base)))) /\
  eeprom (setup s) = eeprom s /\
  lastReceivedCode (setup s) = lastReceivedCode s /\
  learningMode (setup s) = learningMode s.
Proof.
  intros [Hlr Hlc] Hok. unfold setup. cbn [foldl seq].
  (* the relays are switched off *)
  destruct (digitalWrite_frame (relayPin 0) false s)
    as (a1 & a2 & a3 & a4 & a5 & a6 & _).
  remember (digitalWrite (relayPin 0) false s) as p0 eqn:E. clear E.
  destruct (digitalWrite_frame (relayPin 1) false p0)
    as (b1 & b2 & b3 & b4 & b5 & b6 & _).
  remember (digitalWrite (relayPin 1) false p0) as p1 eqn:E. clear E.
  destruct (digitalWrite_frame (relayPin 2) false p1)
    as (c1 & c2 & c3 & c4 & c5 & c6 & _).
  remember (digitalWrite (relayPin 2) false p1) as p2 eqn:E. clear E.
  destruct (digitalWrite_frame (relayPin 3) false p2)
    as (d1 & d2 & d3 & d4 & d5 & d6 & _).
  remember (digitalWrite (relayPin 3) false p2) as p eqn:E. clear E.
  assert (buttonCodes p = buttonCodes s /\ relayStates p = relayStates s /\
          eeprom p = eeprom s /\ lastReceivedCode p = lastReceivedCode s /\
          learningMode p = learningMode s /\ answersOk 16 p)
    as (P1 & P2 & P3 & P4 & P5 & P6).
  { repeat split; try congruence.
    unfold answersOk in *. rewrite d6, c6, b6, a6. exact Hok. }
  clear a1 a2 a3 a4 a5 a6 b1 b2 b3 b4 b5 b6 c1 c2 c3 c4 c5 c6
        d1 d2 d3 d4 d5 d6 Hok p0 p1 p2.
  (* the four slots are loaded *)
  destruct (setupLoad_spec 0 12 p) as [L0 K0]; [lia|exact P6|].
  remember (setupLoad p 0) as l0 eqn:E0. clear E0.
  destruct (setupLoad_spec 1 8 l0) as [L1 K1]; [lia|exact K0|].
  remember (setupLoad l0 1) as l1 eqn:E1. clear E1.
  destruct (setupLoad_spec 2 4 l1) as [L2 K2]; [lia|exact K1|].
  remember (setupLoad l1 2) as l2 eqn:E2. clear E2.
  destruct (setupLoad_spec 3 0 l2) as [L3 K3]; [lia|exact K2|].
  remember (setupLoad l2 3) as l3 eqn:E3. clear E3.
  unfold onlyBusUsed in L0, L1, L2, L3. simpl in L0, L1, L2, L3.
  destruct L0 as (A1 & A2 & A3 & _ & _ & A6 & _ & _ & _ & _ & _ & A12 & _).
  destruct L1 as (B1 & B2 & B3 & _ & _ & B6 & _ & _ & _ & _ & _ & B12 & _).
  destruct L2 as (C1 & C2 & C3 & _ & _ & C6 & _ & _ & _ & _ & _ & C12 & _).
  destruct L3 as (D1 & D2 & D3 & _ & _ & D6 & _ & _ & _ & _ & _ & D12 & _).
  assert (eeprom l0 = eeprom s) as M0 by congruence.
  assert (eeprom l1 = eeprom s) as M1 by congruence.
  assert (eeprom l2 = eeprom s) as M2 by congruence.
  assert (eeprom l3 = eeprom s) as M3 by congruence.
  assert (lastReceivedCode l3 = lastReceivedCode s) as N3 by congruence.
  assert (learningMode l3 = learningMode s) as O3 by congruence.
  rewrite P3 in A1, A2. rewrite M0 in B1, B2. rewrite M1 in C1, C2.
  rewrite M2 in D1, D2.
  rewrite C1, B1, A1, P2 in D1. rewrite C2, B2, A2, P1 in D2.
  destruct (relayStates s) as [|r0 [|r1 [|r2 [|r3 [|]]]]]; try discriminate.
  destruct (buttonCodes s) as [|c0 [|c1 [|c2 [|c3 [|]]]]]; try discriminate.
  simpl in D1, D2.
  clear A1 A2 A3 A6 A12 B1 B2 B3 B6 B12 C1 C2 C3 C6 C12 D3 D6 D12
        K0 K1 K2 K3 M0 M1 M2 P1 P2 P3 P4 P5 P6 l0 l1 l2 p.
  (* the pins are restored *)
  destruct (digitalWrite_frame (relayPin 0) (relayState l3 0) l3)
    as (a1 & a2 & a3 & a4 & a5 & _ & a7).
  remember (digitalWrite (relayPin 0) (relayState l3 0) l3) as q0 eqn:E.
  clear E.
  destruct (digitalWrite_frame (relayPin 1) (relayState q0 1) q0)
    as (b1 & b2 & b3 & b4 & b5 & _ & b7).
  remember (digitalWrite (relayPin 1) (relayState q0 1) q0) as q1 eqn:E.
  clear E.
  destruct (digitalWrite_frame (relayPin 2) (relayState q1 2) q1)
    as (c1' & c2' & c3' & c4 & c5 & _ & c7).
  remember (digitalWrite (relayPin 2) (relayState q1 2) q1) as q2 eqn:E.
  clear E.
  destruct (digitalWrite_frame (relayPin 3) (relayState q2 3) q2)
    as (d1 & d2 & d3 & d4 & d5 & _ & d7).
  remember (digitalWrite (relayPin 3) (relayState q2 3) q2) as q3 eqn:E.
  clear E.
  (* the report *)
  remember (Serial_print "Setup complete. Current codes and relay states:" q3)
    as m eqn:Em.
  assert (buttonCodes m = buttonCodes q3 /\ relayStates m = relayStates q3 /\
          eeprom m = eeprom q3 /\ lastReceivedCode m = lastReceivedCode q3 /\
          learningMode m = learningMode q3 /\ pins m = pins q3)
    as (m1 & m2 & m3 & m4 & m5 & m6)
    by (rewrite Em; repeat split; reflexivity).
  clear Em.
  destruct (setupReport_frame m 0) as (e1 & e2 & e3 & e4 & e5 & e6).
  remember (setupReport m 0) as u0 eqn:E. clear E.
  destruct (setupReport_frame u0 1) as (f1 & f2 & f3 & f4 & f5 & f6).
  remember (setupReport u0 1) as u1 eqn:E. clear E.
  destruct (setupReport_frame u1 2) as (g1 & g2 & g3 & g4 & g5 & g6).
  remember (setupReport u1 2) as u2 eqn:E. clear E.
  destruct (setupReport_frame u2 3) as (h1 & h2 & h3 & h4 & h5 & h6).
  remember (setupReport u2 3) as u3 eqn:E. clear E.
  assert (relayStates q0 = relayStates l3) as R0 by congruence.
  assert (relayStates q1 = relayStates l3) as R1 by congruence.
  assert (relayStates q2 = relayStates l3) as R2 by congruence.
  assert (relayStates u3 = relayStates l3) as R3 by congruence.
  assert (buttonCodes u3 = buttonCodes l3) as R4 by congruence.
  assert (pins u3 = pins q3) as R5 by congruence.
  unfold relayState in *. rewrite R0 in b7. rewrite R1 in c7.
  rewrite R2 in d7. rewrite R3, R4, R5, d7, c7, b7, a7, D1, D2.
  split; [reflexivity|]. split; [reflexivity|].
  split; [|split; [congruence|split; congruence]].
  exists (pins l3). reflexivity.
Qed.


(** X2. A start-up whose sixteen bus transactions succeed leaves in the
    registry the four words the store holds at offsets 0, 4, 8 and 12
    (first byte most significant), in the relay bank the four flags held
    at 16 to 19 (non-zero is on), drives each relay pin to its loaded
    state, and does not change the store. *)
Theorem setup_restores (s : State) :
  wellFormed s ->
  answersOk 16 s ->
  buttonCodes (setup s) =
    [wordAt (eeprom s) 0; wordAt (eeprom s) 4;
     wordAt (eeprom s) 8; wordAt (eeprom s) 12] /\
  relayStates (setup s) =
    [flagAt (eeprom s) 16; flagAt (eeprom s) 17;
     flagAt (eeprom s) 18; flagAt (eeprom s) 19] /\
  (forall k, (k < 4)%nat ->
     pins (setup s) !! relayPin k = Some (relayState (setup s) k)) /\
  eeprom (setup s) = eeprom s /\
  lastReceivedCode (setup s) = lastReceivedCode s /\
  learningMode (setup s) = learningMode s.
Proof.
  intros Hwf Hok.
  destruct (setup_loads s Hwf Hok) as (H1 & H2 & (base & H3) & H4 & H5 & H6).
  split; [exact H1|]. split; [exact H2|].
  split; [|split; [exact H4|split; [exact H5|exact H6]]].
  intros k Hk. unfold relayState. rewrite H3, H2.
  assert (k = 0 \/ k = 1 \/ k = 2 \/ k = 3)%nat as Hcase by lia.
  destruct Hcase as [-> | [-> | [-> | ->]]];
    cbn [lookup list_lookup default];
    repeat (rewrite lookup_insert_ne by (vm_compute; discriminate));
    apply lookup_insert_eq.
Qed.

Lemma setup_restores_witness :
  buttonCodes (setup (boot (<[3 := 7]> ∅) [])) =
    [wordAt (<[3 := 7]> ∅) 0; wordAt (<[3 := 7]> ∅) 4;
     wordAt (<[3 := 7]> ∅) 8; wordAt (<[3 := 7]> ∅) 12].
Proof.
  refine (proj1 (setup_restores (boot (<[3 := 7]> ∅) []) _ _)).
  - split; reflexivity.
  - unfold answersOk. simpl. constructor.
Defined.

(** ** Persistence across a power cycle *)

(** A board that starts up on the store contents [cells]. *)
Lemma reboot_loads (cells : gmap Z Z) (answers : list BusResp) (k : nat) :
  (k < 4)%nat ->
  answersOk 16 (boot cells answers) ->
  buttonCode (setup (boot cells answers)) k = wordAt cells (Z.of_nat k * 4) /\
  relayState (setup (boot cells answers)) k
  = flagAt cells (16 + Z.of_nat k) /\
  pins (setup (boot cells answers)) !! relayPin k
  = Some (flagAt cells (16 + Z.of_nat k)).
Proof.
  intros Hk Hok.
  assert (wellFormed (boot cells answers)) as Hwf by (split; reflexivity).
  destruct (setup_loads (boot cells answers) Hwf Hok)
    as (H1 & H2 & (base & H3) & _).
  assert (k = 0 \/ k = 1 \/ k = 2 \/ k = 3)%nat as Hcase by lia.
  split; [|split].
  - unfold buttonCode. rewrite H1.
    destruct Hcase as [-> | [-> | [-> | ->]]]; reflexivity.
  - unfold relayState. rewrite H2.
    destruct Hcase as [-> | [-> | [-> | ->]]]; reflexivity.
  - rewrite H3.
    destruct Hcase as [-> | [-> | [-> | ->]]];
      repeat (rewrite lookup_insert_ne by (vm_compute; discriminate));
      apply lookup_insert_eq.
Qed.

Lemma wordAt_stored (m : gmap Z Z) (a v : Z) :
  0 <= v < 2 ^ 32 ->
  wordAt
    (memStore m a
       [Z.land (Z.shiftr v 24) 255; Z.land (Z.shiftr v 16) 255;
        Z.land (Z.shiftr v 8) 255; Z.land v 255]) a = v.
Proof.
  intros Hv. unfold wordAt, memByte. simpl memStore.
  rewrite lookup_insert_eq.
  rewrite (lookup_insert_ne _ (a + 1 + 1 + 1) (a + 1 + 1)) by lia.
  rewrite lookup_insert_eq.
  rewrite (lookup_insert_ne _ (a + 1 + 1 + 1) (a + 1)) by lia.
  rewrite (lookup_insert_ne _ (a + 1 + 1) (a + 1)) by lia.
  rewrite lookup_insert_eq.
  rewrite (lookup_insert_ne _ (a + 1 + 1 + 1) a) by lia.
  rewrite (lookup_insert_ne _ (a + 1 + 1) a) by lia.
  rewrite (lookup_insert_ne _ (a + 1) a) by lia.
  rewrite lookup_insert_eq. simpl.
  apply word_of_bytes. exact Hv.
Qed.

Lemma wordAt_elsewhere (m : gmap Z Z) (a a' : Z) (bs : list Z) :
  a' + 4 <= a \/ a + Z.of_nat (length bs) <= a' ->
  wordAt (memStore m a bs) a' = wordAt m a'.
Proof.
  intros H. unfold wordAt, memByte.
  destruct H as [H|H].
  - rewrite !memStore_below by lia. reflexivity.
  - rewrite !memStore_above by lia. reflexivity.
Qed.

(** The store after a capturing pass is the store [writeEEPROM] left. *)
Lemma learnIter_capture_store (s : State) :
  rxAvailable s = true ->
  rxValue s <> 0 ->
  rxValue s <> lastReceivedCode s ->
  eeprom (learnIter s) =
    eeprom (writeEEPROM (Z.of_nat (learnStep s) * 4) (rxValue s)
              (set_buttonCodes
                 (<[learnStep s := rxValue s]> (buttonCodes s)) s)) /\
  pins (learnIter s) = pins s.
Proof.
  intros Ha Hv Hne. unfold learnIter. rewrite Ha.
  destruct (Z.eqb_spec (rxValue s) 0) as [E|_]; [contradiction|].
  destruct (Z.eqb_spec (rxValue s) (lastReceivedCode s)) as [E|_];
    [contradiction|].
  cbn [negb andb].
  change (learnStep
            (set_buttonCodes (<[learnStep s := rxValue s]> (buttonCodes s)) s))
    with (learnStep s).
  pose proof (writeEEPROM_frame (Z.of_nat (learnStep s) * 4) (rxValue s)
    (set_buttonCodes (<[learnStep s := rxValue s]> (buttonCodes s)) s)) as Hw.
  cbv zeta in Hw.
  remember (writeEEPROM (Z.of_nat (learnStep s) * 4) (rxValue s)
    (set_buttonCodes (<[learnStep s := rxValue s]> (buttonCodes s)) s))
    as w eqn:Ew. clear Ew.
  destruct Hw as (_ & _ & _ & _ & _ & _ & _ & _ & _ & W10 & _).
  cbn [pins set_buttonCodes] in W10.
  unfold resetAvailable, delay, Serial_print, Serial_printNum, emit, millis.
  cbn [learnStep set_trace set_learnStep].
  destruct (4 <=? S (learnStep w))%nat;
    cbn [eeprom pins clock learningModeStartTime set_trace set_rxAvailable
         set_lastReceivedCode set_learnStep set_learningMode set_clock];
    match goal with
    | |- context [if ?c then _ else _] => destruct c
    end;
    cbn [eeprom pins set_trace set_learningMode];
    split; try reflexivity; exact W10.
Qed.

(** X3. A code captured by a learning pass whose store write succeeds is
    the code the registry holds in that slot after the next start-up; the
    other slots start up as they would have without the capture. *)
Theorem learned_code_survives_reboot
    (s : State) (answers : list BusResp) (j : nat) :
  rxAvailable s = true ->
  rxValue s <> 0 ->
  rxValue s <> lastReceivedCode s ->
  0 <= rxValue s < 2 ^ 32 ->
  (learnStep s < 4)%nat ->
  answersOk 1 s ->
  answersOk 16 (boot (eeprom (learnIter s)) answers) ->
  buttonCode (setup (boot (eeprom (learnIter s)) answers)) (learnStep s)
  = rxValue s /\
  ((j < 4)%nat -> j <> learnStep s ->
   buttonCode (setup (boot (eeprom (learnIter s)) answers)) j
   = buttonCode (setup (boot (eeprom s) answers)) j).
Proof.
  intros Ha Hv Hne Hrange Hstep Hok Hboot.
  destruct (learnIter_capture_store s Ha Hv Hne) as [Hst _].
  assert (0 <= Z.of_nat (learnStep s) * 4 < 2 ^ 16) as Haddr by lia.
  destruct (writeEEPROM_ok (Z.of_nat (learnStep s) * 4) (rxValue s) 0
              (set_buttonCodes
                 (<[learnStep s := rxValue s]> (buttonCodes s)) s)
              Haddr Hok) as [Hw _].
  cbv zeta in Hw. rewrite Hw in Hst. cbn [eeprom set_buttonCodes] in Hst.
  split.
  - destruct (reboot_loads _ answers (learnStep s) Hstep Hboot) as (H1 & _).
    rewrite H1, Hst. apply wordAt_stored. exact Hrange.
  - intros Hj Hne'.
    destruct (reboot_loads _ answers j Hj Hboot) as (H1 & _).
    assert (answersOk 16 (boot (eeprom s) answers)) as Hboot'
      by (unfold answersOk in *; exact Hboot).
    destruct (reboot_loads _ answers j Hj Hboot') as (H2 & _).
    rewrite H1, H2, Hst. apply wordAt_elsewhere. simpl length. lia.
Qed.

Lemma learned_code_survives_reboot_witness :
  buttonCode (setup (boot (eeprom (learnIter demo)) [])) (learnStep demo)
  = rxValue demo.
Proof.
  refine (proj1 (learned_code_survives_reboot demo [] 0 eq_refl _ _ _ _ _ _)).
  - vm_compute. discriminate.
  - vm_compute. discriminate.
  - change (rxValue demo) with 22. lia.
  - change (learnStep demo) with 0%nat. lia.
  - unfold answersOk. cbn [bus demo take]. constructor.
  - unfold answersOk. cbn [bus boot take]. constructor.
Defined.

(** X4. After a run-time toggle whose store write succeeds, the next
    start-up restores the toggled relay to its new state and drives its pin
    accordingly; the registry and the other relays start up as they would
    have without the toggle. *)
Theorem relay_state_survives_reboot
    (s : State) (k j : nat) (answers : list BusResp) :
  wellFormed s ->
  rxAvailable s = true ->
  rxValue s <> 0 ->
  rxValue s <> lastReceivedCode s \/
  debounceTime < u32 (clock s - lastReceivedTime s) ->
  firstMatch s (rxValue s) k ->
  answersOk 1 s ->
  answersOk 16 (boot (eeprom (handleRFInput s)) answers) ->
  let s' := handleRFInput s in
  let r := setup (boot (eeprom s') answers) in
  let r0 := setup (boot (eeprom s) answers) in
  relayState s' k = negb (relayState s k) /\
  relayState r k = relayState s' k /\
  pins r !! relayPin k = Some (relayState s' k) /\
  ((j < 4)%nat ->
   buttonCode r j = buttonCode r0 j /\
   (j <> k -> relayState r j = relayState r0 j)).
Proof.
  intros [Hlen Hlenc] Ha Hv Hacc Hfirst Hok Hboot s' r r0.
  destruct (handleRFInput_hit_state s k Hlen Ha Hv Hacc Hfirst)
    as (H1 & _ & _ & _ & _ & _ & H7 & _).
  destruct (nextBus_ok 0 s Hok) as (Hst & _).
  rewrite Hst in H7. simpl in H7.
  destruct Hfirst as (Hk & _ & _).
  assert (relayState s' k = negb (relayState s k)) as Hnew.
  { subst s'. unfold relayState at 1. rewrite H1.
    rewrite list_lookup_insert_eq by lia. reflexivity. }
  assert (answersOk 16 (boot (eeprom s) answers)) as Hboot0
    by (unfold answersOk in *; exact Hboot).
  destruct (reboot_loads (eeprom s') answers k Hk Hboot) as (_ & R2 & R3).
  fold r in R2, R3.
  assert (flagAt (eeprom s') (16 + Z.of_nat k) = negb (relayState s k))
    as Hflag.
  { subst s'. rewrite H7. unfold flagAt, memByte.
    rewrite lookup_insert_eq. simpl.
    destruct (negb (relayState s k)); reflexivity. }
  split; [exact Hnew|].
  split; [rewrite R2, Hnew; exact Hflag|].
  split; [rewrite R3, Hnew, Hflag; reflexivity|].
  intros Hj.
  destruct (reboot_loads (eeprom s') answers j Hj Hboot) as (J1 & J2 & _).
  destruct (reboot_loads (eeprom s) answers j Hj Hboot0) as (J3 & J4 & _).
  fold r in J1, J2. fold r0 in J3, J4.
  split.
  - rewrite J1, J3. subst s'. rewrite H7. unfold wordAt, memByte.
    rewrite !lookup_insert_ne by lia. reflexivity.
  - intros Hne. rewrite J2, J4. subst s'. rewrite H7.
    unfold flagAt, memByte. rewrite lookup_insert_ne by lia. reflexivity.
Qed.

Lemma relay_state_survives_reboot_witness :
  relayState (setup (boot (eeprom (handleRFInput demo)) [])) 1
  = relayState (handleRFInput demo) 1.
Proof.
  refine (proj1 (proj2 (relay_state_survives_reboot demo 1 0 []
                          _ eq_refl _ _ _ _ _))).
  - split; reflexivity.
  - vm_compute. discriminate.
  - left. vm_compute. discriminate.
  - split; [lia|]. split; [reflexivity|].
    intros i Hi. destruct i as [|i]; [vm_compute; discriminate | lia].
  - unfold answersOk. cbn [bus demo take]. constructor.
  - unfold answersOk. cbn [bus boot take]. constructor.
Defined.

(** ** What a learning session leaves alone *)

Lemma writeEEPROM_store_frame (address value : Z) (s : State) (a : Z) :
  0 <= address < 2 ^ 16 ->
  a < address \/ address + 4 <= a ->
  eeprom (writeEEPROM address value s) !! a = eeprom s !! a.
Proof.
  intros Ha Hout. pose proof (address_bytes address Ha) as Hab.
  unfold_board.
  destruct (bus s) as [|r rs]; simpl.
  - rewrite Hab. rewrite !lookup_insert_ne by lia. reflexivity.
  - destruct (endStatus r =? 0) eqn:E; simpl; rewrite ?E; simpl;
      [|reflexivity].
    rewrite Hab. rewrite !lookup_insert_ne by lia. reflexivity.
Qed.

(** A learning pass either captures or skips. *)
Lemma learnIter_cases (s : State) :
  latchSpent s \/
  (rxAvailable s = true /\ rxValue s <> 0 /\ rxValue s <> lastReceivedCode s).
Proof.
  unfold latchSpent.
  destruct (rxAvailable s); [|left; left; reflexivity].
  destruct (Z.eq_dec (rxValue s) 0); [left; right; left; assumption|].
  destruct (Z.eq_dec (rxValue s) (lastReceivedCode s));
    [left; right; right; assumption|].
  right. repeat split; assumption.
Qed.

(** One pass with the slot index in range: relays, pins and every store
    cell outside the registry region stay as they are, the registry keeps
    its length, and the slot index is in range for as long as the session
    stays open. *)
Lemma learnIter_frame (s : State) :
  (learnStep s < 4)%nat ->
  let s' := learnIter s in
  relayStates s' = relayStates s /\
  pins s' = pins s /\
  (forall a, ~ 0 <= a < 16 -> eeprom s' !! a = eeprom s !! a) /\
  length (buttonCodes s') = length (buttonCodes s) /\
  (learnStep s' <= 4)%nat /\
  (learningMode s' = true -> (learnStep s' < 4)%nat) /\
  (learningMode s = false -> learningMode s' = false).
Proof.
  intros Hstep s'. subst s'.
  destruct (learnIter_cases s) as [Hsp|(Ha & Hv & Hne)].
  - rewrite learnIter_skip by exact Hsp.
    destruct (learningModeTimeout <? elapsed s); simpl;
      repeat split; try reflexivity; try lia; try discriminate; auto.
  - destruct (learnIter_capture s Ha Hv Hne)
      as (C1 & C2 & C3 & _ & _ & _ & _ & C8).
    destruct (learnIter_capture_store s Ha Hv Hne) as [S1 S2].
    remember (learnIter s) as s' eqn:Hs'. clear Hs'.
    split; [exact C2|]. split; [exact S2|]. split; [|split; [|split; [|split]]].
    + intros a Hout. rewrite S1.
      rewrite writeEEPROM_store_frame by lia. reflexivity.
    + rewrite C1. apply length_insert.
    + lia.
    + intros HL. rewrite C8 in HL.
      destruct (learningModeTimeout <? elapsed s'); [discriminate|].
      destruct (Nat.leb_spec 4 (S (learnStep s))); [discriminate|lia].
    + intros HL. rewrite C8, HL.
      destruct (learningModeTimeout <? elapsed s'); [reflexivity|].
      destruct (4 <=? S (learnStep s))%nat; reflexivity.
Qed.

Lemma learnLoop_frame (ins : list Input) : forall s : State,
  (learningMode s = true -> (learnStep s < 4)%nat) ->
  (learnStep s <= 4)%nat ->
  let s' := (learnLoop ins s).1 in
  relayStates s' = relayStates s /\
  pins s' = pins s /\
  (forall a, ~ 0 <= a < 16 -> eeprom s' !! a = eeprom s !! a) /\
  length (buttonCodes s') = length (buttonCodes s) /\
  (learnStep s' <= 4)%nat /\
  (learningMode s' = true -> (learnStep s' < 4)%nat).
Proof.
  induction ins as [|i rest IH]; intros s Hinv Hle; simpl.
  - assert ((if learningMode s then (s, []) else (s, @nil Input)).1 = s)
      as -> by (destruct (learningMode s); reflexivity).
    repeat split; auto.
  - destruct (learningMode s) eqn:HL; simpl;
      [|repeat split; auto; rewrite HL; discriminate].
    assert (learnStep (arrive i s) < 4)%nat as Hlt
      by (rewrite (proj1 (proj2 (proj2 (proj2 (arrive_frame i s)))));
          auto).
    destruct (learnIter_frame (arrive i s) Hlt)
      as (F1 & F2 & F3 & F4 & F5 & F6 & _).
    destruct (IH (learnIter (arrive i s)) F6 F5)
      as (I1 & I2 & I3 & I4 & I5 & I6).
    assert (relayStates (arrive i s) = relayStates s /\
            pins (arrive i s) = pins s /\
            eeprom (arrive i s) = eeprom s /\
            buttonCodes (arrive i s) = buttonCodes s) as (A1 & A2 & A3 & A4)
      by (unfold arrive; destruct (in_signal i); repeat split; reflexivity).
    split; [congruence|]. split; [congruence|].
    split; [|split; [congruence|split; assumption]].
    intros a Hout. rewrite I3, F3, A3 by exact Hout. reflexivity.
Qed.

(** X5. Whatever a learning session is presented and however it ends, it
    leaves the relay bank, the relay pins and every store cell outside the
    registry region [0,16) unchanged, it keeps the registry at its length,
    and it never moves the slot index past 4; while the session is open
    the slot index is below 4, so a capture always writes inside the
    registry. *)
Theorem learning_session_frame (ins : list Input) (s : State) :
  let s' := (enterLearningMode ins s).1 in
  relayStates s' = relayStates s /\
  pins s' = pins s /\
  (forall a, ~ 0 <= a < 16 -> eeprom s' !! a = eeprom s !! a) /\
  length (buttonCodes s') = length (buttonCodes s) /\
  (learnStep s' <= 4)%nat /\
  (learningMode s' = true -> (learnStep s' < 4)%nat).
Proof.
  rewrite enterLearningMode_eq.
  apply (learnLoop_frame ins
    (set_trace
       (trace s ++
          [SerialText "LEARNING MODE: Press the remote button for Relay 1"])
       (set_learningModeStartTime (clock s)
          (set_learnStep 0%nat (set_learningMode true s))))).
  - intros _. simpl. lia.
  - simpl. lia.
Qed.

(** ** Run-time dispatch: what changes and when *)

Lemma writeEEPROM_bool_sketch (address : Z) (flag : bool) (s : State) :
  let s' := writeEEPROM_bool address flag s in
  relayStates s' = relayStates s /\
  learningMode s' = learningMode s /\
  learnStep s' = learnStep s /\
  lastReceivedCode s' = lastReceivedCode s /\
  lastReceivedTime s' = lastReceivedTime s /\
  lastDebounceTime s' = lastDebounceTime s /\
  learningModeStartTime s' = learningModeStartTime s /\
  buttonLow s' = buttonLow s /\
  rxAvailable s' = rxAvailable s /\
  rxValue s' = rxValue s.
Proof.
  unfold_board.
  destruct (bus s) as [|r rs]; simpl.
  - repeat split; reflexivity.
  - destruct (endStatus r =? 0) eqn:E; simpl; rewrite ?E; simpl;
      repeat split; reflexivity.
Qed.

(** The scan changes the relay of no slot whose code differs from the
    value, and leaves the session variables alone. *)
Lemma scanCodes_sketch (n : nat) : forall (i : nat) (value : Z) (s : State),
  let s' := scanCodes n i value s in
  (forall k, buttonCode s k <> value -> relayState s' k = relayState s k) /\
  length (relayStates s') = length (relayStates s) /\
  learningMode s' = learningMode s /\
  learnStep s' = learnStep s /\
  lastDebounceTime s' = lastDebounceTime s /\
  learningModeStartTime s' = learningModeStartTime s /\
  buttonLow s' = buttonLow s.
Proof.
  induction n as [|n IH]; intros i value s; simpl.
  - repeat split; reflexivity.
  - destruct (Z.eqb_spec value (buttonCode s i)) as [E|E]; [|apply IH].
    destruct (writeEEPROM_bool_sketch (16 + Z.of_nat i)
                (relayState (toggleRelay i s) i) (toggleRelay i s))
      as (W1 & W2 & W3 & _ & _ & W6 & W7 & W8 & _).
    remember (writeEEPROM_bool (16 + Z.of_nat i)
                (relayState (toggleRelay i s) i) (toggleRelay i s))
      as w eqn:Hw. clear Hw.
    assert (relayStates (toggleRelay i s)
            = <[i := negb (relayState s i)]> (relayStates s)) as T1
      by reflexivity.
    rewrite T1 in W1.
    split; [|split; [rewrite W1; apply length_insert|]].
    + intros k Hk. unfold relayState at 1. rewrite W1.
      rewrite list_lookup_insert_ne by (intros ->; congruence).
      reflexivity.
    + repeat split; assumption.
Qed.

Lemma handleRFInput_sketch (s : State) :
  let s' := handleRFInput s in
  length (relayStates s') = length (relayStates s) /\
  learningMode s' = learningMode s /\
  learnStep s' = learnStep s /\
  lastDebounceTime s' = lastDebounceTime s /\
  learningModeStartTime s' = learningModeStartTime s /\
  buttonLow s' = buttonLow s.
Proof.
  unfold handleRFInput.
  destruct (rxAvailable s); [|repeat split; reflexivity].
  destruct (rxValue s =? 0); [repeat split; reflexivity|].
  destruct (negb (rxValue s =? lastReceivedCode s)
            || (debounceTime <? u32 (millis s - lastReceivedTime s)));
    [|repeat split; reflexivity].
  destruct (scanCodes_sketch 4 0 (rxValue s)
              (Serial_printNum (rxValue s) (Serial_print "Received: " s)))
    as (_ & S2 & S3 & S4 & S5 & S6 & S7).
  remember (scanCodes 4 0 (rxValue s)
              (Serial_printNum (rxValue s) (Serial_print "Received: " s)))
    as w eqn:Hw. clear Hw.
  repeat split; assumption.
Qed.

(** A slot whose code differs from the received value keeps its relay. *)
Lemma handleRFInput_keeps_relay (s : State) (k : nat) :
  buttonCode s k <> rxValue s ->
  relayState (handleRFInput s) k = relayState s k.
Proof.
  intros E. unfold handleRFInput.
  destruct (rxAvailable s); [|reflexivity].
  destruct (rxValue s =? 0); [reflexivity|].
  destruct (negb (rxValue s =? lastReceivedCode s)
            || (debounceTime <? u32 (millis s - lastReceivedTime s)));
    [|reflexivity].
  destruct (scanCodes_sketch 4 0 (rxValue s)
              (Serial_printNum (rxValue s) (Serial_print "Received: " s)))
    as (S1 & _).
  specialize (S1 k E).
  remember (scanCodes 4 0 (rxValue s)
              (Serial_printNum (rxValue s) (Serial_print "Received: " s)))
    as w eqn:Hw. clear Hw.
  exact S1.
Qed.

(** An accepted value is recorded as the last one, match or no match. *)
Lemma handleRFInput_records (s : State) :
  rxAvailable s = true -> rxValue s <> 0 ->
  rxValue s <> lastReceivedCode s \/
  debounceTime < u32 (clock s - lastReceivedTime s) ->
  lastReceivedCode (handleRFInput s) = rxValue s.
Proof.
  intros Ha Hv Hacc. rewrite handleRFInput_accept by assumption. cbv zeta.
  remember (scanCodes 4 0 (rxValue s)
              (Serial_printNum (rxValue s) (Serial_print "Received: " s)))
    as w eqn:Hw. clear Hw.
  reflexivity.
Qed.

(** X6. Run-time dispatch changes the state of a relay only when the
    receiver holds a non-zero value equal to the code stored for that
    relay's slot and that value passes the dedup test. *)
Theorem no_false_toggle (s : State) (k : nat) :
  relayState (handleRFInput s) k <> relayState s k ->
  rxAvailable s = true /\
  rxValue s <> 0 /\
  buttonCode s k = rxValue s /\
  (rxValue s <> lastReceivedCode s \/
   debounceTime < u32 (clock s - lastReceivedTime s)).
Proof.
  intros Hchg.
  destruct (rxAvailable s) eqn:Ha;
    [|exfalso; apply Hchg; rewrite handleRFInput_idle by exact Ha;
      reflexivity].
  destruct (Z.eq_dec (rxValue s) 0) as [Hz|Hz];
    [exfalso; apply Hchg; rewrite handleRFInput_zero by assumption;
     reflexivity|].
  split; [reflexivity|]. split; [exact Hz|]. split.
  - destruct (Z.eq_dec (buttonCode s k) (rxValue s)) as [E|E]; [exact E|].
    exfalso. apply Hchg. apply handleRFInput_keeps_relay. exact E.
  - destruct (Z.eq_dec (rxValue s) (lastReceivedCode s)) as [E|E];
      [|left; exact E].
    destruct (Z_le_gt_dec (u32 (clock s - lastReceivedTime s)) debounceTime)
      as [Hq|Hq]; [|right; lia].
    exfalso. apply Hchg.
    rewrite handleRFInput_reject by assumption. reflexivity.
Qed.

Lemma no_false_toggle_witness :
  buttonCode demo 1 = rxValue demo.
Proof.
  refine (proj1 (proj2 (proj2 (no_false_toggle demo 1 _)))).
  vm_compute. discriminate.
Defined.

(** X7. As long as the learn button reads high, the main loop is run-time
    dispatch and nothing else: running [loop] over the inputs gives the
    state that one [handleRFInput] per input gives, and learning mode is
    never entered. *)
Theorem run_is_dispatch (ins : list Input) : forall (fuel : nat) (s : State),
  Forall (fun i => in_button i = false) ins ->
  learningMode s = false ->
  (length ins <= fuel)%nat ->
  run fuel ins s = dispatch ins s /\
  learningMode (run fuel ins s) = false.
Proof.
  unfold dispatch.
  induction ins as [|i rest IH]; intros fuel s Hbtn HL Hfuel.
  - destruct fuel; simpl; split; auto.
  - destruct fuel as [|fuel]; [simpl in Hfuel; lia|].
    inversion Hbtn as [|? ? Hi Hrest]; subst.
    simpl run. simpl foldl.
    assert (buttonLow (arrive i s) = false /\
            learningMode (arrive i s) = false) as [Hb Hl].
    { unfold arrive. destruct (in_signal i); simpl; split; assumption. }
    assert (loop rest (arrive i s) = (handleRFInput (arrive i s), rest))
      as Hloop.
    { unfold loop. rewrite Hb. simpl. rewrite Hl. reflexivity. }
    rewrite Hloop.
    apply IH; [exact Hrest| |simpl in Hfuel; lia].
    rewrite (proj1 (proj2 (handleRFInput_sketch (arrive i s)))). exact Hl.
Qed.

Lemma run_is_dispatch_witness :
  run 2 [mkInput 10 (Some 22) false; mkInput 2000 (Some 22) false]
    (paired [11; 22; 33; 22])
  = dispatch [mkInput 10 (Some 22) false; mkInput 2000 (Some 22) false]
      (paired [11; 22; 33; 22]).
Proof.
  refine (proj1 (run_is_dispatch
            [mkInput 10 (Some 22) false; mkInput 2000 (Some 22) false]
            2 (paired [11; 22; 33; 22]) _ _ _)).
  - repeat constructor.
  - reflexivity.
  - simpl. lia.
Defined.

(** X8. Run-time dedup suppresses only an immediate repeat.  When a stored
    code is received, then a different non-zero code, then the first code
    again, the relay of the first code is toggled both times, however
    short the intervals between the three. *)
Theorem interleaved_code_defeats_cooldown
    (s : State) (k : nat) (y : Z) (t2 t3 : N) :
  wellFormed s ->
  rxAvailable s = true ->
  0 < rxValue s < 2 ^ 32 ->
  rxValue s <> lastReceivedCode s \/
  debounceTime < u32 (clock s - lastReceivedTime s) ->
  firstMatch s (rxValue s) k ->
  0 < y < 2 ^ 32 ->
  y <> rxValue s ->
  let s1 := handleRFInput s in
  let s2 := handleRFInput (presented t2 y s1) in
  let s3 := handleRFInput (presented t3 (rxValue s) s2) in
  relayState s1 k = negb (relayState s k) /\
  relayState s2 k = relayState s1 k /\
  relayState s3 k = relayState s k.
Proof.
  intros [Hlen Hlenc] Ha Hx Hacc Hfirst Hy Hne s1 s2 s3.
  assert (rxValue s <> 0) as Hv by lia.
  destruct (handleRFInput_hit_state s k Hlen Ha Hv Hacc Hfirst)
    as (H1 & H2 & H3 & _).
  fold s1 in H1, H2, H3.
  destruct Hfirst as (Hk & Hcode & Hbefore).
  assert (length (relayStates s1) = 4%nat) as Hlen1
    by (rewrite H1, length_insert; exact Hlen).
  assert (relayState s1 k = negb (relayState s k)) as R1.
  { unfold relayState at 1. rewrite H1.
    rewrite list_lookup_insert_eq by lia. reflexivity. }
  clearbody s1.
  (* the other code *)
  set (p2 := presented t2 y s1) in *.
  assert (rxAvailable p2 = true /\ rxValue p2 = y /\
          lastReceivedCode p2 = rxValue s /\
          buttonCodes p2 = buttonCodes s /\
          relayStates p2 = relayStates s1) as (P1 & P2 & P3 & P4 & P5).
  { subst p2. rewrite presented_eq.
    cbn [rxAvailable rxValue lastReceivedCode buttonCodes relayStates
         set_rxValue set_rxAvailable set_buttonLow set_clock].
    rewrite u32_small by lia. auto. }
  assert (rxValue p2 <> 0) as Hv2 by (rewrite P2; lia).
  assert (rxValue p2 <> lastReceivedCode p2 \/
          debounceTime < u32 (clock p2 - lastReceivedTime p2)) as Hacc2
    by (left; rewrite P2, P3; exact Hne).
  assert (buttonCode p2 k <> rxValue p2) as Hother
    by (unfold buttonCode in *; rewrite P4, P2, Hcode; auto).
  pose proof (handleRFInput_keeps_relay p2 k Hother) as K2.
  pose proof (handleRFInput_records p2 P1 Hv2 Hacc2) as L2.
  destruct (handleRFInput_frame p2) as [B2 _].
  destruct (handleRFInput_sketch p2) as (G2 & _).
  fold s2 in K2, L2, B2, G2.
  assert (relayState s2 k = relayState s1 k) as R2
    by (rewrite K2; unfold relayState; rewrite P5; reflexivity).
  rewrite P5 in G2. rewrite P4 in B2. rewrite P2 in L2.
  clearbody s2. clear Hother Hacc2 Hv2 P1 P2 P3 P4 P5 K2. clearbody p2.
  (* the first code again *)
  set (p3 := presented t3 (rxValue s) s2) in *.
  assert (rxAvailable p3 = true /\ rxValue p3 = rxValue s /\
          lastReceivedCode p3 = y /\
          buttonCodes p3 = buttonCodes s /\
          relayStates p3 = relayStates s2) as (Q1 & Q2 & Q3 & Q4 & Q5).
  { subst p3. rewrite presented_eq.
    cbn [rxAvailable rxValue lastReceivedCode buttonCodes relayStates
         set_rxValue set_rxAvailable set_buttonLow set_clock].
    rewrite u32_small by lia. auto. }
  assert (length (relayStates p3) = 4%nat) as Hlen3 by congruence.
  assert (rxValue p3 <> 0) as Hv3 by (rewrite Q2; exact Hv).
  assert (rxValue p3 <> lastReceivedCode p3 \/
          debounceTime < u32 (clock p3 - lastReceivedTime p3)) as Hacc3
    by (left; rewrite Q2, Q3; auto).
  assert (firstMatch p3 (rxValue p3) k) as Hfirst3
    by (unfold firstMatch, buttonCode in *; rewrite Q4, Q2; auto).
  destruct (handleRFInput_hit_state p3 k Hlen3 Q1 Hv3 Hacc3 Hfirst3)
    as (G1 & _).
  fold s3 in G1.
  split; [exact R1|]. split; [exact R2|].
  unfold relayState at 1. rewrite G1.
  rewrite list_lookup_insert_eq by lia. simpl.
  unfold relayState at 1. rewrite Q5.
  fold (relayState s2 k). rewrite R2, R1. apply negb_involutive.
Qed.

Lemma interleaved_code_defeats_cooldown_witness :
  let s1 := handleRFInput demo in
  let s2 := handleRFInput (presented 0 99 s1) in
  let s3 := handleRFInput (presented 0 (rxValue demo) s2) in
  relayState s3 1 = relayState demo 1.
Proof.
  refine (proj2 (proj2 (interleaved_code_defeats_cooldown demo 1 99 0 0
                          _ eq_refl _ _ _ _ _))).
  - split; reflexivity.
  - change (rxValue demo) with 22. lia.
  - left. vm_compute. discriminate.
  - split; [lia|]. split; [reflexivity|].
    intros i Hi. destruct i as [|i]; [vm_compute; discriminate | lia].
  - lia.
  - vm_compute. discriminate.
Defined.

(** ** Captures at the edges *)

Lemma writeEEPROM_fail (address value : Z) (s : State)
    (r : BusResp) (rest : list BusResp) :
  bus s = r :: rest -> endStatus r <> 0 ->
  eeprom (writeEEPROM address value s) = eeprom s /\
  trace (writeEEPROM address value s) =
    trace s ++
      [BusWrite [Z.land (Z.shiftr address 8) 255; Z.land address 255;
                 Z.land (Z.shiftr value 24) 255;
                 Z.land (Z.shiftr value 16) 255;
                 Z.land (Z.shiftr value 8) 255;
                 Z.land value 255] (endStatus r);
       SerialText "I2C write failed!"].
Proof.
  intros Hb Hr. unfold writeEEPROM.
  rewrite (endTransmission_fail _ s r rest Hb Hr).
  destruct (Z.eqb_spec (endStatus r) 0) as [E|_]; [contradiction|].
  simpl. unfold Serial_print, emit. simpl.
  rewrite <- app_assoc. split; reflexivity.
Qed.

(** The log of a capturing pass starts with the log of its store write. *)
Lemma learnIter_capture_trace (s : State) :
  rxAvailable s = true ->
  rxValue s <> 0 ->
  rxValue s <> lastReceivedCode s ->
  exists l,
    trace (learnIter s) =
      trace (writeEEPROM (Z.of_nat (learnStep s) * 4) (rxValue s)
               (set_buttonCodes
                  (<[learnStep s := rxValue s]> (buttonCodes s)) s)) ++ l.
Proof.
  intros Ha Hv Hne. unfold learnIter. rewrite Ha.
  destruct (Z.eqb_spec (rxValue s) 0) as [E|_]; [contradiction|].
  destruct (Z.eqb_spec (rxValue s) (lastReceivedCode s)) as [E|_];
    [contradiction|].
  cbn [negb andb].
  change (learnStep
            (set_buttonCodes (<[learnStep s := rxValue s]> (buttonCodes s)) s))
    with (learnStep s).
  remember (writeEEPROM (Z.of_nat (learnStep s) * 4) (rxValue s)
    (set_buttonCodes (<[learnStep s := rxValue s]> (buttonCodes s)) s))
    as w eqn:Ew. clear Ew.
  unfold resetAvailable, delay, Serial_print, Serial_printNum, emit, millis.
  cbn [learnStep set_trace set_learnStep].
  destruct (4 <=? S (learnStep w))%nat;
    cbn [trace clock learningModeStartTime set_trace set_rxAvailable
         set_lastReceivedCode set_learnStep set_learningMode set_clock];
    match goal with
    | |- context [if ?c then _ else _] => destruct c
    end;
    cbn [trace set_trace set_learningMode];
    rewrite <- ?app_assoc; eexists; reflexivity.
Qed.

(** X9. A capture whose store write fails is not abandoned: the code is in
    the in-memory registry, the slot index advances and the failure is
    reported, but the store is unchanged, so the next start-up loads every
    slot as if the capture had not happened. *)
Theorem capture_outlives_store_failure
    (s : State) (r : BusResp) (rest answers : list BusResp) (j : nat) :
  rxAvailable s = true ->
  rxValue s <> 0 ->
  rxValue s <> lastReceivedCode s ->
  bus s = r :: rest ->
  endStatus r <> 0 ->
  buttonCodes (learnIter s) = <[learnStep s := rxValue s]> (buttonCodes s) /\
  learnStep (learnIter s) = S (learnStep s) /\
  eeprom (learnIter s) = eeprom s /\
  In (SerialText "I2C write failed!") (since s (learnIter s)) /\
  buttonCode (setup (boot (eeprom (learnIter s)) answers)) j
  = buttonCode (setup (boot (eeprom s) answers)) j.
Proof.
  intros Ha Hv Hne Hb Hr.
  destruct (learnIter_capture s Ha Hv Hne) as (C1 & _ & C3 & _).
  destruct (learnIter_capture_store s Ha Hv Hne) as [S1 _].
  destruct (learnIter_capture_trace s Ha Hv Hne) as [l Hl].
  destruct (writeEEPROM_fail (Z.of_nat (learnStep s) * 4) (rxValue s)
              (set_buttonCodes
                 (<[learnStep s := rxValue s]> (buttonCodes s)) s)
              r rest Hb Hr) as [W1 W2].
  rewrite W1 in S1. rewrite W2 in Hl.
  cbn [eeprom trace set_buttonCodes] in S1, Hl.
  split; [exact C1|]. split; [exact C3|]. split; [exact S1|]. split.
  - unfold since. rewrite Hl, <- app_assoc, drop_app_length.
    simpl. right. left. reflexivity.
  - rewrite S1. reflexivity.
Qed.

Lemma capture_outlives_store_failure_witness :
  eeprom (learnIter (set_bus [mkBusResp 2 0] demo))
  = eeprom (set_bus [mkBusResp 2 0] demo).
Proof.
  refine (proj1 (proj2 (proj2 (capture_outlives_store_failure
            (set_bus [mkBusResp 2 0] demo) (mkBusResp 2 0) [] [] 0
            eq_refl _ _ eq_refl _)))).
  - vm_compute. discriminate.
  - vm_compute. discriminate.
  - simpl. lia.
Defined.

(** X10. The timeout is tested after the capture branch of a pass.  A code
    latched when the window has already elapsed is therefore still
    captured, and the same pass then ends the session. *)
Theorem late_code_is_captured_then_times_out (s : State) :
  rxAvailable s = true ->
  rxValue s <> 0 ->
  rxValue s <> lastReceivedCode s ->
  learningModeTimeout < elapsed s ->
  elapsed s + 2020 < 2 ^ 32 ->
  buttonCodes (learnIter s) = <[learnStep s := rxValue s]> (buttonCodes s) /\
  learnStep (learnIter s) = S (learnStep s) /\
  lastReceivedCode (learnIter s) = rxValue s /\
  learningMode (learnIter s) = false.
Proof.
  intros Ha Hv Hne Hlate Hwrap.
  destruct (learnIter_capture s Ha Hv Hne)
    as (C1 & _ & C3 & C4 & _ & _ & (d & Hd & C7) & C8).
  pose proof (elapsed_range s) as Hr.
  rewrite u32_small in C7 by lia.
  split; [exact C1|]. split; [exact C3|]. split; [exact C4|].
  rewrite C8.
  destruct (Z.ltb_spec learningModeTimeout (elapsed (learnIter s)));
    [reflexivity|lia].
Qed.

Lemma late_code_is_captured_then_times_out_witness :
  learningMode
    (learnIter (set_learningMode true (presented 400000 22 (paired [1; 2; 3; 4]))))
  = false.
Proof.
  refine (proj2 (proj2 (proj2 (late_code_is_captured_then_times_out
            (set_learningMode true
               (presented 400000 22 (paired [1; 2; 3; 4])))
            eq_refl _ _ _ _)))).
  - vm_compute. discriminate.
  - vm_compute. discriminate.
  - vm_compute. reflexivity.
  - vm_compute. reflexivity.
Defined.

(** ** From learning to dispatch *)






(** ** Start-up without a store *)

(** [setup] in its phases: relays off, four loads, pins restored; the
    report changes nothing but the log. *)
Lemma setup_phases (s : State) :
  let p := foldl (fun s i => digitalWrite (relayPin i) false s) s (seq 0 4) in
  let l := foldl setupLoad p (seq 0 4) in
  buttonCodes (setup s) = buttonCodes l /\
  relayStates (setup s) = relayStates l /\
  eeprom (setup s) = eeprom l /\
  pins (setup s) =
    <[relayPin 3 := relayState l 3]>
      (<[relayPin 2 := relayState l 2]>
         (<[relayPin 1 := relayState l 1]>
            (<[relayPin 0 := relayState l 0]> (pins l)))).
Proof.
  intros p l. unfold setup. cbv zeta. fold p. fold l. clearbody l. clear p.
  cbn [foldl seq].
  destruct (digitalWrite_frame (relayPin 0) (relayState l 0) l)
    as (a1 & a2 & a3 & _ & _ & _ & a7).
  remember (digitalWrite (relayPin 0) (relayState l 0) l) as q0 eqn:E.
  clear E.
  destruct (digitalWrite_frame (relayPin 1) (relayState q0 1) q0)
    as (b1 & b2 & b3 & _ & _ & _ & b7).
  remember (digitalWrite (relayPin 1) (relayState q0 1) q0) as q1 eqn:E.
  clear E.
  destruct (digitalWrite_frame (relayPin 2) (relayState q1 2) q1)
    as (c1 & c2 & c3 & _ & _ & _ & c7).
  remember (digitalWrite (relayPin 2) (relayState q1 2) q1) as q2 eqn:E.
  clear E.
  destruct (digitalWrite_frame (relayPin 3) (relayState q2 3) q2)
    as (d1 & d2 & d3 & _ & _ & _ & d7).
  remember (digitalWrite (relayPin 3) (relayState q2 3) q2) as q3 eqn:E.
  clear E.
  remember (Serial_print "Setup complete. Current codes and relay states:" q3)
    as m eqn:Em.
  assert (buttonCodes m = buttonCodes q3 /\ relayStates m = relayStates q3 /\
          eeprom m = eeprom q3 /\ pins m = pins q3)
    as (m1 & m2 & m3 & m6)
    by (rewrite Em; repeat split; reflexivity).
  clear Em.
  destruct (setupReport_frame m 0) as (e1 & e2 & e3 & _ & _ & e6).
  remember (setupReport m 0) as u0 eqn:E. clear E.
  destruct (setupReport_frame u0 1) as (f1 & f2 & f3 & _ & _ & f6).
  remember (setupReport u0 1) as u1 eqn:E. clear E.
  destruct (setupReport_frame u1 2) as (g1 & g2 & g3 & _ & _ & g6).
  remember (setupReport u1 2) as u2 eqn:E. clear E.
  destruct (setupReport_frame u2 3) as (h1 & h2 & h3 & _ & _ & h6).
  remember (setupReport u2 3) as u3 eqn:E. clear E.
  assert (relayStates q0 = relayStates l) as R0 by congruence.
  assert (relayStates q1 = relayStates l) as R1 by congruence.
  assert (relayStates q2 = relayStates l) as R2 by congruence.
  rewrite h6, g6, f6, e6, m6, d7, c7, b7, a7.
  unfold relayState. rewrite R0, R1, R2.
  split; [congruence|]. split; [congruence|]. split; [congruence|].
  reflexivity.
Qed.

(** The relays-off phase of [setup] touches only pins and log. *)
Lemma setup_relays_off (s : State) :
  let p := foldl (fun s i => digitalWrite (relayPin i) false s) s (seq 0 4) in
  buttonCodes p = buttonCodes s /\ relayStates p = relayStates s /\
  eeprom p = eeprom s /\ bus p = bus s.
Proof. repeat split; reflexivity. Qed.

Lemma read_dead (address : Z) (s : State) (r : BusResp) (rest : list BusResp) :
  bus s = r :: rest -> endStatus r <> 0 ->
  (readEEPROM address s).1 = 0 /\
  (readEEPROMByte address s).1 = 0 /\
  (forall s', s' = (readEEPROM address s).2 \/
              s' = (readEEPROMByte address s).2 ->
     onlyBusUsed s s' /\ bus s' = rest).
Proof.
  intros Hb Hr. unfold readEEPROM, readEEPROMByte.
  rewrite !(endTransmission_fail _ s r rest Hb Hr).
  destruct (Z.eqb_spec (endStatus r) 0) as [E|_]; [contradiction|].
  simpl. split; [reflexivity|]. split; [reflexivity|].
  intros s' [-> | ->]; unfold onlyBusUsed; simpl;
    repeat split; try reflexivity.
Qed.

Lemma setupLoad_dead (i n : nat) (s : State) :
  answersFail (2 + n) s ->
  let s' := setupLoad s i in
  buttonCodes s' = <[i := 0]> (buttonCodes s) /\
  relayStates s' = <[i := false]> (relayStates s) /\
  eeprom s' = eeprom s /\
  pins s' = pins s /\
  answersFail n s'.
Proof.
  intros [Hn Hall] s'. subst s'. unfold setupLoad.
  destruct (bus s) as [|r1 [|r2 rest]] eqn:Hb; simpl in Hn; try lia.
  simpl in Hall.
  inversion Hall as [|? ? Hr1 Hall1]; subst.
  inversion Hall1 as [|? ? Hr2 Hall2]; subst.
  destruct (read_dead (Z.of_nat i * 4) s r1 (r2 :: rest) Hb Hr1)
    as (V1 & _ & F1).
  destruct (F1 _ (or_introl eq_refl)) as [O1 B1].
  destruct (readEEPROM (Z.of_nat i * 4) s) as [code s1].
  simpl in V1, O1, B1. subst code.
  assert (bus (set_buttonCodes (<[i := 0]> (buttonCodes s1)) s1) = r2 :: rest)
    as B1' by exact B1.
  destruct (read_dead (16 + Z.of_nat i) _ r2 rest B1' Hr2) as (_ & V2 & F2).
  destruct (F2 _ (or_intror eq_refl)) as [O2 B2].
  destruct (readEEPROMByte (16 + Z.of_nat i) _) as [b s2].
  simpl in V2, O2, B2. subst b.
  unfold onlyBusUsed in O1, O2. simpl in O2.
  destruct O1 as (A1 & A2 & _ & _ & _ & _ & _ & _ & _ & A10 & _ & A12 & _).
  destruct O2 as (C1 & C2 & _ & _ & _ & _ & _ & _ & _ & C10 & _ & C12 & _).
  simpl. unfold answersFail. simpl. rewrite B2.
  repeat split; try congruence; try lia; try exact Hall2.
Qed.

(** X12. When the store does not answer (each of the eight read
    transactions of start-up fails), the board comes up in a definite
    state: every registry slot holds 0, every relay is off and every relay
    pin is driven low. *)
Theorem setup_on_dead_bus (s : State) :
  wellFormed s ->
  answersFail 8 s ->
  buttonCodes (setup s) = [0; 0; 0; 0] /\
  relayStates (setup s) = [false; false; false; false] /\
  (forall k, (k < 4)%nat -> pins (setup s) !! relayPin k = Some false) /\
  eeprom (setup s) = eeprom s.
Proof.
  intros [Hlr Hlc] Hfail.
  pose proof (setup_phases s) as Hl.
  pose proof (setup_relays_off s) as Hp0.
  cbv zeta in Hl, Hp0. cbn [foldl seq] in Hl, Hp0.
  set (p := digitalWrite (relayPin 3) false
              (digitalWrite (relayPin 2) false
                 (digitalWrite (relayPin 1) false
                    (digitalWrite (relayPin 0) false s)))) in *.
  clearbody p. destruct Hp0 as (P1 & P2 & P3 & P4).
  assert (answersFail 8 p) as Hp
    by (unfold answersFail in *; rewrite P4; exact Hfail).
  destruct (setupLoad_dead 0 6 p Hp) as (A1 & A2 & A3 & _ & A5).
  set (l0 := setupLoad p 0) in *. clearbody l0.
  destruct (setupLoad_dead 1 4 l0 A5) as (B1 & B2 & B3 & _ & B5).
  set (l1 := setupLoad l0 1) in *. clearbody l1.
  destruct (setupLoad_dead 2 2 l1 B5) as (C1 & C2 & C3 & _ & C5).
  set (l2 := setupLoad l1 2) in *. clearbody l2.
  destruct (setupLoad_dead 3 0 l2 C5) as (D1 & D2 & D3 & _ & _).
  set (l3 := setupLoad l2 3) in *. clearbody l3.
  destruct Hl as (S1 & S2 & S3 & S4).
  rewrite C1, B1, A1, P1 in D1. rewrite C2, B2, A2, P2 in D2.
  destruct (relayStates s) as [|r0 [|r1 [|r2 [|r3 [|]]]]]; try discriminate.
  destruct (buttonCodes s) as [|c0 [|c1 [|c2 [|c3 [|]]]]]; try discriminate.
  simpl in D1, D2.
  unfold relayState in S4. rewrite D2 in S4.
  cbn [default lookup list_lookup] in S4.
  split; [congruence|]. split; [congruence|].
  split; [|congruence].
  intros k Hk. rewrite S4.
  assert (k = 0 \/ k = 1 \/ k = 2 \/ k = 3)%nat as Hcase by lia.
  destruct Hcase as [-> | [-> | [-> | ->]]]; simpl;
    rewrite ?lookup_insert_eq;
    repeat (rewrite lookup_insert_ne by (vm_compute; discriminate));
    rewrite ?lookup_insert_eq; reflexivity.
Qed.

Lemma setup_on_dead_bus_witness :
  buttonCodes
    (setup (boot (<[0 := 1]> ∅)
              [mkBusResp 2 0; mkBusResp 2 0; mkBusResp 2 0; mkBusResp 2 0;
               mkBusResp 4 0; mkBusResp 4 0; mkBusResp 4 0; mkBusResp 4 0]))
  = [0; 0; 0; 0].
Proof.
  refine (proj1 (setup_on_dead_bus _ _ _)).
  - split; reflexivity.
  - split; [simpl; lia|]. simpl. repeat constructor; simpl; lia.
Defined.
